(** * Job lifecycle core of the Firecrawl Python SDK

    A shallow embedding of [apps/python-sdk/firecrawl/firecrawl.py]:
    the retrying transport helpers, the synchronous pollers with their
    page-chain aggregation, the error-message synthesis and the
    WebSocket watcher, followed by the properties established of them. *)

From Stdlib Require Import ZArith QArith String List Lia DecimalString.
From stdpp Require Import base option list strings gmap.
Import ListNotations.

Local Open Scope string_scope.
Local Open Scope list_scope.

(** ** Python values and outcomes *)

(** [str(n)] for a Python [int]. *)
Definition py_str_int (n : Z) : string := NilEmpty.string_of_int (Z.to_int n).

(** A parsed JSON object, as [response.json()] and [json.loads] hand it
    to the code.  Only the keys the module reads are named; [None] is an
    absent key.  ['next'] can be present and [null], which the code
    tells apart from an absent key.  Documents are JSON objects too and
    are stored without being interpreted; [j_fields] holds their
    remaining keys. *)
#[warnings="-register-all"]
Inductive Json : Type := mkJson {
  j_status : option string;
  j_total : option Z;
  j_completed : option Z;
  j_creditsUsed : option Z;
  j_expiresAt : option string;
  j_data : option (list Json);
  j_next : option (option string);
  j_error : option string;
  j_details : option string;
  j_fields : list (string * string)
}.

(** [status_data['data'] = data] *)
Definition set_data (status_data : Json) (data : list Json) : Json :=
  mkJson (j_status status_data) (j_total status_data)
         (j_completed status_data) (j_creditsUsed status_data)
         (j_expiresAt status_data) (Some data) (j_next status_data)
         (j_error status_data) (j_details status_data)
         (j_fields status_data).

(** A [requests.Response]: the status code and the body, [None] when the
    body is not JSON. *)
Record Response : Type := mkResponse {
  status_code : Z;
  body : option Json
}.

(** The exceptions the module raises or lets through. *)
Inductive Exn : Type :=
| Exception (msg : string)
| HTTPError (msg : option string) (code : Z)
| JSONDecodeError
| RequestException (msg : string)
| KeyError (key : string)
| UnboundLocalError (name : string)
| ValueError (msg : string)
| ListenerError (handler : nat).

(** What a call does: it returns, it raises, or the model's loop budget
    ran out before it did either. *)
Inductive Outcome (A : Type) : Type :=
| Ok (a : A)
| Raised (e : Exn)
| OutOfFuel.
Arguments Ok {A} a.
Arguments Raised {A} e.
Arguments OutOfFuel {A}.

(** State and exceptions: a mutation made before a [raise] stays made. *)
Definition M (S A : Type) : Type := S -> Outcome A * S.

Definition ret {S A} (a : A) : M S A := fun s => (Ok a, s).
Definition raise {S A} (e : Exn) : M S A := fun s => (Raised e, s).
Definition out_of_fuel {S A} : M S A := fun s => (OutOfFuel, s).
Definition bind {S A B} (c : M S A) (k : A -> M S B) : M S B :=
  fun s => match c s with
           | (Ok a, s') => k a s'
           | (Raised e, s') => (Raised e, s')
           | (OutOfFuel, s') => (OutOfFuel, s')
           end.
(** [try: c  except Exception as e: h e] *)
Definition try_except {S A} (c : M S A) (h : Exn -> M S A) : M S A :=
  fun s => match c s with
           | (Raised e, s') => h e s'
           | r => r
           end.

Declare Scope py_scope.
Delimit Scope py_scope with py.
Notation "x <- c ;; k" := (bind c (fun x => k))
  (at level 20, c at level 99, k at level 200, only parsing) : py_scope.
Notation "c ;; k" := (bind c (fun _ => k))
  (at level 100, k at level 200, right associativity, only parsing)
  : py_scope.
Local Open Scope py_scope.

(** [for x in xs: body x] *)
Fixpoint for_each {S A} (xs : list A) (body : A -> M S unit) : M S unit :=
  match xs with
  | [] => ret tt
  | x :: xs' => body x ;; for_each xs' body
  end.

(** ** The world of [FirecrawlApp] *)

Inductive Method : Type := GET | POST.

(** What the process does to the outside, in the order it does it.
    [LogError text (Some e)] is [logger.error(f"text{e}")], the text
    followed by the rendering of the exception. *)
Inductive Effect : Type :=
| Request (method : Method) (url : option string) (timeout : option Z)
| Sleep (seconds : Q)
| Print (text : string)
| LogWarning (text : string)
| LogError (text : string) (cause : option Exn).

(** [clock] counts the requests sent so far. *)
Record World : Type := mkWorld {
  clock : nat;
  trace : list Effect
}.

Definition App (A : Type) : Type := M World A.

Definition emit (e : Effect) : App unit :=
  fun w => (Ok tt, mkWorld (clock w) (trace w ++ [e])).

(** [time.sleep(seconds)], which refuses a negative length. *)
Definition sleep (seconds : Q) : App unit :=
  if Qle_bool 0 seconds then emit (Sleep seconds)
  else raise (ValueError "sleep length must be non-negative").

(** The [n]-th request of the run, sent to [url], is answered by a
    response or fails inside [requests] (connection refused, invalid
    URL, ...).  The URL is optional because [_monitor_job_status] hands
    a [null] ['next'] to [requests.get] as it is. *)
Definition Net : Type := Method -> option string -> nat -> Exn + Response.

Section FirecrawlApp.

Variable net : Net.
Variable api_url : string.
(** [utils.scrape_formats_response_transform], which rewrites a document
    in place. *)
Variable scrape_formats_response_transform : Json -> Json.

(** [requests.get(url, ...)] and [requests.post(url, ..., timeout=t)] *)
Definition requests_send (method : Method) (url : option string)
    (timeout : option Z) : App Response :=
  fun w =>
    let w' := mkWorld (S (clock w))
                      (trace w ++ [Request method url timeout]) in
    match net method url (clock w) with
    | inl e => (Raised e, w')
    | inr r => (Ok r, w')
    end.

(** [backoff_factor * (2 ** attempt)] *)
Definition backoff (backoff_factor : Q) (attempt : nat) : Q :=
  (backoff_factor * inject_Z (2 ^ Z.of_nat attempt))%Q.

(** The loop [for attempt in range(retries)] and the [return response]
    after it, the same in [_post_request] and [_get_request], entered at
    [attempt] with [remaining] iterations to go; [response] is the local
    variable, unbound before the first iteration. *)
Fixpoint retry_loop (method : Method) (url : option string)
    (timeout : option Z) (backoff_factor : Q)
    (remaining attempt : nat) (response : option Response)
    : App Response :=
  match remaining with
  | O => match response with
         | Some r => ret r
         | None => raise (UnboundLocalError "response")
         end
  | S remaining' =>
      r <- requests_send method url timeout ;;
      if (status_code r =? 502)%Z then
        sleep (backoff backoff_factor attempt) ;;
        retry_loop method url timeout backoff_factor remaining'
                   (S attempt) (Some r)
      else ret r
  end.

(** [timeout=((data["timeout"] + 5000) if "timeout" in data else None)] *)
Definition post_timeout (data_timeout : option Z) : option Z :=
  match data_timeout with
  | Some t => Some (t + 5000)%Z
  | None => None
  end.

Definition _post_request (url : string) (data_timeout : option Z)
    (retries : nat) (backoff_factor : Q) : App Response :=
  retry_loop POST (Some url) (post_timeout data_timeout) backoff_factor
             retries 0 None.

Definition _get_request (url : option string)
    (retries : nat) (backoff_factor : Q) : App Response :=
  retry_loop GET url None backoff_factor retries 0 None.

(** The defaults [retries=3] and [backoff_factor=0.5]. *)
Definition default_retries : nat := 3.
Definition default_backoff_factor : Q := (1 # 2)%Q.

(** [self._get_request(url, headers)]: the call with the default
    [retries] and [backoff_factor], as every caller in the module writes
    it. *)
Definition get (url : option string) : App Response :=
  _get_request url default_retries default_backoff_factor.

(** *** Error translation *)

(** [_get_error_message]; [None] is Python's [None], returned when the
    function runs off its end.  The branch for 403 binds the text to a
    local variable and does not return it. *)
Definition _get_error_message (status_code : Z)
    (action error_message error_details : string) : option string :=
  if (status_code =? 402)%Z then
    Some ("Payment Required: Failed to " +:+ action +:+ ". "
          +:+ error_message +:+ " - " +:+ error_details)
  else if (status_code =? 403)%Z then
    let message := "Website Not Supported: Failed to " +:+ action +:+ ". "
                   +:+ error_message +:+ " - " +:+ error_details in
    None
  else if (status_code =? 408)%Z then
    Some ("Request Timeout: Failed to " +:+ action
          +:+ " as the request timed out. "
          +:+ error_message +:+ " - " +:+ error_details)
  else if (status_code =? 409)%Z then
    Some ("Conflict: Failed to " +:+ action +:+ " due to a conflict. "
          +:+ error_message +:+ " - " +:+ error_details)
  else if (status_code =? 500)%Z then
    Some ("Internal Server Error: Failed to " +:+ action +:+ ". "
          +:+ error_message +:+ " - " +:+ error_details)
  else
    Some ("Unexpected error during " +:+ action +:+ ": Status code "
          +:+ py_str_int status_code +:+ ". "
          +:+ error_message +:+ " - " +:+ error_details).

(** [_handle_error]: every path through it raises. *)
Definition _handle_error {A : Type} (response : Response) (action : string)
    : App A :=
  match body response with
  | None =>
      raise (HTTPError
               (Some ("Failed to parse Firecrawl error response as JSON. "
                      +:+ "Status code: "
                      +:+ py_str_int (status_code response)))
               (status_code response))
  | Some j =>
      let error_message :=
        default "No error message provided." (j_error j) in
      let error_details :=
        default "No additional error details provided." (j_details j) in
      let message :=
        _get_error_message (status_code response) action
                           error_message error_details in
      raise (HTTPError message (status_code response))
  end.

(** *** Status payloads *)

(** [try: status_data = response.json()
     except: raise Exception('Failed to parse Firecrawl response as JSON.')] *)
Definition json_or_raise (response : Response) : App Json :=
  match body response with
  | Some j => ret j
  | None => raise (Exception "Failed to parse Firecrawl response as JSON.")
  end.

(** [status_data['status']] *)
Definition getitem_status (status_data : Json) : App string :=
  match j_status status_data with
  | Some s => ret s
  | None => raise (KeyError "status")
  end.

(** [status in ['active', 'paused', 'pending', 'queued', 'waiting',
    'scraping']] *)
Definition in_progress (status : string) : bool :=
  existsb (String.eqb status)
          ["active"; "paused"; "pending"; "queued"; "waiting"; "scraping"].

(** The keyword arguments that [check_crawl_status] and
    [check_batch_scrape_status] build in their local [response] and pass
    to [CrawlStatusResponse] and [BatchScrapeStatusResponse].  Both
    classes are declared in [types.py]; the calls are modelled up to the
    arguments they receive. *)
Record StatusResponse : Type := mkStatusResponse {
  r_status : option string;
  r_total : option Z;
  r_completed : option Z;
  r_credits_used : option Z;
  r_expires_at : option string;
  r_data : list Json;
  r_next : option string;
  r_error : option string
}.

(** The dictionary display [response = {...}] with the two assignments
    that follow it; [data] is the local variable, [None] while it is
    unbound. *)
Definition build_response (status_data : Json) (data : option (list Json))
    : App StatusResponse :=
  match data with
  | None => raise (UnboundLocalError "data")
  | Some data =>
      ret (mkStatusResponse
             (j_status status_data) (j_total status_data)
             (j_completed status_data) (j_creditsUsed status_data)
             (j_expiresAt status_data) data
             (default None (j_next status_data))
             (j_error status_data))
  end.

(** *** Page chains *)

(** [if not next_url] *)
Definition falsy (next_url : option string) : bool :=
  match next_url with
  | None => true
  | Some u => String.eqb u ""
  end.

(** The body of the [try] in the pagination loop of [check_crawl_status]
    and [check_batch_scrape_status]: [None] is [break], [Some] carries
    the rebound [status_data] and the extended [data]. *)
Definition fetch_next_page (next_url : option string) (data : list Json)
    : App (option (Json * list Json)) :=
  try_except
    (status_response <- get next_url ;;
     if negb (status_code status_response =? 200)%Z then
       emit (LogError ("Failed to fetch next page: "
                       +:+ py_str_int (status_code status_response))
                      None) ;;
       ret None
     else
       next_data <- json_or_raise status_response ;;
       ret (Some (next_data, data ++ default [] (j_data next_data))))
    (fun e =>
       emit (LogError "Error during pagination request: " (Some e)) ;;
       ret None).

(** [while 'next' in status_data: ...] as [check_crawl_status] and
    [check_batch_scrape_status] write it (the same text in both).  It
    yields the last [status_data] and the accumulated [data]. *)
Fixpoint paginate (fuel : nat) (status_data : Json) (data : list Json)
    : App (Json * list Json) :=
  match fuel with
  | O => out_of_fuel
  | S fuel' =>
      match j_next status_data with
      | None => ret (status_data, data)
      | Some next_url =>
          match j_data status_data with
          | None => raise (KeyError "data")
          | Some page =>
              if (length page =? 0)%nat then ret (status_data, data)
              else if falsy next_url then
                emit (LogWarning "Expected 'next' URL is missing.") ;;
                ret (status_data, data)
              else
                step <- fetch_next_page next_url data ;;
                match step with
                | None => ret (status_data, data)
                | Some (next_data, data') => paginate fuel' next_data data'
                end
          end
      end
  end.

(** [while 'next' in status_data: ...] as [_monitor_job_status] writes
    it: the next page is parsed whatever its status code. *)
Fixpoint monitor_pages (fuel : nat) (status_data : Json) (data : list Json)
    : App (Json * list Json) :=
  match fuel with
  | O => out_of_fuel
  | S fuel' =>
      match j_next status_data with
      | None => ret (status_data, data)
      | Some next_url =>
          match j_data status_data with
          | None => raise (KeyError "data")
          | Some page =>
              if (length page =? 0)%nat then ret (status_data, data)
              else
                status_response <- get next_url ;;
                status_data' <- json_or_raise status_response ;;
                monitor_pages fuel' status_data'
                              (data ++ default [] (j_data status_data'))
          end
      end
  end.

(** *** The pollers *)

Definition check_crawl_status (fuel : nat) (id : string)
    : App StatusResponse :=
  let endpoint := "/v1/crawl/" +:+ id in
  response <- get (Some (api_url +:+ endpoint)) ;;
  if (status_code response =? 200)%Z then
    status_data <- json_or_raise response ;;
    status <- getitem_status status_data ;;
    result <-
      (if String.eqb status "completed" then
         match j_data status_data with
         | Some data =>
             last <- paginate fuel status_data data ;;
             ret (set_data (fst last) (snd last), Some (snd last))
         | None => ret (status_data, None)
         end
       else ret (status_data, None)) ;;
    build_response (fst result) (snd result)
  else _handle_error response "check crawl status".

(** [while status_data['status'] != 'completed': ...] of
    [check_batch_scrape_status]. *)
Fixpoint batch_wait (fuel : nat) (url : string) (poll_interval : Z)
    (status_data : Json) : App Json :=
  match fuel with
  | O => out_of_fuel
  | S fuel' =>
      status <- getitem_status status_data ;;
      if negb (String.eqb status "completed") then
        emit (Print status) ;;
        sleep (inject_Z poll_interval) ;;
        response <- get (Some url) ;;
        status_data' <-
          (if (status_code response =? 200)%Z then
             match body response with
             | Some j => ret j
             | None => raise JSONDecodeError
             end
           else _handle_error response "check batch scrape status") ;;
        batch_wait fuel' url poll_interval status_data'
      else ret status_data
  end.

(** [if data: for document in data:
       scrape_formats_response_transform(document)] *)
Definition transform_documents (data : list Json) : list Json :=
  match data with
  | [] => data
  | _ => map scrape_formats_response_transform data
  end.

Definition check_batch_scrape_status (fuel : nat) (id : string)
    (poll_interval : Z) : App StatusResponse :=
  let endpoint := "/v1/batch/scrape/" +:+ id in
  response <- get (Some (api_url +:+ endpoint)) ;;
  if (status_code response =? 200)%Z then
    status_data <- json_or_raise response ;;
    status_data <- batch_wait fuel (api_url +:+ endpoint) poll_interval
                              status_data ;;
    result <-
      match j_data status_data with
      | Some data =>
          last <- paginate fuel status_data data ;;
          ret (fst last, Some (transform_documents (snd last)))
      | None => ret (status_data, None)
      end ;;
    build_response (fst result) (snd result)
  else _handle_error response "check batch scrape status".

(** [_monitor_job_status]; it returns the dictionary [status_data] that
    the code unpacks into the keyword arguments of [CrawlStatusResponse]. *)
Fixpoint _monitor_job_status (fuel : nat) (id : string) (poll_interval : Z)
    : App Json :=
  match fuel with
  | O => out_of_fuel
  | S fuel' =>
      let api_url := api_url +:+ "/v1/crawl/" +:+ id in
      status_response <- get (Some api_url) ;;
      if (status_code status_response =? 200)%Z then
        status_data <- json_or_raise status_response ;;
        status <- getitem_status status_data ;;
        if String.eqb status "completed" then
          match j_data status_data with
          | Some data =>
              last <- monitor_pages fuel' status_data data ;;
              ret (set_data (fst last) (snd last))
          | None =>
              raise (Exception
                       "Crawl job completed but no data was returned")
          end
        else if in_progress status then
          let poll_interval := Z.max poll_interval 2 in
          sleep (inject_Z poll_interval) ;;
          _monitor_job_status fuel' id poll_interval
        else
          raise (Exception ("Crawl job failed or was stopped. Status: "
                            +:+ status))
      else
        _handle_error (A := unit) status_response "check crawl status" ;;
        _monitor_job_status fuel' id poll_interval
  end.

End FirecrawlApp.

(** ** The watcher *)

(** An inbound frame after [json.loads]: the keys ['type'], ['data'] and
    ['error'], each possibly absent. *)
Record Message : Type := mkMessage {
  msg_type : option string;
  msg_data : option Json;
  msg_error : option string
}.

(** The three dictionaries handed to listeners. *)
Inductive Detail : Type :=
| DetailDone (status : string) (data : list Json) (id : string)
| DetailError (status : string) (data : list Json) (error : string)
              (id : string)
| DetailDocument (data : Json) (id : string).

(** A registered callback: a name to tell it from the others, and
    whether it raises on a given detail.  A listener reads the session
    and does not write to it. *)
Record Handler : Type := mkHandler {
  h_name : nat;
  h_raises : Detail -> bool
}.

(** One call [handler(detail)], with the session status the listener can
    read while it runs. *)
Record Invocation : Type := mkInvocation {
  inv_handler : nat;
  inv_detail : Detail;
  inv_status : string
}.

Module CrawlWatcher.

(** The attributes of a [CrawlWatcher] that message handling touches
    ([app] and [ws_url] serve the connection only). *)
Record t : Type := mk {
  id : string;
  data : list Json;
  status : string;
  event_handlers : gmap string (list Handler)
}.

(** The object and the calls its listeners have received so far. *)
Record Session : Type := mkSession {
  self : t;
  heard : list Invocation
}.

Definition Watch (A : Type) : Type := M Session A.

Definition __init__ (id : string) : t :=
  mk id [] "scraping"
     (<["done" := []]> (<["error" := []]> (<["document" := []]> ∅))).

Definition start (id : string) : Session := mkSession (__init__ id) [].

Definition set_status (status : string) : Watch unit :=
  fun s => (Ok tt, mkSession (mk (id (self s)) (data (self s)) status
                                 (event_handlers (self s)))
                             (heard s)).

(** [self.data.extend(docs)] *)
Definition extend_data (docs : list Json) : Watch unit :=
  fun s => (Ok tt, mkSession (mk (id (self s)) (data (self s) ++ docs)
                                 (status (self s))
                                 (event_handlers (self s)))
                             (heard s)).

Definition read : Watch t := fun s => (Ok (self s), s).

Definition add_event_listener (event_type : string) (handler : Handler)
    : Watch unit :=
  fun s =>
    match event_handlers (self s) !! event_type with
    | Some handlers =>
        (Ok tt,
         mkSession (mk (id (self s)) (data (self s)) (status (self s))
                       (<[event_type := handlers ++ [handler]]>
                          (event_handlers (self s))))
                   (heard s))
    | None => (Ok tt, s)
    end.

(** [handler(detail)] *)
Definition call (handler : Handler) (detail : Detail) : Watch unit :=
  fun s =>
    let s' := mkSession (self s)
                (heard s ++ [mkInvocation (h_name handler) detail
                                          (status (self s))]) in
    if h_raises handler detail
    then (Raised (ListenerError (h_name handler)), s')
    else (Ok tt, s').

Definition dispatch_event (event_type : string) (detail : Detail)
    : Watch unit :=
  me <- read ;;
  match event_handlers me !! event_type with
  | Some handlers => for_each handlers (fun handler => call handler detail)
  | None => ret tt
  end.

(** [msg[key]] *)
Definition getitem {A : Type} (key : string) (field : option A) : Watch A :=
  match field with
  | Some v => ret v
  | None => raise (KeyError key)
  end.

Definition _handle_message (msg : Message) : Watch unit :=
  type <- getitem "type" (msg_type msg) ;;
  if String.eqb type "done" then
    set_status "completed" ;;
    me <- read ;;
    dispatch_event "done" (DetailDone (status me) (data me) (id me))
  else if String.eqb type "error" then
    set_status "failed" ;;
    me <- read ;;
    error <- getitem "error" (msg_error msg) ;;
    dispatch_event "error"
                   (DetailError (status me) (data me) error (id me))
  else if String.eqb type "catchup" then
    payload <- getitem "data" (msg_data msg) ;;
    embedded <- getitem "status" (j_status payload) ;;
    set_status embedded ;;
    extend_data (default [] (j_data payload)) ;;
    me <- read ;;
    for_each (data me)
             (fun doc => dispatch_event "document"
                                        (DetailDocument doc (id me)))
  else if String.eqb type "document" then
    doc <- getitem "data" (msg_data msg) ;;
    extend_data [doc] ;;
    me <- read ;;
    dispatch_event "document" (DetailDocument doc (id me))
  else ret tt.

(** [async for message in websocket: ...]: the frames are handled one
    after the other, in arrival order. *)
Definition _listen (frames : list Message) : Watch unit :=
  for_each frames _handle_message.

End CrawlWatcher.

(** [AsyncCrawlWatcher] inherits everything from [CrawlWatcher] and
    overrides [_handle_message] with the same text. *)
Module AsyncCrawlWatcher.

Import CrawlWatcher.

Definition _handle_message (msg : Message) : Watch unit :=
  type <- getitem "type" (msg_type msg) ;;
  if String.eqb type "done" then
    set_status "completed" ;;
    me <- read ;;
    dispatch_event "done" (DetailDone (status me) (data me) (id me))
  else if String.eqb type "error" then
    set_status "failed" ;;
    me <- read ;;
    error <- getitem "error" (msg_error msg) ;;
    dispatch_event "error"
                   (DetailError (status me) (data me) error (id me))
  else if String.eqb type "catchup" then
    payload <- getitem "data" (msg_data msg) ;;
    embedded <- getitem "status" (j_status payload) ;;
    set_status embedded ;;
    extend_data (default [] (j_data payload)) ;;
    me <- read ;;
    for_each (data me)
             (fun doc => dispatch_event "document"
                                        (DetailDocument doc (id me)))
  else if String.eqb type "document" then
    doc <- getitem "data" (msg_data msg) ;;
    extend_data [doc] ;;
    me <- read ;;
    dispatch_event "document" (DetailDocument doc (id me))
  else ret tt.

Definition _listen (frames : list Message) : Watch unit :=
  for_each frames _handle_message.

End AsyncCrawlWatcher.

(** ** Vocabulary of the statements *)

(** The requests and sleeps of [k] consecutive 502 answers, the first of
    them to attempt number [first]. *)
Definition attempts (method : Method) (url : option string)
    (timeout : option Z) (backoff_factor : Q) (first k : nat)
    : list Effect :=
  flat_map (fun attempt => [Request method url timeout;
                            Sleep (backoff backoff_factor attempt)])
           (seq first k).

(** The calls by which the listeners [handlers] receive [detail], in
    the order of the list, while the session status is [status]. *)
Definition deliveries (handlers : list Handler) (detail : Detail)
    (status : string) : list Invocation :=
  map (fun handler => mkInvocation (h_name handler) detail status) handlers.

(** The sessions a caller can build: a new watcher, listeners added to
    it, frames handled by it. *)
Inductive reachable : CrawlWatcher.Session -> Prop :=
| reachable_start (id : string) :
    reachable (CrawlWatcher.start id)
| reachable_add_event_listener (s : CrawlWatcher.Session)
    (event_type : string) (handler : Handler) :
    reachable s ->
    reachable (snd (CrawlWatcher.add_event_listener event_type handler s))
| reachable_handle_message (s : CrawlWatcher.Session) (msg : Message) :
    reachable s ->
    reachable (snd (CrawlWatcher._handle_message msg s)).

(** A computation that leaves the handler registry as it found it,
    whatever its outcome. *)
Definition keeps_registry {A : Type} (c : CrawlWatcher.Watch A) : Prop :=
  forall s,
    CrawlWatcher.event_handlers (CrawlWatcher.self (snd (c s)))
    = CrawlWatcher.event_handlers (CrawlWatcher.self s).

(** A computation that only ever adds to the trace. *)
Definition extends_trace {A : Type} (c : App A) : Prop :=
  forall w, exists added, trace (snd (c w)) = trace w ++ added.

(** ** Sample traffic *)

Definition document (markdown : string) : Json :=
  mkJson None None None None None None None None None
         [("markdown", markdown)].

Definition doc_a : Json := document "a".
Definition doc_b : Json := document "b".
Definition doc_c : Json := document "c".

(** A status payload with [completed] documents done out of [total]. *)
Definition status_page (status : string) (completed total : Z)
    (data : option (list Json)) (next : option (option string)) : Json :=
  mkJson (Some status) (Some total) (Some completed) (Some completed)
         (Some "2030-01-01T00:00:00.000Z") data next None None [].

Definition answer (code : Z) (body : option Json) : Exn + Response :=
  inr (mkResponse code body).

(** A server that answers the [n]-th request with the [n]-th entry, and
    drops the connection after the last. *)
Definition script (answers : list (Exn + Response)) : Net :=
  fun _ _ n =>
    nth n answers (inl (RequestException "Connection aborted."))%list.

Definition new_world : World := mkWorld 0 [].

Definition quiet (name : nat) : Handler := mkHandler name (fun _ => false).

Definition frame_document (doc : Json) : Message :=
  mkMessage (Some "document") (Some doc) None.
Definition frame_done : Message := mkMessage (Some "done") None None.
Definition frame_catchup (status : string) (docs : list Json) : Message :=
  mkMessage (Some "catchup")
            (Some (mkJson (Some status) None None None None (Some docs)
                          None None None []))
            None.

(** A JSON error body. *)
Definition error_body (error details : string) : Json :=
  mkJson None None None None None None None (Some error) (Some details) [].

(** The documents of the sample pages come back untouched. *)
Definition as_is (doc : Json) : Json := doc.

Definition first_page : Json :=
  status_page "completed" 2 3 (Some [doc_a; doc_b])
              (Some (Some "https://api.test/v1/crawl/job?skip=2")).
Definition second_page : Json :=
  status_page "completed" 3 3 (Some [doc_c]) None.

(** A new session with listener 1 on document events and listener 2 on
    done events. *)
Definition listening : CrawlWatcher.Session :=
  snd (CrawlWatcher.add_event_listener "done" (quiet 2)
         (snd (CrawlWatcher.add_event_listener "document" (quiet 1)
                 (CrawlWatcher.start "job")))).

(** The answers 502, 200, 200. *)
Definition flaky (i : nat) : Response :=
  mkResponse (nth i [502; 200; 200]%Z 200%Z) None.

(** ** Construction, headers and keyword arguments *)

(** [needle in haystack] for two strings. *)
Fixpoint py_in (needle haystack : string) : bool :=
  match haystack with
  | EmptyString => String.prefix needle haystack
  | String _ rest => String.prefix needle haystack || py_in needle rest
  end.

(** [a or b] for two optional strings: [a] unless it is [None] or
    empty. *)
Definition py_or (a b : option string) : option string :=
  if falsy a then b else a.

(** [f'{x}'] for an optional string. *)
Definition py_str_opt (x : option string) : string := default "None" x.

(** [', '.join(xs)] *)
Fixpoint join (sep : string) (xs : list string) : string :=
  match xs with
  | [] => ""
  | [x] => x
  | x :: rest => x +:+ sep +:+ join sep rest
  end.

(** A record of the logger, as [__init__] writes them. *)
Inductive LogRecord : Type :=
| Warning (text : string)
| Debug (text : string).

Module FirecrawlApp.

Record t : Type := mk {
  api_key : option string;
  api_url : string
}.

(** [__init__]; [getenv] is [os.getenv] without a default.  The result
    is the exception raised or the object built, with the records
    logged on the way. *)
Definition __init__ (getenv : string -> option string)
    (api_key api_url : option string) : list LogRecord * (Exn + t) :=
  let self_api_key := py_or api_key (getenv "FIRECRAWL_API_KEY") in
  let self_api_url :=
    py_str_opt
      (py_or api_url
             (Some (default "https://api.firecrawl.dev"
                            (getenv "FIRECRAWL_API_URL")))) in
  if py_in "api.firecrawl.dev" self_api_url
     && bool_decide (self_api_key = None)
  then ([Warning "No API key provided for cloud service"],
        inl (ValueError "No API key provided"))
  else ([Debug ("Initialized FirecrawlApp with API URL: " +:+ self_api_url)],
        inr (mk self_api_key self_api_url)).

(** [_prepare_headers], the same text in [FirecrawlApp] and in
    [AsyncFirecrawlApp]. *)
Definition _prepare_headers (self : t) (idempotency_key : option string)
    : gmap string string :=
  if negb (falsy idempotency_key) then
    <["Content-Type" := "application/json"]>
      (<["Authorization" := "Bearer " +:+ py_str_opt (api_key self)]>
         (<["x-idempotency-key" := py_str_opt idempotency_key]> ∅))
  else
    <["Content-Type" := "application/json"]>
      (<["Authorization" := "Bearer " +:+ py_str_opt (api_key self)]> ∅).

(** The table [method_params] of [_validate_kwargs]. *)
Definition scrape_kwargs : list string :=
  ["formats"; "headers"; "include_tags"; "exclude_tags";
   "only_main_content"; "wait_for"; "timeout"; "location"; "mobile";
   "skip_tls_verification"; "remove_base64_images"; "block_ads"; "proxy";
   "extract"; "json_options"; "actions"; "agent"; "webhook"].

Definition method_params : gmap string (gset string) :=
  list_to_map
    [("scrape_url",
      list_to_set
        ["formats"; "include_tags"; "exclude_tags"; "only_main_content";
         "wait_for"; "timeout"; "location"; "mobile";
         "skip_tls_verification"; "remove_base64_images"; "block_ads";
         "proxy"; "extract"; "json_options"; "actions";
         "change_tracking_options"]);
     ("search",
      list_to_set
        ["limit"; "tbs"; "filter"; "lang"; "country"; "location";
         "timeout"; "scrape_options"]);
     ("crawl_url",
      list_to_set
        ["include_paths"; "exclude_paths"; "max_depth";
         "max_discovery_depth"; "limit"; "allow_backward_links";
         "allow_external_links"; "ignore_sitemap"; "scrape_options";
         "webhook"; "deduplicate_similar_urls"; "ignore_query_parameters";
         "regex_on_full_url"]);
     ("map_url",
      list_to_set
        ["search"; "ignore_sitemap"; "include_subdomains"; "sitemap_only";
         "limit"; "timeout"]);
     ("batch_scrape_urls", list_to_set scrape_kwargs);
     ("async_batch_scrape_urls", list_to_set scrape_kwargs);
     ("batch_scrape_urls_and_watch", list_to_set scrape_kwargs)].

(** [_validate_kwargs]; only the keys of [kwargs] matter, so it is given
    as the set of its keys.  [set_order] is the order in which Python
    iterates the set [unknown_params], which depends on the hashes of
    its elements. *)
Definition _validate_kwargs {S : Type}
    (set_order : gset string -> list string)
    (kwargs : gset string) (method_name : string) : M S unit :=
  if bool_decide (kwargs = ∅) then ret tt
  else
    let allowed_params := default ∅ (method_params !! method_name) in
    let unknown_params := kwargs ∖ allowed_params in
    if negb (bool_decide (unknown_params = ∅)) then
      raise (ValueError
               ("Unsupported parameter(s) for " +:+ method_name +:+ ": "
                +:+ join ", " (set_order unknown_params)
                +:+ ". Please refer to the API documentation for the "
                +:+ "correct parameters."))
    else ret tt.

End FirecrawlApp.

(** ** Error lists and job submission *)

(** [j.get(key)] for a key that is not among the named ones and holds a
    string. *)
Fixpoint get_field (key : string) (fields : list (string * string))
    : option string :=
  match fields with
  | [] => None
  | (k, v) :: rest => if String.eqb k key then Some v else get_field key rest
  end.

Section Submission.

Variable net : Net.
Variable api_url : string.
Variable scrape_formats_response_transform : Json -> Json.
Variable set_order : gset string -> list string.
(** Whether the pydantic models [CrawlErrorsResponse], [CrawlResponse]
    and [BatchScrapeResponse] of [types.py] accept a dictionary as their
    keyword arguments. *)
Variable CrawlErrorsResponse : Json -> bool.
Variable CrawlResponse : Json -> bool.
Variable BatchScrapeResponse : Json -> bool.

(** [try: return Model(...) except: raise Exception('Failed to parse
    Firecrawl response as JSON.')], where the model is built from the
    unpacked [response.json()]. *)
Definition model_or_raise (model : Json -> bool) (response : Response)
    : App Json :=
  match body response with
  | Some j =>
      if model j then ret j
      else raise (Exception "Failed to parse Firecrawl response as JSON.")
  | None => raise (Exception "Failed to parse Firecrawl response as JSON.")
  end.

Definition check_crawl_errors (id : string) : App Json :=
  response <- get net (Some (api_url +:+ "/v1/crawl/" +:+ id +:+ "/errors")) ;;
  if (status_code response =? 200)%Z then
    model_or_raise CrawlErrorsResponse response
  else _handle_error response "check crawl errors".

Definition check_batch_scrape_errors (id : string) : App Json :=
  response <- get net (Some (api_url +:+ "/v1/batch/scrape/" +:+ id
                             +:+ "/errors")) ;;
  if (status_code response =? 200)%Z then
    model_or_raise CrawlErrorsResponse response
  else _handle_error response "check batch scrape errors".

(** What the marshalling of the arguments into the request body comes
    to: [parse_scrape_options] of [utils.py] and the pydantic models of
    [types.py] raise, or the body is built, of which the transport reads
    the ['timeout'] entry. *)
Definition marshal (params : Exn + option Z) : App (option Z) :=
  match params with
  | inl e => raise e
  | inr data_timeout => ret data_timeout
  end.

(** [try: id = response.json().get('id')
     except: raise Exception('Failed to parse Firecrawl response as JSON.')],
    then the [f'{id}'] of the status URL. *)
Definition job_id (response : Response) : App string :=
  j <- json_or_raise response ;;
  ret (py_str_opt (get_field "id" (j_fields j))).

Definition crawl_url (fuel : nat) (kwargs : gset string)
    (params : Exn + option Z) (poll_interval : Z) : App Json :=
  FirecrawlApp._validate_kwargs set_order kwargs "crawl_url" ;;
  params_dict <- marshal params ;;
  response <- _post_request net (api_url +:+ "/v1/crawl") params_dict
                            default_retries default_backoff_factor ;;
  if (status_code response =? 200)%Z then
    id <- job_id response ;;
    _monitor_job_status net api_url fuel id poll_interval
  else _handle_error response "start crawl job".

Definition async_crawl_url (kwargs : gset string)
    (params : Exn + option Z) : App Json :=
  FirecrawlApp._validate_kwargs set_order kwargs "async_crawl_url" ;;
  params_dict <- marshal params ;;
  response <- _post_request net (api_url +:+ "/v1/crawl") params_dict
                            default_retries default_backoff_factor ;;
  if (status_code response =? 200)%Z then
    model_or_raise CrawlResponse response
  else _handle_error response "start crawl job".

Definition batch_scrape_urls (fuel : nat) (kwargs : gset string)
    (params : Exn + option Z) (poll_interval : Z) : App StatusResponse :=
  FirecrawlApp._validate_kwargs set_order kwargs "batch_scrape_urls" ;;
  scrape_params <- marshal params ;;
  response <- _post_request net (api_url +:+ "/v1/batch/scrape")
                            scrape_params
                            default_retries default_backoff_factor ;;
  if (status_code response =? 200)%Z then
    id <- job_id response ;;
    check_batch_scrape_status net api_url scrape_formats_response_transform
                              fuel id poll_interval
  else _handle_error response "start batch scrape job".

Definition async_batch_scrape_urls (kwargs : gset string)
    (params : Exn + option Z) : App Json :=
  FirecrawlApp._validate_kwargs set_order kwargs "async_batch_scrape_urls" ;;
  scrape_params <- marshal params ;;
  response <- _post_request net (api_url +:+ "/v1/batch/scrape")
                            scrape_params
                            default_retries default_backoff_factor ;;
  if (status_code response =? 200)%Z then
    model_or_raise BatchScrapeResponse response
  else _handle_error response "start batch scrape job".

End Submission.

(** ** Vocabulary of the further statements *)

Definition is_request (e : Effect) : bool :=
  match e with
  | Request _ _ _ => true
  | _ => false
  end.

(** How many requests a stretch of the trace holds. *)
Definition requests_sent (added : list Effect) : nat :=
  length (List.filter is_request added).

(** A page chain as the server holds it: [page] names a next URL, the
    request that will be the [n]-th of the run fetches it and is
    answered by a parsed 200 carrying the first page of [rest], and so
    on down to the last page, which names no next URL.  Every page but
    the last holds documents. *)
Fixpoint page_chain (net : Net) (n : nat) (page : Json) (rest : list Json)
    : Prop :=
  match rest with
  | [] => j_next page = None
  | next_page :: rest' =>
      exists url docs r,
        j_next page = Some (Some url) /\ url <> ""
        /\ j_data page = Some docs /\ docs <> []
        /\ net GET (Some url) n = inr r
        /\ status_code r = 200%Z /\ body r = Some next_page
        /\ page_chain net (S n) next_page rest'
  end.

(** The documents of a list of pages, in page order. *)
Definition documents_of (pages : list Json) : list Json :=
  flat_map (fun page => default [] (j_data page)) pages.

(** The fetches of the next URLs that a list of pages names. *)
Definition next_fetches (pages : list Json) : list Effect :=
  flat_map (fun page => match j_next page with
                        | Some url => [Request GET url None]
                        | None => []
                        end) pages.

(** [n] turns of the wait loop of [_monitor_job_status]: each queries
    [url] and sleeps. *)
Fixpoint polls (url : string) (seconds : Z) (n : nat) : list Effect :=
  match n with
  | O => []
  | S n' =>
      Request GET (Some url) None :: Sleep (inject_Z seconds)
      :: polls url seconds n'
  end.

(** The [n]-th request of the run, sent to [url], is answered by a
    parsed 200 whose status passes [accept]. *)
Definition answers_status (net : Net) (url : string) (n : nat)
    (accept : string -> bool) : Prop :=
  exists r j s,
    net GET (Some url) n = inr r /\ status_code r = 200%Z
    /\ body r = Some j /\ j_status j = Some s /\ accept s = true.

(** [status != 'completed'] *)
Definition unfinished (status : string) : bool :=
  negb (String.eqb status "completed").

(** What a watch session can become while it listens: the same job and
    the same registry, with documents and calls added after the ones it
    had. *)
Definition grown_from (s s' : CrawlWatcher.Session) : Prop :=
  CrawlWatcher.id (CrawlWatcher.self s') = CrawlWatcher.id (CrawlWatcher.self s)
  /\ CrawlWatcher.event_handlers (CrawlWatcher.self s')
     = CrawlWatcher.event_handlers (CrawlWatcher.self s)
  /\ (exists more,
        CrawlWatcher.data (CrawlWatcher.self s')
        = CrawlWatcher.data (CrawlWatcher.self s) ++ more)
  /\ (exists calls, CrawlWatcher.heard s' = CrawlWatcher.heard s ++ calls).

Definition only_grows {A : Type} (c : CrawlWatcher.Watch A) : Prop :=
  forall s, grown_from s (snd (c s)).

Definition frame_error (error : option string) : Message :=
  mkMessage (Some "error") None error.

(** [handler] registered [n] times in a row for [event_type]. *)
Fixpoint register (n : nat) (event_type : string) (handler : Handler)
    (s : CrawlWatcher.Session) : CrawlWatcher.Session :=
  match n with
  | O => s
  | S n' =>
      register n' event_type handler
               (snd (CrawlWatcher.add_event_listener event_type handler s))
  end.

(** ** The address of the watch socket *)

(** [s.replace(old, new)] for a non-empty [old]: the occurrences of
    [old] are taken from the left and do not overlap.  [skip] counts the
    characters of the occurrence in hand that are still to be dropped. *)
Fixpoint replace_from (old new : string) (skip : nat) (s : string)
    : string :=
  match s with
  | EmptyString => ""
  | String c rest =>
      match skip with
      | S skip' => replace_from old new skip' rest
      | O =>
          if String.prefix old s
          then new +:+ replace_from old new (String.length old - 1) rest
          else String c (replace_from old new 0 rest)
      end
  end.

(** [s.replace('', new)] puts [new] before every character and at the
    end. *)
Fixpoint interleave (new s : string) : string :=
  match s with
  | EmptyString => ""
  | String c rest => String c (new +:+ interleave new rest)
  end.

(** [s.replace(old, new)] *)
Definition py_replace (old new s : string) : string :=
  match old with
  | EmptyString => new +:+ interleave new s
  | String _ _ => replace_from old new 0 s
  end.

(** [self.ws_url] as [CrawlWatcher.__init__] sets it from [app.api_url]
    and the job id. *)
Definition ws_url (api_url id : string) : string :=
  py_replace "http" "ws" api_url +:+ "/v1/crawl/" +:+ id.

(** ** The asynchronous transport *)

Module AsyncFirecrawlApp.

(** The exceptions of the asynchronous side: [aiohttp.ClientError] with
    its subclasses, which [_async_request] catches, and every other
    exception, which it lets through. *)
Inductive AioExn : Type :=
| ClientError (message : option string)
| NotClientError (e : Exn).

Inductive Result (A : Type) : Type :=
| Returned (a : A)
| Threw (e : AioExn).
Arguments Returned {A} a.
Arguments Threw {A} e.

Definition Aio (A : Type) : Type := World -> Result A * World.

Definition aio_ret {A} (a : A) : Aio A := fun w => (Returned a, w).
Definition aio_raise {A} (e : AioExn) : Aio A := fun w => (Threw e, w).
Definition aio_bind {A B} (c : Aio A) (k : A -> Aio B) : Aio B :=
  fun w => match c w with
           | (Returned a, w') => k a w'
           | (Threw e, w') => (Threw e, w')
           end.
(** [try: c  except aiohttp.ClientError as e: h e] *)
Definition except_client_error {A} (c : Aio A)
    (h : option string -> Aio A) : Aio A :=
  fun w => match c w with
           | (Threw (ClientError message), w') => h message w'
           | r => r
           end.

(** An [aiohttp.ClientResponse]: the status and what [response.json()]
    comes to, the parsed body or the exception it raises
    ([ContentTypeError], a [ClientError], for a body that is not
    announced as JSON). *)
Record ClientResponse : Type := mkClientResponse {
  status : Z;
  json : AioExn + Json
}.

(** The [n]-th request of the run, sent to [url], is answered or fails
    inside [aiohttp]. *)
Definition AioNet : Type := Method -> string -> nat -> AioExn + ClientResponse.

(** [f'{method}'] *)
Definition method_str (method : Method) : string :=
  match method with
  | GET => "GET"
  | POST => "POST"
  end.

Section Transport.

Variable net : AioNet.

(** [session.request(method=method, url=url, ...)] *)
Definition session_request (method : Method) (url : string)
    : Aio ClientResponse :=
  fun w =>
    let w' := mkWorld (S (clock w))
                      (trace w ++ [Request method (Some url) None]) in
    match net method url (clock w) with
    | inl e => (Threw e, w')
    | inr r => (Returned r, w')
    end.

(** [asyncio.sleep(seconds)], which takes any length. *)
Definition asyncio_sleep (seconds : Q) : Aio unit :=
  fun w => (Returned tt, mkWorld (clock w) (trace w ++ [Sleep seconds])).

(** [response.json()] *)
Definition response_json (response : ClientResponse) : Aio Json :=
  match json response with
  | inl e => aio_raise e
  | inr j => aio_ret j
  end.

Definition _get_async_error_message (status_code : Z)
    (action error_message error_details : string) : option string :=
  _get_error_message status_code action error_message error_details.

(** [_handle_error] of [AsyncFirecrawlApp]: the bare [except] turns
    whatever [response.json()] raises into a [ClientError]. *)
Definition _handle_error {A : Type} (response : ClientResponse)
    (action : string) : Aio A :=
  match json response with
  | inl _ =>
      aio_raise
        (ClientError
           (Some ("Failed to parse Firecrawl error response as JSON. "
                  +:+ "Status code: " +:+ py_str_int (status response))))
  | inr error_data =>
      let error_message :=
        default "No error message provided." (j_error error_data) in
      let error_details :=
        default "No additional error details provided."
                (j_details error_data) in
      let message :=
        _get_async_error_message (status response) action error_message
                                 error_details in
      aio_raise (ClientError message)
  end.

(** The body of the [try] of [_async_request]; [None] is its
    [continue]. *)
Definition attempt_once (method : Method) (url : string)
    (backoff_factor : Q) (attempt : nat) : Aio (option Json) :=
  aio_bind (session_request method url) (fun response =>
  if (status response =? 502)%Z then
    aio_bind (asyncio_sleep (backoff backoff_factor attempt)) (fun _ =>
    aio_ret None)
  else
    aio_bind (if (300 <=? status response)%Z
              then _handle_error response
                                 ("make " +:+ method_str method
                                  +:+ " request")
              else aio_ret tt) (fun _ =>
    aio_bind (response_json response) (fun j =>
    aio_ret (Some j)))).

(** The loop [for attempt in range(retries)] of [_async_request] and
    the [raise] after it, entered at [attempt] with [remaining]
    iterations to go. *)
Fixpoint request_loop (method : Method) (url : string) (retries : nat)
    (backoff_factor : Q) (remaining attempt : nat) : Aio Json :=
  match remaining with
  | O => aio_raise (NotClientError (Exception "Max retries exceeded"))
  | S remaining' =>
      aio_bind
        (except_client_error
           (attempt_once method url backoff_factor attempt)
           (fun message =>
              if (Z.of_nat attempt =? Z.of_nat retries - 1)%Z
              then aio_raise (ClientError message)
              else
                aio_bind (asyncio_sleep (backoff backoff_factor attempt))
                         (fun _ => aio_ret None)))
        (fun step =>
           match step with
           | Some j => aio_ret j
           | None => request_loop method url retries backoff_factor
                                  remaining' (S attempt)
           end)
  end.

Definition _async_request (method : Method) (url : string)
    (retries : nat) (backoff_factor : Q) : Aio Json :=
  request_loop method url retries backoff_factor retries 0.

Definition _async_post_request (url : string) (retries : nat)
    (backoff_factor : Q) : Aio Json :=
  _async_request POST url retries backoff_factor.

Definition _async_get_request (url : string) (retries : nat)
    (backoff_factor : Q) : Aio Json :=
  _async_request GET url retries backoff_factor.

End Transport.

(** An answer after which [_async_request] tries again, unless the
    attempt was the last: a 502, an error status, or a [ClientError]
    raised by the connection or by the decoding of the body. *)
Definition retried (answer : AioExn + ClientResponse) : Prop :=
  match answer with
  | inl (ClientError _) => True
  | inl (NotClientError _) => False
  | inr r =>
      status r = 502%Z \/ (300 <= status r)%Z
      \/ exists message, json r = inl (ClientError message)
  end.

End AsyncFirecrawlApp.

(** ** Sample inputs of the further statements *)

(** An environment in which no variable is set. *)
Definition no_env : string -> option string := fun _ => None.

(** One possible order of a set of keywords. *)
Definition in_some_order (keys : gset string) : list string := elements keys.

(** A pydantic model that accepts every dictionary. *)
Definition any_model : Json -> bool := fun _ => true.

(** A server that gives the same answer to every request. *)
Definition always (a : Exn + Response) : Net := fun _ _ _ => a.

(** The answer to an accepted submission. *)
Definition job_answer (id : string) : Json :=
  mkJson None None None None None None None None None [("id", id)].

(** An [aiohttp] server that answers the [n]-th request with the
    [n]-th entry, and closes the connection after the last. *)
Definition aio_script
    (answers : list (AsyncFirecrawlApp.AioExn
                     + AsyncFirecrawlApp.ClientResponse))
    : AsyncFirecrawlApp.AioNet :=
  fun _ _ n =>
    nth n answers
        (inl (AsyncFirecrawlApp.ClientError (Some "Connection closed.")))%list.

(** A listener that raises on every event. *)
Definition raising (name : nat) : Handler := mkHandler name (fun _ => true).

(** * Properties *)

(** ** Transport: bounded retry on 502 *)

Lemma backoff_nonneg (backoff_factor : Q) (attempt : nat) :
  (0 <= backoff_factor)%Q ->
  Qle_bool 0 (backoff backoff_factor attempt) = true.
Proof.
  intros Hb. apply Qle_bool_iff. unfold backoff.
  apply Qmult_le_0_compat; [exact Hb|].
  change 0%Q with (inject_Z 0). rewrite <- Zle_Qle.
  apply Z.pow_nonneg. lia.
Qed.

Lemma sleep_backoff (backoff_factor : Q) (attempt : nat) (w : World) :
  (0 <= backoff_factor)%Q ->
  sleep (backoff backoff_factor attempt) w
  = (Ok tt, mkWorld (clock w)
                    (trace w ++ [Sleep (backoff backoff_factor attempt)])).
Proof.
  intros Hb. unfold sleep. rewrite backoff_nonneg by exact Hb. reflexivity.
Qed.

Section Retry.

Variable net : Net.
Variables (method : Method) (url : option string) (timeout : option Z).
Variable backoff_factor : Q.
Hypothesis backoff_factor_nonneg : (0 <= backoff_factor)%Q.

(** One iteration that meets a 502. *)
Lemma retry_loop_502 (remaining attempt : nat) (last : option Response)
    (w : World) (r : Response) :
  net method url (clock w) = inr r ->
  status_code r = 502%Z ->
  retry_loop net method url timeout backoff_factor (S remaining) attempt
             last w
  = retry_loop net method url timeout backoff_factor remaining (S attempt)
               (Some r)
               (mkWorld (S (clock w))
                        (trace w ++ attempts method url timeout
                                             backoff_factor attempt 1)).
Proof.
  intros Hnet H502. simpl. unfold bind, requests_send. rewrite Hnet, H502.
  simpl. rewrite sleep_backoff by assumption. simpl.
  rewrite <- app_assoc. reflexivity.
Qed.

(** One iteration that meets anything else. *)
Lemma retry_loop_other (remaining attempt : nat) (last : option Response)
    (w : World) (r : Response) :
  net method url (clock w) = inr r ->
  status_code r <> 502%Z ->
  retry_loop net method url timeout backoff_factor (S remaining) attempt
             last w
  = (Ok r, mkWorld (S (clock w)) (trace w ++ [Request method url timeout])).
Proof.
  intros Hnet Hne. simpl. unfold bind, requests_send. rewrite Hnet.
  apply Z.eqb_neq in Hne. rewrite Hne. reflexivity.
Qed.

Lemma attempts_S (first k : nat) :
  attempts method url timeout backoff_factor first (S k)
  = attempts method url timeout backoff_factor first 1
    ++ attempts method url timeout backoff_factor (S first) k.
Proof. reflexivity. Qed.

Lemma retry_loop_first_other (k : nat) :
  forall (remaining attempt : nat) (last : option Response) (w : World)
         (rs : nat -> Response),
    k < remaining ->
    (forall i, i <= k -> net method url (clock w + i) = inr (rs i)) ->
    (forall i, i < k -> status_code (rs i) = 502%Z) ->
    status_code (rs k) <> 502%Z ->
    retry_loop net method url timeout backoff_factor remaining attempt
               last w
    = (Ok (rs k),
       mkWorld (clock w + S k)
               (trace w
                ++ attempts method url timeout backoff_factor attempt k
                ++ [Request method url timeout])).
Proof.
  induction k as [|k IH]; intros remaining attempt last w rs Hk Hnet H502 Hne.
  - destruct remaining as [|remaining]; [lia|].
    rewrite (retry_loop_other _ _ _ _ (rs 0)); auto.
    + do 2 f_equal. lia.
    + rewrite <- (Hnet 0) by lia. f_equal. lia.
  - destruct remaining as [|remaining]; [lia|].
    rewrite (retry_loop_502 _ _ _ _ (rs 0)).
    + rewrite (IH remaining (S attempt) _ _ (fun i => rs (S i))).
      * simpl clock. simpl trace. rewrite attempts_S.
        rewrite <- !app_assoc. do 2 f_equal. lia.
      * lia.
      * intros i Hi. simpl clock. rewrite <- (Hnet (S i)) by lia.
        f_equal. lia.
      * intros i Hi. apply H502. lia.
      * exact Hne.
    + rewrite <- (Hnet 0) by lia. f_equal. lia.
    + apply H502. lia.
Qed.

Lemma retry_loop_all_502 (remaining : nat) :
  forall (attempt : nat) (last : Response) (w : World)
         (rs : nat -> Response),
    (forall i, i < remaining ->
               net method url (clock w + i) = inr (rs i)) ->
    (forall i, i < remaining -> status_code (rs i) = 502%Z) ->
    retry_loop net method url timeout backoff_factor remaining attempt
               (Some last) w
    = (Ok (match remaining with O => last | S n => rs n end),
       mkWorld (clock w + remaining)
               (trace w ++ attempts method url timeout backoff_factor
                                    attempt remaining)).
Proof.
  induction remaining as [|n IH]; intros attempt last w rs Hnet H502.
  - simpl. unfold ret, attempts. simpl. rewrite app_nil_r, Nat.add_0_r.
    destruct w; reflexivity.
  - rewrite (retry_loop_502 _ _ _ _ (rs 0)).
    + rewrite (IH (S attempt) (rs 0) _ (fun i => rs (S i))).
      * simpl clock. simpl trace. rewrite attempts_S.
        rewrite <- !app_assoc. f_equal.
        -- destruct n; reflexivity.
        -- f_equal. lia.
      * intros i Hi. simpl clock. rewrite <- (Hnet (S i)) by lia.
        f_equal. lia.
      * intros i Hi. apply H502. lia.
    + rewrite <- (Hnet 0) by lia. f_equal. lia.
    + apply H502. lia.
Qed.

(** Every attempt of a call with [S n] attempts meets a 502. *)
Lemma retry_loop_exhausted (n : nat) (w : World) (rs : nat -> Response) :
  (forall i, i < S n -> net method url (clock w + i) = inr (rs i)) ->
  (forall i, i < S n -> status_code (rs i) = 502%Z) ->
  retry_loop net method url timeout backoff_factor (S n) 0 None w
  = (Ok (rs n),
     mkWorld (clock w + S n)
             (trace w ++ attempts method url timeout backoff_factor 0 (S n))).
Proof.
  intros Hnet H502.
  rewrite (retry_loop_502 _ _ _ _ (rs 0)).
  - rewrite (retry_loop_all_502 n 1 (rs 0) _ (fun i => rs (S i))).
    + cbn [clock trace]. rewrite attempts_S, <- app_assoc. f_equal.
      * destruct n; reflexivity.
      * f_equal. lia.
    + intros i Hi. cbn [clock]. rewrite <- (Hnet (S i)) by lia.
      f_equal. lia.
    + intros i Hi. apply H502. lia.
  - rewrite <- (Hnet 0) by lia. f_equal. lia.
  - apply H502. lia.
Qed.

End Retry.

(** C5.  [_get_request] and [_post_request] with the default bound of
    three attempts, on a server that answers (no failure inside
    [requests]).  When the answers before the [k]-th are 502 and the
    [k]-th is not, that answer is returned at once: [k + 1] requests
    were sent and the sleeps between them lasted
    backoff_factor * 2^0, ..., backoff_factor * 2^(k-1), with nothing
    after the answer.  When all three answers are 502 the third one is
    returned, not raised, after three requests and the sleeps
    backoff_factor * 2^0, 2^1 and 2^2.  The default backoff factor is
    one half. *)
Theorem transport_retries_only_on_502
    (net : Net) (url : string) (data_timeout : option Z)
    (backoff_factor : Q) (answers : nat -> Response) (w : World) :
  (0 <= backoff_factor)%Q ->
  (forall i, i < default_retries ->
             net GET (Some url) (clock w + i) = inr (answers i)) ->
  (forall i, i < default_retries ->
             net POST (Some url) (clock w + i) = inr (answers i)) ->
  (forall k,
      k < default_retries ->
      (forall i, i < k -> status_code (answers i) = 502%Z) ->
      status_code (answers k) <> 502%Z ->
      _get_request net (Some url) default_retries backoff_factor w
      = (Ok (answers k),
         mkWorld (clock w + S k)
           (trace w
            ++ attempts GET (Some url) None backoff_factor 0 k
            ++ [Request GET (Some url) None]))
      /\ _post_request net url data_timeout default_retries backoff_factor w
         = (Ok (answers k),
            mkWorld (clock w + S k)
              (trace w
               ++ attempts POST (Some url) (post_timeout data_timeout)
                           backoff_factor 0 k
               ++ [Request POST (Some url) (post_timeout data_timeout)])))
  /\ ((forall i, i < default_retries -> status_code (answers i) = 502%Z) ->
      _get_request net (Some url) default_retries backoff_factor w
      = (Ok (answers 2),
         mkWorld (clock w + 3)
           (trace w
            ++ [Request GET (Some url) None;
                Sleep (backoff_factor * inject_Z (2 ^ 0));
                Request GET (Some url) None;
                Sleep (backoff_factor * inject_Z (2 ^ 1));
                Request GET (Some url) None;
                Sleep (backoff_factor * inject_Z (2 ^ 2))]))
      /\ _post_request net url data_timeout default_retries backoff_factor w
         = (Ok (answers 2),
            mkWorld (clock w + 3)
              (trace w
               ++ [Request POST (Some url) (post_timeout data_timeout);
                   Sleep (backoff_factor * inject_Z (2 ^ 0));
                   Request POST (Some url) (post_timeout data_timeout);
                   Sleep (backoff_factor * inject_Z (2 ^ 1));
                   Request POST (Some url) (post_timeout data_timeout);
                   Sleep (backoff_factor * inject_Z (2 ^ 2))])))
  /\ default_retries = 3
  /\ default_backoff_factor = (1 # 2)%Q.
Proof.
  intros Hb Hget Hpost. split; [|split; [|split; reflexivity]].
  - intros k Hk H502 Hne. split.
    + unfold _get_request.
      apply retry_loop_first_other; auto.
      intros i Hi. apply Hget. lia.
    + unfold _post_request.
      apply retry_loop_first_other; auto.
      intros i Hi. apply Hpost. lia.
  - intros H502. unfold default_retries in *. split.
    + unfold _get_request.
      rewrite (retry_loop_exhausted net GET (Some url) None backoff_factor
                 Hb 2 w answers) by assumption.
      reflexivity.
    + unfold _post_request.
      rewrite (retry_loop_exhausted net POST (Some url)
                 (post_timeout data_timeout) backoff_factor
                 Hb 2 w answers) by assumption.
      reflexivity.
Qed.

(** ** The pollers, turn by turn *)

Section Pollers.

Variable net : Net.
Variable api_url : string.
Variable scrape_formats_response_transform : Json -> Json.

Lemma get_returns (url : option string) (w : World) (r : Response) :
  net GET url (clock w) = inr r ->
  status_code r <> 502%Z ->
  get net url w
  = (Ok r, mkWorld (S (clock w)) (trace w ++ [Request GET url None])).
Proof.
  intros Hnet Hne. unfold get, _get_request, default_retries.
  apply retry_loop_other; assumption.
Qed.

Lemma get_200 (url : option string) (w : World) (r : Response) :
  net GET url (clock w) = inr r ->
  status_code r = 200%Z ->
  get net url w
  = (Ok r, mkWorld (S (clock w)) (trace w ++ [Request GET url None])).
Proof. intros Hnet H200. apply get_returns; [assumption|]. lia. Qed.

Lemma in_progress_not_completed (status : string) :
  in_progress status = true -> String.eqb status "completed" = false.
Proof.
  unfold in_progress. simpl. rewrite !orb_true_iff.
  intros H.
  repeat (destruct H as [H|H]; [apply String.eqb_eq in H; subst; reflexivity|]).
  discriminate.
Qed.

Lemma sleep_seconds (seconds : Z) (w : World) :
  (0 <= seconds)%Z ->
  sleep (inject_Z seconds) w
  = (Ok tt, mkWorld (clock w) (trace w ++ [Sleep (inject_Z seconds)])).
Proof.
  intros H. unfold sleep.
  replace (Qle_bool 0 (inject_Z seconds)) with true; [reflexivity|].
  symmetry. apply Qle_bool_iff. change 0%Q with (inject_Z 0).
  rewrite <- Zle_Qle. exact H.
Qed.

(** *** One turn of [_monitor_job_status] *)

Lemma monitor_in_progress (fuel : nat) (id : string) (poll_interval : Z)
    (w : World) (r : Response) (status_data : Json) (status : string) :
  net GET (Some (api_url +:+ "/v1/crawl/" +:+ id)) (clock w) = inr r ->
  status_code r = 200%Z ->
  body r = Some status_data ->
  j_status status_data = Some status ->
  in_progress status = true ->
  _monitor_job_status net api_url (S fuel) id poll_interval w
  = _monitor_job_status net api_url fuel id (Z.max poll_interval 2)
      (mkWorld (S (clock w))
               (trace w
                ++ [Request GET (Some (api_url +:+ "/v1/crawl/" +:+ id)) None;
                    Sleep (inject_Z (Z.max poll_interval 2))])).
Proof.
  intros Hnet H200 Hbody Hstatus Hprog.
  cbn [_monitor_job_status]. unfold bind at 1.
  rewrite (get_200 _ _ _ Hnet H200). rewrite H200. cbn [Z.eqb Pos.eqb].
  unfold bind at 1. unfold json_or_raise. rewrite Hbody. unfold ret at 1.
  unfold bind at 1. unfold getitem_status. rewrite Hstatus. unfold ret at 1.
  rewrite (in_progress_not_completed _ Hprog), Hprog.
  unfold bind at 1. rewrite sleep_seconds by lia.
  cbn [clock trace]. rewrite <- app_assoc. reflexivity.
Qed.

Lemma monitor_completed (fuel : nat) (id : string) (poll_interval : Z)
    (w : World) (r : Response) (status_data : Json) (data : list Json) :
  net GET (Some (api_url +:+ "/v1/crawl/" +:+ id)) (clock w) = inr r ->
  status_code r = 200%Z ->
  body r = Some status_data ->
  j_status status_data = Some "completed" ->
  j_data status_data = Some data ->
  _monitor_job_status net api_url (S fuel) id poll_interval w
  = bind (monitor_pages net fuel status_data data)
         (fun last => ret (set_data (fst last) (snd last)))
         (mkWorld (S (clock w))
            (trace w
             ++ [Request GET (Some (api_url +:+ "/v1/crawl/" +:+ id)) None])).
Proof.
  intros Hnet H200 Hbody Hstatus Hdata.
  cbn [_monitor_job_status]. unfold bind at 1.
  rewrite (get_200 _ _ _ Hnet H200). rewrite H200. cbn [Z.eqb Pos.eqb].
  unfold bind at 1. unfold json_or_raise. rewrite Hbody. unfold ret at 1.
  unfold bind at 1. unfold getitem_status. rewrite Hstatus. unfold ret at 1.
  cbv [String.eqb Ascii.eqb Bool.eqb]. rewrite Hdata. reflexivity.
Qed.

Lemma monitor_completed_no_data (fuel : nat) (id : string)
    (poll_interval : Z) (w : World) (r : Response) (status_data : Json) :
  net GET (Some (api_url +:+ "/v1/crawl/" +:+ id)) (clock w) = inr r ->
  status_code r = 200%Z ->
  body r = Some status_data ->
  j_status status_data = Some "completed" ->
  j_data status_data = None ->
  _monitor_job_status net api_url (S fuel) id poll_interval w
  = (Raised (Exception "Crawl job completed but no data was returned"),
     mkWorld (S (clock w))
        (trace w
         ++ [Request GET (Some (api_url +:+ "/v1/crawl/" +:+ id)) None])).
Proof.
  intros Hnet H200 Hbody Hstatus Hdata.
  cbn [_monitor_job_status]. unfold bind at 1.
  rewrite (get_200 _ _ _ Hnet H200). rewrite H200. cbn [Z.eqb Pos.eqb].
  unfold bind at 1. unfold json_or_raise. rewrite Hbody. unfold ret at 1.
  unfold bind at 1. unfold getitem_status. rewrite Hstatus. unfold ret at 1.
  cbv [String.eqb Ascii.eqb Bool.eqb]. rewrite Hdata. reflexivity.
Qed.

Lemma monitor_other_status (fuel : nat) (id : string) (poll_interval : Z)
    (w : World) (r : Response) (status_data : Json) (status : string) :
  net GET (Some (api_url +:+ "/v1/crawl/" +:+ id)) (clock w) = inr r ->
  status_code r = 200%Z ->
  body r = Some status_data ->
  j_status status_data = Some status ->
  status <> "completed" ->
  in_progress status = false ->
  _monitor_job_status net api_url (S fuel) id poll_interval w
  = (Raised (Exception ("Crawl job failed or was stopped. Status: "
                        +:+ status)),
     mkWorld (S (clock w))
        (trace w
         ++ [Request GET (Some (api_url +:+ "/v1/crawl/" +:+ id)) None])).
Proof.
  intros Hnet H200 Hbody Hstatus Hne Hprog.
  cbn [_monitor_job_status]. unfold bind at 1.
  rewrite (get_200 _ _ _ Hnet H200). rewrite H200. cbn [Z.eqb Pos.eqb].
  unfold bind at 1. unfold json_or_raise. rewrite Hbody. unfold ret at 1.
  unfold bind at 1. unfold getitem_status. rewrite Hstatus. unfold ret at 1.
  apply String.eqb_neq in Hne. rewrite Hne, Hprog. reflexivity.
Qed.

(** *** One turn of the wait of [check_batch_scrape_status] *)

Lemma batch_wait_again (fuel : nat) (url : string) (poll_interval : Z)
    (w : World) (status_data status_data' : Json) (status : string)
    (r : Response) :
  j_status status_data = Some status ->
  status <> "completed" ->
  (0 <= poll_interval)%Z ->
  net GET (Some url) (clock w) = inr r ->
  status_code r = 200%Z ->
  body r = Some status_data' ->
  batch_wait net (S fuel) url poll_interval status_data w
  = batch_wait net fuel url poll_interval status_data'
      (mkWorld (S (clock w))
               (trace w ++ [Print status; Sleep (inject_Z poll_interval);
                            Request GET (Some url) None])).
Proof.
  intros Hstatus Hne Hpi Hnet H200 Hbody.
  cbn [batch_wait]. unfold bind at 1. unfold getitem_status.
  rewrite Hstatus. unfold ret at 1.
  apply String.eqb_neq in Hne. rewrite Hne. cbn [negb].
  unfold bind at 1. unfold emit at 1.
  unfold bind at 1. rewrite sleep_seconds by assumption.
  unfold bind at 1. cbn [clock trace].
  rewrite (get_200 _ (mkWorld _ _) r) by assumption.
  rewrite H200. cbn [Z.eqb Pos.eqb]. unfold bind at 1. rewrite Hbody.
  unfold ret at 1. cbn [clock trace]. rewrite <- !app_assoc. reflexivity.
Qed.

Lemma batch_wait_completed (fuel : nat) (url : string) (poll_interval : Z)
    (w : World) (status_data : Json) :
  j_status status_data = Some "completed" ->
  batch_wait net (S fuel) url poll_interval status_data w
  = (Ok status_data, w).
Proof.
  intros Hstatus. cbn [batch_wait]. unfold bind at 1, getitem_status.
  rewrite Hstatus. reflexivity.
Qed.

End Pollers.

(** ** The trace only grows *)

Section Traces.

Variable net : Net.
Variable api_url : string.

Lemma extends_ret {A : Type} (a : A) : extends_trace (ret a).
Proof. intros w. exists []. cbn. rewrite app_nil_r. reflexivity. Qed.

Lemma extends_raise {A : Type} (e : Exn) : extends_trace (raise (A := A) e).
Proof. intros w. exists []. cbn. rewrite app_nil_r. reflexivity. Qed.

Lemma extends_out_of_fuel {A : Type} :
  extends_trace (out_of_fuel (S := World) (A := A)).
Proof. intros w. exists []. cbn. rewrite app_nil_r. reflexivity. Qed.

(** What follows [c] in [bind c k] adds to the trace [c] left. *)
Lemma bind_continues {A B : Type} (c : App A) (k : A -> App B) (w : World) :
  (forall a, extends_trace (k a)) ->
  exists added, trace (snd (bind c k w)) = trace (snd (c w)) ++ added.
Proof.
  intros Hk. unfold bind. destruct (c w) as [[a|e|] w1]; cbn [snd].
  - apply Hk.
  - exists []. rewrite app_nil_r. reflexivity.
  - exists []. rewrite app_nil_r. reflexivity.
Qed.

Lemma extends_bind {A B : Type} (c : App A) (k : A -> App B) :
  extends_trace c -> (forall a, extends_trace (k a)) ->
  extends_trace (bind c k).
Proof.
  intros Hc Hk w. destruct (Hc w) as [l1 H1].
  destruct (bind_continues c k w Hk) as [l2 H2].
  exists (l1 ++ l2). rewrite H2, H1, app_assoc. reflexivity.
Qed.

Lemma extends_emit (e : Effect) : extends_trace (emit e).
Proof. intros w. exists [e]. reflexivity. Qed.

Lemma extends_sleep (seconds : Q) : extends_trace (sleep seconds).
Proof.
  unfold sleep. destruct (Qle_bool 0 seconds);
    [apply extends_emit|apply extends_raise].
Qed.

Lemma extends_requests_send (method : Method) (url : option string)
    (timeout : option Z) :
  extends_trace (requests_send net method url timeout).
Proof.
  intros w. exists [Request method url timeout]. unfold requests_send.
  destruct (net method url (clock w)); reflexivity.
Qed.

Lemma extends_retry_loop (method : Method) (url : option string)
    (timeout : option Z) (backoff_factor : Q) (remaining : nat) :
  forall attempt response,
    extends_trace (retry_loop net method url timeout backoff_factor
                              remaining attempt response).
Proof.
  induction remaining as [|n IH]; intros attempt response; cbn [retry_loop].
  - destruct response; [apply extends_ret|apply extends_raise].
  - apply extends_bind; [apply extends_requests_send|]. intros r.
    destruct (status_code r =? 502)%Z; [|apply extends_ret].
    apply extends_bind; [apply extends_sleep|]. intros _. apply IH.
Qed.

Lemma extends_get (url : option string) : extends_trace (get net url).
Proof. apply extends_retry_loop. Qed.

Lemma extends_handle_error {A : Type} (response : Response)
    (action : string) :
  extends_trace (_handle_error (A := A) response action).
Proof. unfold _handle_error. destruct (body response); apply extends_raise. Qed.

Lemma extends_json_or_raise (response : Response) :
  extends_trace (json_or_raise response).
Proof.
  unfold json_or_raise. destruct (body response);
    [apply extends_ret|apply extends_raise].
Qed.

Lemma extends_getitem_status (status_data : Json) :
  extends_trace (getitem_status status_data).
Proof.
  unfold getitem_status. destruct (j_status status_data);
    [apply extends_ret|apply extends_raise].
Qed.

Lemma extends_monitor_pages (fuel : nat) :
  forall status_data data,
    extends_trace (monitor_pages net fuel status_data data).
Proof.
  induction fuel as [|fuel IH]; intros status_data data;
    cbn [monitor_pages]; [apply extends_out_of_fuel|].
  destruct (j_next status_data); [|apply extends_ret].
  destruct (j_data status_data) as [page|]; [|apply extends_raise].
  destruct (length page =? 0)%nat; [apply extends_ret|].
  apply extends_bind; [apply extends_get|]. intros r.
  apply extends_bind; [apply extends_json_or_raise|]. intros j. apply IH.
Qed.

Lemma extends_monitor_job_status (fuel : nat) :
  forall id poll_interval,
    extends_trace (_monitor_job_status net api_url fuel id poll_interval).
Proof.
  induction fuel as [|fuel IH]; intros id poll_interval;
    cbn [_monitor_job_status]; [apply extends_out_of_fuel|].
  apply extends_bind; [apply extends_get|]. intros r.
  destruct (status_code r =? 200)%Z.
  - apply extends_bind; [apply extends_json_or_raise|]. intros status_data.
    apply extends_bind; [apply extends_getitem_status|]. intros status.
    destruct (String.eqb status "completed").
    + destruct (j_data status_data); [|apply extends_raise].
      apply extends_bind; [apply extends_monitor_pages|]. intros last.
      apply extends_ret.
    + destruct (in_progress status); [|apply extends_raise].
      apply extends_bind; [apply extends_sleep|]. intros _. apply IH.
  - apply extends_bind; [apply extends_handle_error|]. intros _. apply IH.
Qed.

Lemma retry_loop_sends_first (method : Method) (url : option string)
    (timeout : option Z) (backoff_factor : Q) (remaining attempt : nat)
    (response : option Response) (w : World) :
  exists rest,
    trace (snd (retry_loop net method url timeout backoff_factor
                           (S remaining) attempt response w))
    = trace w ++ Request method url timeout :: rest.
Proof.
  cbn [retry_loop].
  match goal with
  | |- context [bind ?c ?k w] =>
      destruct (bind_continues c k w) as [l H]
  end.
  - intros r. destruct (status_code r =? 502)%Z; [|apply extends_ret].
    apply extends_bind; [apply extends_sleep|]. intros _.
    apply extends_retry_loop.
  - exists l. rewrite H. unfold requests_send.
    destruct (net method url (clock w)); cbn [snd trace];
      rewrite <- app_assoc; reflexivity.
Qed.

(** Every turn of [_monitor_job_status] opens with the status query. *)
Lemma monitor_turn_queries_first (fuel : nat) (id : string)
    (poll_interval : Z) (w : World) :
  exists rest,
    trace (snd (_monitor_job_status net api_url (S fuel) id poll_interval w))
    = trace w
      ++ Request GET (Some (api_url +:+ "/v1/crawl/" +:+ id)) None :: rest.
Proof.
  cbn [_monitor_job_status].
  match goal with
  | |- context [bind ?c ?k w] =>
      destruct (bind_continues c k w) as [l2 H2]
  end.
  - intros r. destruct (status_code r =? 200)%Z.
    + apply extends_bind; [apply extends_json_or_raise|]. intros status_data.
      apply extends_bind; [apply extends_getitem_status|]. intros status.
      destruct (String.eqb status "completed").
      * destruct (j_data status_data); [|apply extends_raise].
        apply extends_bind; [apply extends_monitor_pages|]. intros last.
        apply extends_ret.
      * destruct (in_progress status); [|apply extends_raise].
        apply extends_bind; [apply extends_sleep|]. intros _.
        apply extends_monitor_job_status.
    + apply extends_bind; [apply extends_handle_error|]. intros _.
      apply extends_monitor_job_status.
  - destruct (retry_loop_sends_first GET
                (Some (api_url +:+ "/v1/crawl/" +:+ id)) None
                default_backoff_factor 2 0 None w) as [l1 H1].
    exists (l1 ++ l2). rewrite H2. unfold get, _get_request, default_retries.
    rewrite H1. rewrite <- app_assoc. reflexivity.
Qed.

End Traces.

Section PageChains.

Variable net : Net.
Variable api_url : string.

Lemma falsy_url (url : string) : url <> "" -> falsy (Some url) = false.
Proof. intros H. apply String.eqb_neq in H. exact H. Qed.

Lemma nonempty_length {A : Type} (l : list A) :
  l <> [] -> (length l =? 0)%nat = false.
Proof. destruct l; [congruence|reflexivity]. Qed.

(** A continuation page that is fetched and parsed. *)
Lemma fetch_next_page_200 (next_url : option string) (data : list Json)
    (w : World) (r : Response) (next_data : Json) :
  net GET next_url (clock w) = inr r ->
  status_code r = 200%Z ->
  body r = Some next_data ->
  fetch_next_page net next_url data w
  = (Ok (Some (next_data, data ++ default [] (j_data next_data))),
     mkWorld (S (clock w)) (trace w ++ [Request GET next_url None])).
Proof.
  intros Hnet H200 Hbody. unfold fetch_next_page, try_except.
  unfold bind at 1. rewrite (get_200 _ _ _ _ Hnet H200). rewrite H200.
  cbn [Z.eqb Pos.eqb negb]. unfold bind at 1, json_or_raise.
  rewrite Hbody. reflexivity.
Qed.

(** A continuation page whose fetch is answered by a failure status. *)
Lemma fetch_next_page_failed (next_url : option string) (data : list Json)
    (w : World) (r : Response) :
  net GET next_url (clock w) = inr r ->
  status_code r <> 200%Z ->
  status_code r <> 502%Z ->
  fetch_next_page net next_url data w
  = (Ok None,
     mkWorld (S (clock w))
             (trace w ++ [Request GET next_url None;
                          LogError ("Failed to fetch next page: "
                                    +:+ py_str_int (status_code r))
                                   None])).
Proof.
  intros Hnet Hne H502. unfold fetch_next_page, try_except.
  unfold bind at 1. rewrite (get_returns _ _ _ _ Hnet H502).
  apply Z.eqb_neq in Hne. rewrite Hne. cbn [negb].
  unfold bind, emit, ret. cbn [clock trace]. rewrite <- app_assoc.
  reflexivity.
Qed.

Lemma paginate_last_page (fuel : nat) (status_data : Json)
    (data : list Json) (w : World) :
  j_next status_data = None ->
  paginate net (S fuel) status_data data w = (Ok (status_data, data), w).
Proof. intros H. cbn [paginate]. rewrite H. reflexivity. Qed.

Lemma paginate_next_page (fuel : nat) (status_data next_data : Json)
    (page data : list Json) (url : string) (w : World) (r : Response) :
  j_next status_data = Some (Some url) ->
  j_data status_data = Some page ->
  page <> [] ->
  url <> "" ->
  net GET (Some url) (clock w) = inr r ->
  status_code r = 200%Z ->
  body r = Some next_data ->
  paginate net (S fuel) status_data data w
  = paginate net fuel next_data (data ++ default [] (j_data next_data))
      (mkWorld (S (clock w)) (trace w ++ [Request GET (Some url) None])).
Proof.
  intros Hnext Hdata Hpage Hurl Hnet H200 Hbody.
  cbn [paginate]. rewrite Hnext, Hdata, (nonempty_length _ Hpage).
  rewrite (falsy_url _ Hurl). unfold bind at 1.
  rewrite (fetch_next_page_200 _ _ _ _ _ Hnet H200 Hbody). reflexivity.
Qed.

Lemma paginate_fetch_failed (fuel : nat) (status_data : Json)
    (page data : list Json) (url : string) (w : World) (r : Response) :
  j_next status_data = Some (Some url) ->
  j_data status_data = Some page ->
  page <> [] ->
  url <> "" ->
  net GET (Some url) (clock w) = inr r ->
  status_code r <> 200%Z ->
  status_code r <> 502%Z ->
  paginate net (S fuel) status_data data w
  = (Ok (status_data, data),
     mkWorld (S (clock w))
             (trace w ++ [Request GET (Some url) None;
                          LogError ("Failed to fetch next page: "
                                    +:+ py_str_int (status_code r))
                                   None])).
Proof.
  intros Hnext Hdata Hpage Hurl Hnet Hne H502.
  cbn [paginate]. rewrite Hnext, Hdata, (nonempty_length _ Hpage).
  rewrite (falsy_url _ Hurl). unfold bind at 1.
  rewrite (fetch_next_page_failed _ _ _ _ Hnet Hne H502). reflexivity.
Qed.

Lemma monitor_pages_last_page (fuel : nat) (status_data : Json)
    (data : list Json) (w : World) :
  j_next status_data = None ->
  monitor_pages net (S fuel) status_data data w = (Ok (status_data, data), w).
Proof. intros H. cbn [monitor_pages]. rewrite H. reflexivity. Qed.

Lemma monitor_pages_next_page (fuel : nat) (status_data next_data : Json)
    (page data : list Json) (next_url : option string) (w : World)
    (r : Response) :
  j_next status_data = Some next_url ->
  j_data status_data = Some page ->
  page <> [] ->
  net GET next_url (clock w) = inr r ->
  status_code r <> 502%Z ->
  body r = Some next_data ->
  monitor_pages net (S fuel) status_data data w
  = monitor_pages net fuel next_data (data ++ default [] (j_data next_data))
      (mkWorld (S (clock w)) (trace w ++ [Request GET next_url None])).
Proof.
  intros Hnext Hdata Hpage Hnet H502 Hbody.
  cbn [monitor_pages]. rewrite Hnext, Hdata, (nonempty_length _ Hpage).
  unfold bind at 1. rewrite (get_returns _ _ _ _ Hnet H502).
  unfold bind at 1, json_or_raise. rewrite Hbody. reflexivity.
Qed.

(** The first answer of [check_crawl_status], when it is a parsed 200. *)
Lemma check_crawl_status_200 (fuel : nat) (id : string) (w : World)
    (r : Response) (status_data : Json) (status : string) :
  net GET (Some (api_url +:+ "/v1/crawl/" +:+ id)) (clock w) = inr r ->
  status_code r = 200%Z ->
  body r = Some status_data ->
  j_status status_data = Some status ->
  check_crawl_status net api_url fuel id w
  = bind (if String.eqb status "completed" then
            match j_data status_data with
            | Some data =>
                bind (paginate net fuel status_data data)
                     (fun last => ret (set_data (fst last) (snd last),
                                       Some (snd last)))
            | None => ret (status_data, None)
            end
          else ret (status_data, None))
         (fun result => build_response (fst result) (snd result))
         (mkWorld (S (clock w))
            (trace w
             ++ [Request GET (Some (api_url +:+ "/v1/crawl/" +:+ id)) None])).
Proof.
  intros Hnet H200 Hbody Hstatus. unfold check_crawl_status.
  unfold bind at 1. rewrite (get_200 _ _ _ _ Hnet H200). rewrite H200.
  cbn [Z.eqb Pos.eqb]. unfold bind at 1, json_or_raise. rewrite Hbody.
  unfold ret at 1. unfold bind at 1, getitem_status. rewrite Hstatus.
  reflexivity.
Qed.

End PageChains.

(** C2. A completed job whose first page holds a non-empty document list
    (the claim's [a, b]) and a next-page URL, and whose next page holds
    further documents (the claim's [c]) and no next-page URL: both
    [check_crawl_status] and [_monitor_job_status] return the documents
    of the first page followed by those of the second, with the status,
    total, completed, creditsUsed and expiresAt of the second page. *)
Theorem pagination_aggregates_in_page_order
    (net : Net) (api_url : string) (fuel : nat) (id : string)
    (poll_interval : Z) (w : World) (r1 r2 : Response)
    (page1 page2 : Json) (docs1 docs2 : list Json) (next_url : string) :
  net GET (Some (api_url +:+ "/v1/crawl/" +:+ id)) (clock w) = inr r1 ->
  status_code r1 = 200%Z ->
  body r1 = Some page1 ->
  j_status page1 = Some "completed" ->
  j_data page1 = Some docs1 ->
  docs1 <> [] ->
  j_next page1 = Some (Some next_url) ->
  next_url <> "" ->
  net GET (Some next_url) (S (clock w)) = inr r2 ->
  status_code r2 = 200%Z ->
  body r2 = Some page2 ->
  j_data page2 = Some docs2 ->
  j_next page2 = None ->
  let w' :=
    mkWorld (S (S (clock w)))
      (trace w
       ++ [Request GET (Some (api_url +:+ "/v1/crawl/" +:+ id)) None;
           Request GET (Some next_url) None]) in
  check_crawl_status net api_url (2 + fuel) id w
  = (Ok (mkStatusResponse (j_status page2) (j_total page2)
                          (j_completed page2) (j_creditsUsed page2)
                          (j_expiresAt page2) (docs1 ++ docs2)
                          None (j_error page2)),
     w')
  /\ _monitor_job_status net api_url (3 + fuel) id poll_interval w
     = (Ok (set_data page2 (docs1 ++ docs2)), w')
  /\ j_status (set_data page2 (docs1 ++ docs2)) = j_status page2
  /\ j_total (set_data page2 (docs1 ++ docs2)) = j_total page2
  /\ j_completed (set_data page2 (docs1 ++ docs2)) = j_completed page2
  /\ j_creditsUsed (set_data page2 (docs1 ++ docs2)) = j_creditsUsed page2
  /\ j_expiresAt (set_data page2 (docs1 ++ docs2)) = j_expiresAt page2
  /\ j_data (set_data page2 (docs1 ++ docs2)) = Some (docs1 ++ docs2).
Proof.
  intros Hnet1 H1 Hbody1 Hstatus1 Hdata1 Hne Hnext1 Hurl Hnet2 H2 Hbody2
         Hdata2 Hnext2 w'.
  split; [|split; [|repeat split; reflexivity]].
  - rewrite (check_crawl_status_200 _ _ _ _ _ _ _ _ Hnet1 H1 Hbody1 Hstatus1).
    cbv [String.eqb Ascii.eqb Bool.eqb]. rewrite Hdata1.
    unfold bind at 1. unfold bind at 1.
    rewrite (paginate_next_page net (S fuel) page1 page2 docs1 docs1 next_url
               (mkWorld _ _) r2) by assumption.
    rewrite paginate_last_page by assumption.
    rewrite Hdata2. cbn [default fst snd ret build_response].
    unfold set_data; cbn [j_status j_total j_completed j_creditsUsed
                          j_expiresAt j_next j_error].
    rewrite Hnext2. cbn [default clock trace]. unfold w'.
    rewrite <- app_assoc. reflexivity.
  - change (3 + fuel) with (S (S (S fuel))).
    rewrite (monitor_completed net api_url _ id poll_interval w r1 page1 docs1)
      by assumption.
    unfold bind at 1.
    rewrite (monitor_pages_next_page net (S fuel) page1 page2 docs1 docs1
               (Some next_url) (mkWorld _ _) r2);
      try assumption; [|lia].
    rewrite monitor_pages_last_page by assumption.
    rewrite Hdata2. cbn [default fst snd ret clock trace]. unfold w'.
    rewrite <- app_assoc. reflexivity.
Qed.

(** ** The unbound [data] of the status checks *)

Section StatusChecks.

Variable net : Net.
Variable api_url : string.
Variable scrape_formats_response_transform : Json -> Json.

(** The first answer of [check_batch_scrape_status], when it is a parsed
    200. *)
Lemma check_batch_scrape_status_200 (fuel : nat) (id : string)
    (poll_interval : Z) (w : World) (r : Response) (status_data : Json) :
  net GET (Some (api_url +:+ "/v1/batch/scrape/" +:+ id)) (clock w) = inr r ->
  status_code r = 200%Z ->
  body r = Some status_data ->
  check_batch_scrape_status net api_url scrape_formats_response_transform
                            fuel id poll_interval w
  = bind (batch_wait net fuel (api_url +:+ "/v1/batch/scrape/" +:+ id)
                     poll_interval status_data)
         (fun status_data =>
            bind (match j_data status_data with
                  | Some data =>
                      bind (paginate net fuel status_data data)
                           (fun last =>
                              ret (fst last,
                                   Some (transform_documents
                                           scrape_formats_response_transform
                                           (snd last))))
                  | None => ret (status_data, None)
                  end)
                 (fun result => build_response (fst result) (snd result)))
         (mkWorld (S (clock w))
            (trace w
             ++ [Request GET
                   (Some (api_url +:+ "/v1/batch/scrape/" +:+ id)) None])).
Proof.
  intros Hnet H200 Hbody. unfold check_batch_scrape_status.
  unfold bind at 1. rewrite (get_200 _ _ _ _ Hnet H200). rewrite H200.
  cbn [Z.eqb Pos.eqb]. unfold bind at 1, json_or_raise. rewrite Hbody.
  reflexivity.
Qed.

End StatusChecks.

(** C9, as the code has it.  [check_crawl_status] binds [data] only for
    a 'completed' answer that has a 'data' field: on every other parsed
    200 answer the call raises the unbound-local error.
    [check_batch_scrape_status] binds [data] only when the answer that
    ends its wait has a 'data' field: a 'completed' answer without
    'data' raises the unbound-local error, while an answer whose status
    is not 'completed' makes the call sleep and query again, and when
    that next answer is 'completed' with documents and no next page the
    call returns them. *)
Theorem status_checks_read_unbound_data
    (net : Net) (api_url : string)
    (scrape_formats_response_transform : Json -> Json)
    (fuel : nat) (id : string) (poll_interval : Z) (w : World)
    (r : Response) (status_data : Json) (status : string) :
  let crawl := Some (api_url +:+ "/v1/crawl/" +:+ id) in
  let batch := Some (api_url +:+ "/v1/batch/scrape/" +:+ id) in
  status_code r = 200%Z ->
  body r = Some status_data ->
  j_status status_data = Some status ->
  (net GET crawl (clock w) = inr r ->
   status <> "completed" \/ j_data status_data = None ->
   check_crawl_status net api_url fuel id w
   = (Raised (UnboundLocalError "data"),
      mkWorld (S (clock w)) (trace w ++ [Request GET crawl None])))
  /\ (net GET batch (clock w) = inr r ->
      status = "completed" ->
      j_data status_data = None ->
      check_batch_scrape_status net api_url scrape_formats_response_transform
                                (S fuel) id poll_interval w
      = (Raised (UnboundLocalError "data"),
         mkWorld (S (clock w)) (trace w ++ [Request GET batch None])))
  /\ (net GET batch (clock w) = inr r ->
      status <> "completed" ->
      (0 <= poll_interval)%Z ->
      forall (r' : Response) (status_data' : Json) (docs : list Json),
        net GET batch (S (clock w)) = inr r' ->
        status_code r' = 200%Z ->
        body r' = Some status_data' ->
        j_status status_data' = Some "completed" ->
        j_data status_data' = Some docs ->
        j_next status_data' = None ->
        check_batch_scrape_status net api_url
                                  scrape_formats_response_transform
                                  (S (S fuel)) id poll_interval w
        = (Ok (mkStatusResponse
                 (Some "completed") (j_total status_data')
                 (j_completed status_data') (j_creditsUsed status_data')
                 (j_expiresAt status_data')
                 (transform_documents scrape_formats_response_transform docs)
                 None (j_error status_data')),
           mkWorld (S (S (clock w)))
             (trace w ++ [Request GET batch None; Print status;
                          Sleep (inject_Z poll_interval);
                          Request GET batch None]))).
Proof.
  intros crawl batch H200 Hbody Hstatus. split; [|split].
  - intros Hnet Hcase.
    rewrite (check_crawl_status_200 _ _ _ _ _ _ _ _ Hnet H200 Hbody Hstatus).
    destruct Hcase as [Hne|Hdata].
    + apply String.eqb_neq in Hne. rewrite Hne. reflexivity.
    + rewrite Hdata. destruct (String.eqb status "completed"); reflexivity.
  - intros Hnet -> Hdata.
    rewrite (check_batch_scrape_status_200 _ _ _ _ _ _ _ _ _ Hnet H200 Hbody).
    unfold bind at 1. rewrite batch_wait_completed by assumption.
    rewrite Hdata. reflexivity.
  - intros Hnet Hne Hpi r' status_data' docs Hnet' H200' Hbody' Hstatus'
           Hdata' Hnext'.
    rewrite (check_batch_scrape_status_200 _ _ _ _ _ _ _ _ _ Hnet H200 Hbody).
    unfold bind at 1.
    rewrite (batch_wait_again net (S fuel) _ poll_interval (mkWorld _ _)
               status_data status_data' status r') by assumption.
    rewrite batch_wait_completed by assumption.
    rewrite Hdata'. unfold bind at 1. unfold bind at 1.
    rewrite paginate_last_page by assumption.
    cbn [ret fst snd build_response]. rewrite Hnext', Hstatus'.
    cbn [from_option clock trace]. rewrite <- app_assoc. reflexivity.
Qed.

(** ** The watcher *)

Section Watcher.

Import CrawlWatcher.

Lemma async_handle_message_same :
  AsyncCrawlWatcher._handle_message = CrawlWatcher._handle_message.
Proof. reflexivity. Qed.

Lemma calls_return (detail : Detail) (handlers : list Handler) :
  forall s : Session,
    (forall h, In h handlers -> h_raises h detail = false) ->
    for_each handlers (fun handler => call handler detail) s
    = (Ok tt, mkSession (self s)
                        (heard s ++ deliveries handlers detail
                                               (status (self s)))).
Proof.
  induction handlers as [|h hs IH]; intros s Hquiet.
  - cbn. unfold ret, deliveries. cbn. rewrite app_nil_r.
    destruct s; reflexivity.
  - cbn [for_each]. unfold bind at 1. unfold call at 1.
    rewrite (Hquiet h) by (left; reflexivity).
    rewrite IH by (intros h' Hh'; apply Hquiet; right; exact Hh').
    cbn [self heard]. unfold deliveries. cbn [map].
    rewrite <- app_assoc. reflexivity.
Qed.

Lemma dispatch_event_returns (event_type : string) (detail : Detail)
    (handlers : list Handler) (s : Session) :
  event_handlers (self s) !! event_type = Some handlers ->
  (forall h, In h handlers -> h_raises h detail = false) ->
  dispatch_event event_type detail s
  = (Ok tt, mkSession (self s)
                      (heard s ++ deliveries handlers detail
                                             (status (self s)))).
Proof.
  intros Hreg Hquiet. unfold dispatch_event, bind, read.
  rewrite Hreg. apply calls_return. exact Hquiet.
Qed.

Lemma dispatch_event_unregistered (event_type : string) (detail : Detail)
    (s : Session) :
  event_handlers (self s) !! event_type = None ->
  dispatch_event event_type detail s = (Ok tt, s).
Proof.
  intros Hreg. unfold dispatch_event, bind, read. rewrite Hreg. reflexivity.
Qed.

(** The loop [for doc in self.data] of the catchup branch. *)
Lemma replay_returns (handlers : list Handler) (ident : string)
    (docs : list Json) :
  forall s : Session,
    event_handlers (self s) !! "document" = Some handlers ->
    (forall h doc, In h handlers -> In doc docs ->
                   h_raises h (DetailDocument doc ident) = false) ->
    for_each docs
             (fun doc => dispatch_event "document"
                                        (DetailDocument doc ident)) s
    = (Ok tt,
       mkSession (self s)
         (heard s
          ++ flat_map (fun doc => deliveries handlers
                                    (DetailDocument doc ident)
                                    (status (self s)))
                      docs)).
Proof.
  induction docs as [|doc docs IH]; intros s Hreg Hquiet.
  - cbn. unfold ret. rewrite app_nil_r. destruct s; reflexivity.
  - cbn [for_each]. unfold bind at 1.
    rewrite (dispatch_event_returns _ _ handlers s Hreg) by
      (intros h Hh; apply Hquiet; [exact Hh|left; reflexivity]).
    rewrite IH.
    + cbn [self heard flat_map]. rewrite <- app_assoc. reflexivity.
    + exact Hreg.
    + intros h d Hh Hd. apply Hquiet; [exact Hh|right; exact Hd].
Qed.

End Watcher.

(** The calls of a dispatch are recorded beside the watcher, which
    they leave as it is. *)
Lemma calls_keep_self (detail : Detail) (handlers : list Handler) :
  forall s : CrawlWatcher.Session,
    CrawlWatcher.self
      (snd (for_each handlers
                     (fun handler => CrawlWatcher.call handler detail) s))
    = CrawlWatcher.self s.
Proof.
  induction handlers as [|h hs IH]; intros s; [reflexivity|].
  cbn [for_each]. unfold bind at 1. unfold CrawlWatcher.call at 1.
  destruct (h_raises h detail); [reflexivity|]. rewrite IH. reflexivity.
Qed.

Lemma dispatch_event_keeps_self (event_type : string) (detail : Detail)
    (s : CrawlWatcher.Session) :
  CrawlWatcher.self (snd (CrawlWatcher.dispatch_event event_type detail s))
  = CrawlWatcher.self s.
Proof.
  unfold CrawlWatcher.dispatch_event, bind, CrawlWatcher.read.
  destruct (CrawlWatcher.event_handlers (CrawlWatcher.self s) !! event_type).
  - apply calls_keep_self.
  - reflexivity.
Qed.

Lemma replay_keeps_self (ident : string) (docs : list Json) :
  forall s : CrawlWatcher.Session,
    CrawlWatcher.self
      (snd (for_each docs
              (fun doc =>
                 CrawlWatcher.dispatch_event "document"
                                             (DetailDocument doc ident))
              s))
    = CrawlWatcher.self s.
Proof.
  induction docs as [|doc docs IH]; intros s; [reflexivity|].
  cbn [for_each]. unfold bind at 1.
  pose proof (dispatch_event_keeps_self
                "document" (DetailDocument doc ident) s) as Hstep.
  destruct (CrawlWatcher.dispatch_event
              "document" (DetailDocument doc ident) s) as [[[]|e|] s1];
    cbn [snd] in *; [rewrite IH|..]; exact Hstep.
Qed.

(** C6, as the code has it.  A catchup frame sets the session status
    to the status embedded in the frame and appends the embedded
    document list to the accumulated documents, whatever the listeners
    do.  When the document listeners return normally it then delivers
    one document event for every accumulated document, old and new, in
    order, to each of them; for a session with no document yet and a
    catchup carrying three, that is exactly three document events.
    [AsyncCrawlWatcher] does the same. *)
Theorem catchup_replays_every_accumulated_document
    (s : CrawlWatcher.Session) (msg : Message) (payload : Json)
    (embedded : string) (handlers : list Handler) :
  msg_type msg = Some "catchup" ->
  msg_data msg = Some payload ->
  j_status payload = Some embedded ->
  CrawlWatcher.event_handlers (CrawlWatcher.self s) !! "document"
  = Some handlers ->
  let me := CrawlWatcher.self s in
  let accumulated := CrawlWatcher.data me ++ default [] (j_data payload) in
  let updated :=
    CrawlWatcher.mk (CrawlWatcher.id me) accumulated embedded
                    (CrawlWatcher.event_handlers me) in
  let s' :=
    CrawlWatcher.mkSession
      updated
      (CrawlWatcher.heard s
       ++ flat_map (fun doc => deliveries handlers
                                 (DetailDocument doc (CrawlWatcher.id me))
                                 embedded)
                   accumulated) in
  CrawlWatcher.self (snd (CrawlWatcher._handle_message msg s)) = updated
  /\ CrawlWatcher.self (snd (AsyncCrawlWatcher._handle_message msg s))
     = updated
  /\ ((forall h doc,
         In h handlers ->
         In doc accumulated ->
         h_raises h (DetailDocument doc (CrawlWatcher.id me)) = false) ->
      CrawlWatcher._handle_message msg s = (Ok tt, s')
      /\ AsyncCrawlWatcher._handle_message msg s = (Ok tt, s')
      /\ (CrawlWatcher.data me = [] ->
          forall d1 d2 d3,
            j_data payload = Some [d1; d2; d3] ->
            CrawlWatcher.heard s'
            = CrawlWatcher.heard s
              ++ deliveries handlers
                            (DetailDocument d1 (CrawlWatcher.id me)) embedded
              ++ deliveries handlers
                            (DetailDocument d2 (CrawlWatcher.id me)) embedded
              ++ deliveries handlers
                            (DetailDocument d3 (CrawlWatcher.id me))
                            embedded)).
Proof.
  intros Htype Hdata Hstatus Hreg me accumulated updated s'.
  assert (Hturn : CrawlWatcher._handle_message msg s
                  = for_each accumulated
                      (fun doc =>
                         CrawlWatcher.dispatch_event
                           "document"
                           (DetailDocument doc (CrawlWatcher.id me)))
                      (CrawlWatcher.mkSession updated
                                              (CrawlWatcher.heard s))).
  { unfold CrawlWatcher._handle_message.
    rewrite Htype, Hdata. unfold CrawlWatcher.getitem at 1.
    unfold bind at 1. unfold ret at 1.
    cbv [String.eqb Ascii.eqb Bool.eqb].
    unfold CrawlWatcher.getitem at 1. unfold bind at 1. unfold ret at 1.
    rewrite Hstatus. unfold CrawlWatcher.getitem at 1.
    unfold bind at 1. unfold ret at 1.
    unfold bind at 1. unfold CrawlWatcher.set_status at 1.
    unfold bind at 1. unfold CrawlWatcher.extend_data at 1.
    unfold bind at 1. unfold CrawlWatcher.read at 1.
    reflexivity. }
  assert (Hstored : CrawlWatcher.self
                      (snd (CrawlWatcher._handle_message msg s))
                    = updated).
  { rewrite Hturn. apply replay_keeps_self. }
  split; [exact Hstored|]. split; [exact Hstored|].
  intros Hquiet.
  assert (Hrun : CrawlWatcher._handle_message msg s = (Ok tt, s')).
  { rewrite Hturn.
    rewrite (replay_returns handlers); [reflexivity|exact Hreg|].
    intros h doc Hh Hdoc. apply Hquiet; assumption. }
  split; [exact Hrun|]. split; [exact Hrun|].
  intros Hfresh d1 d2 d3 Hthree. unfold s', accumulated.
  cbn [CrawlWatcher.heard]. rewrite Hfresh, Hthree.
  cbn [from_option id app flat_map]. rewrite app_nil_r. reflexivity.
Qed.

Section Registry.

Import CrawlWatcher.

Lemma keeps_ret {A : Type} (a : A) : keeps_registry (ret a).
Proof. intros s. reflexivity. Qed.

Lemma keeps_raise {A : Type} (e : Exn) : keeps_registry (raise (A := A) e).
Proof. intros s. reflexivity. Qed.

Lemma keeps_bind {A B : Type} (c : Watch A) (k : A -> Watch B) :
  keeps_registry c -> (forall a, keeps_registry (k a)) ->
  keeps_registry (bind c k).
Proof.
  intros Hc Hk s. unfold bind. specialize (Hc s).
  destruct (c s) as [[a|e|] s1]; cbn [snd] in *.
  - rewrite (Hk a s1). exact Hc.
  - exact Hc.
  - exact Hc.
Qed.

Lemma keeps_for_each {A : Type} (xs : list A) (body : A -> Watch unit) :
  (forall x, keeps_registry (body x)) -> keeps_registry (for_each xs body).
Proof.
  intros Hbody. induction xs as [|x xs IH]; cbn [for_each].
  - apply keeps_ret.
  - apply keeps_bind; [apply Hbody|intros _; exact IH].
Qed.

Lemma keeps_getitem {A : Type} (key : string) (field : option A) :
  keeps_registry (getitem key field).
Proof. destruct field; [apply keeps_ret|apply keeps_raise]. Qed.

Lemma keeps_call (handler : Handler) (detail : Detail) :
  keeps_registry (call handler detail).
Proof. intros s. unfold call. destruct (h_raises handler detail); reflexivity. Qed.

Lemma keeps_dispatch_event (event_type : string) (detail : Detail) :
  keeps_registry (dispatch_event event_type detail).
Proof.
  unfold dispatch_event. apply keeps_bind; [intros s; reflexivity|].
  intros me. destruct (event_handlers me !! event_type).
  - apply keeps_for_each. intros h. apply keeps_call.
  - apply keeps_ret.
Qed.

Lemma keeps_handle_message (msg : Message) :
  keeps_registry (_handle_message msg).
Proof.
  unfold _handle_message.
  apply keeps_bind; [apply keeps_getitem|intros type].
  repeat match goal with
         | |- keeps_registry (if ?b then _ else _) => destruct b
         | |- keeps_registry (bind _ _) => apply keeps_bind
         | |- keeps_registry (getitem _ _) => apply keeps_getitem
         | |- keeps_registry (dispatch_event _ _) => apply keeps_dispatch_event
         | |- keeps_registry (for_each _ _) => apply keeps_for_each
         | |- keeps_registry (ret _) => apply keeps_ret
         | |- keeps_registry _ => intros s; reflexivity
         | |- forall _, _ => intro
         end.
Qed.

(** Only the three keys of [__init__] are ever in the registry. *)
Lemma reachable_registry (s : Session) :
  reachable s ->
  forall event_type : string,
    event_type <> "done" -> event_type <> "error" ->
    event_type <> "document" ->
    event_handlers (self s) !! event_type = None.
Proof.
  induction 1 as [ident|s kind h Hs IH|s msg Hs IH];
    intros event_type Hdone Herror Hdocument.
  - cbn [start __init__ self event_handlers].
    rewrite !lookup_insert_ne by congruence. apply lookup_empty.
  - unfold add_event_listener.
    destruct (event_handlers (self s) !! kind) as [hs|] eqn:Hkind;
      cbn [snd self event_handlers].
    + destruct (decide (kind = event_type)) as [->|Hne].
      * rewrite IH in Hkind by assumption. discriminate.
      * rewrite lookup_insert_ne by exact Hne. apply IH; assumption.
    + apply IH; assumption.
  - rewrite keeps_handle_message. apply IH; assumption.
Qed.

Lemma handle_document (doc : Json) (handlers : list Handler) (s : Session) :
  event_handlers (self s) !! "document" = Some handlers ->
  (forall h, In h handlers ->
             h_raises h (DetailDocument doc (id (self s))) = false) ->
  _handle_message (frame_document doc) s
  = (Ok tt,
     mkSession (mk (id (self s)) (data (self s) ++ [doc]) (status (self s))
                   (event_handlers (self s)))
               (heard s ++ deliveries handlers
                             (DetailDocument doc (id (self s)))
                             (status (self s)))).
Proof.
  intros Hreg Hquiet. unfold _handle_message, frame_document.
  cbn [msg_type msg_data getitem]. unfold bind at 1. unfold ret at 1.
  cbv [String.eqb Ascii.eqb Bool.eqb].
  unfold bind at 1. unfold ret at 1. unfold bind at 1.
  unfold extend_data at 1. unfold bind at 1. unfold read at 1.
  cbn [self heard data id status event_handlers].
  rewrite (dispatch_event_returns _ _ handlers); [reflexivity|exact Hreg|].
  exact Hquiet.
Qed.

Lemma handle_done (handlers : list Handler) (s : Session) :
  event_handlers (self s) !! "done" = Some handlers ->
  (forall h, In h handlers ->
             h_raises h (DetailDone "completed" (data (self s))
                                    (id (self s))) = false) ->
  _handle_message frame_done s
  = (Ok tt,
     mkSession (mk (id (self s)) (data (self s)) "completed"
                   (event_handlers (self s)))
               (heard s ++ deliveries handlers
                             (DetailDone "completed" (data (self s))
                                         (id (self s)))
                             "completed")).
Proof.
  intros Hreg Hquiet. unfold _handle_message, frame_done.
  cbn [msg_type getitem]. unfold bind at 1. unfold ret at 1.
  cbv [String.eqb Ascii.eqb Bool.eqb].
  unfold bind at 1. unfold set_status at 1.
  unfold bind at 1. unfold read at 1.
  cbn [self heard data id status event_handlers].
  rewrite (dispatch_event_returns _ _ handlers); [reflexivity|exact Hreg|].
  exact Hquiet.
Qed.

End Registry.

(** C10. A frame whose type is none of done, error, catchup and document
    changes neither the status nor the accumulated documents and reaches
    no listener: the session is left exactly as it was.  On every
    session a caller can build, registering a listener for a kind other
    than done, error and document leaves the registry (and the rest of
    the session) unchanged, and dispatching such a kind calls nobody. *)
Theorem unknown_kinds_leave_the_session_alone
    (s : CrawlWatcher.Session) (msg : Message) (type kind : string)
    (handler : Handler) (detail : Detail) :
  reachable s ->
  msg_type msg = Some type ->
  type <> "done" -> type <> "error" ->
  type <> "catchup" -> type <> "document" ->
  kind <> "done" -> kind <> "error" -> kind <> "document" ->
  CrawlWatcher._handle_message msg s = (Ok tt, s)
  /\ AsyncCrawlWatcher._handle_message msg s = (Ok tt, s)
  /\ CrawlWatcher.add_event_listener kind handler s = (Ok tt, s)
  /\ CrawlWatcher.dispatch_event kind detail s = (Ok tt, s).
Proof.
  intros Hreach Htype H1 H2 H3 H4 K1 K2 K3.
  assert (Hmsg : CrawlWatcher._handle_message msg s = (Ok tt, s)).
  { unfold CrawlWatcher._handle_message. rewrite Htype.
    cbn [CrawlWatcher.getitem]. unfold bind, ret.
    apply String.eqb_neq in H1, H2, H3, H4.
    rewrite H1, H2, H3, H4. reflexivity. }
  pose proof (reachable_registry s Hreach kind K1 K2 K3) as Hnone.
  repeat split.
  - exact Hmsg.
  - exact Hmsg.
  - unfold CrawlWatcher.add_event_listener. rewrite Hnone. reflexivity.
  - apply dispatch_event_unregistered. exact Hnone.
Qed.

(** C8, as the code has it.  A session handling the frames document(a),
    document(b), done, with listeners that return normally: the
    listeners receive document(a), then document(b), then done, each
    event going to the listeners of its kind in the order of their
    list, and each frame's deliveries finishing before the next frame
    is handled.  The two document frames leave the status as it was;
    the done frame sets it to 'completed' before its event is
    dispatched, so the done listeners already read 'completed'.  The
    order of a list is the order of registration: a listener added
    later goes to the end of the list of its kind. *)
Theorem events_follow_frame_order
    (s : CrawlWatcher.Session) (a b : Json)
    (on_document on_done : list Handler) :
  let me := CrawlWatcher.self s in
  CrawlWatcher.event_handlers me !! "document" = Some on_document ->
  CrawlWatcher.event_handlers me !! "done" = Some on_done ->
  (forall h doc, In h on_document -> In doc [a; b] ->
                 h_raises h (DetailDocument doc (CrawlWatcher.id me))
                 = false) ->
  (forall h, In h on_done ->
             h_raises h (DetailDone "completed"
                                    (CrawlWatcher.data me ++ [a; b])
                                    (CrawlWatcher.id me)) = false) ->
  CrawlWatcher._listen [frame_document a; frame_document b; frame_done] s
  = (Ok tt,
     CrawlWatcher.mkSession
       (CrawlWatcher.mk (CrawlWatcher.id me)
                        (CrawlWatcher.data me ++ [a; b]) "completed"
                        (CrawlWatcher.event_handlers me))
       (CrawlWatcher.heard s
        ++ deliveries on_document (DetailDocument a (CrawlWatcher.id me))
                      (CrawlWatcher.status me)
        ++ deliveries on_document (DetailDocument b (CrawlWatcher.id me))
                      (CrawlWatcher.status me)
        ++ deliveries on_done
                      (DetailDone "completed"
                                  (CrawlWatcher.data me ++ [a; b])
                                  (CrawlWatcher.id me))
                      "completed"))
  /\ CrawlWatcher.status
       (CrawlWatcher.self
          (snd (CrawlWatcher._listen [frame_document a; frame_document b]
                                     s)))
     = CrawlWatcher.status me
  /\ (forall later : Handler,
        CrawlWatcher.event_handlers
          (CrawlWatcher.self
             (snd (CrawlWatcher.add_event_listener "document" later s)))
        !! "document"
        = Some (on_document ++ [later])
        /\ CrawlWatcher.event_handlers
             (CrawlWatcher.self
                (snd (CrawlWatcher.add_event_listener "done" later s)))
           !! "done"
           = Some (on_done ++ [later])).
Proof.
  intros me Hdoc Hdone Qdoc Qdone.
  assert (Hfirst := handle_document a on_document s Hdoc
                      (fun h Hh => Qdoc h a Hh (or_introl eq_refl))).
  fold me in Hfirst.
  assert (Htwo :
    CrawlWatcher._listen [frame_document a; frame_document b] s
    = (Ok tt,
       CrawlWatcher.mkSession
         (CrawlWatcher.mk (CrawlWatcher.id me)
                          (CrawlWatcher.data me ++ [a; b])
                          (CrawlWatcher.status me)
                          (CrawlWatcher.event_handlers me))
         (CrawlWatcher.heard s
          ++ deliveries on_document
               (DetailDocument a (CrawlWatcher.id me))
               (CrawlWatcher.status me)
          ++ deliveries on_document
               (DetailDocument b (CrawlWatcher.id me))
               (CrawlWatcher.status me)))).
  { unfold CrawlWatcher._listen. cbn [for_each].
    unfold bind at 1. rewrite Hfirst.
    unfold bind at 1.
    rewrite (handle_document b on_document);
      [|exact Hdoc|intros h Hh; apply Qdoc; [exact Hh|right; left; reflexivity]].
    cbn [CrawlWatcher.self CrawlWatcher.heard CrawlWatcher.id
         CrawlWatcher.data CrawlWatcher.status
         CrawlWatcher.event_handlers ret].
    rewrite <- !app_assoc. reflexivity. }
  split.
  - unfold CrawlWatcher._listen in *. cbn [for_each] in *.
    unfold bind at 1. rewrite Hfirst.
    unfold bind at 1.
    rewrite (handle_document b on_document);
      [|exact Hdoc|intros h Hh; apply Qdoc; [exact Hh|right; left; reflexivity]].
    unfold bind at 1.
    rewrite (handle_done on_done).
    + cbn [CrawlWatcher.self CrawlWatcher.heard CrawlWatcher.id
           CrawlWatcher.data CrawlWatcher.status
           CrawlWatcher.event_handlers ret].
      rewrite <- !app_assoc. reflexivity.
    + exact Hdone.
    + cbn [CrawlWatcher.self CrawlWatcher.id CrawlWatcher.data].
      rewrite <- app_assoc. exact Qdone.
  - split; [rewrite Htwo; reflexivity|].
    intros later. unfold CrawlWatcher.add_event_listener.
    fold me. rewrite Hdoc, Hdone.
    cbn [snd CrawlWatcher.self CrawlWatcher.event_handlers].
    split; apply lookup_insert_eq.
Qed.

(** ** Error messages *)

Lemma append_assoc (s1 s2 s3 : string) :
  (s1 +:+ s2) +:+ s3 = s1 +:+ (s2 +:+ s3).
Proof.
  induction s1 as [|c s1 IH]; [reflexivity|].
  change (String c ((s1 +:+ s2) +:+ s3) = String c (s1 +:+ (s2 +:+ s3))).
  f_equal. exact IH.
Qed.

(** For every status code but 403 the message is the fixed text of the
    code followed by the server's error and details, verbatim. *)
Lemma error_message_mapping (status_code : Z)
    (action error_message error_details : string) :
  status_code <> 403%Z ->
  exists heading,
    _get_error_message status_code action error_message error_details
    = Some (heading +:+ error_message +:+ " - " +:+ error_details)
    /\ heading
       = (if (status_code =? 402)%Z then
            "Payment Required: Failed to " +:+ action +:+ ". "
          else if (status_code =? 408)%Z then
            "Request Timeout: Failed to " +:+ action
            +:+ " as the request timed out. "
          else if (status_code =? 409)%Z then
            "Conflict: Failed to " +:+ action +:+ " due to a conflict. "
          else if (status_code =? 500)%Z then
            "Internal Server Error: Failed to " +:+ action +:+ ". "
          else
            "Unexpected error during " +:+ action +:+ ": Status code "
            +:+ py_str_int status_code +:+ ". ").
Proof.
  intros H403. apply Z.eqb_neq in H403. unfold _get_error_message.
  rewrite H403.
  destruct (status_code =? 402)%Z;
    [|destruct (status_code =? 408)%Z;
      [|destruct (status_code =? 409)%Z;
        [|destruct (status_code =? 500)%Z]]];
    eexists; (split; [|reflexivity]); cbv beta iota;
    rewrite !append_assoc; reflexivity.
Qed.

(** C7, at the status code where the code departs from it.  For 403
    [_get_error_message] builds the 'Website Not Supported' text and
    drops it: the function returns [None], and [_handle_error] raises an
    [HTTPError] whose message is [None], carrying neither the mapped
    text nor the server's error and details. *)
Theorem error_message_for_403_is_lost
    (action error details : string) (w : World) :
  _get_error_message 403 action error details = None
  /\ _handle_error (A := unit) (mkResponse 403 (Some (error_body error details)))
                   action w
     = (Raised (HTTPError None 403), w).
Proof. split; reflexivity. Qed.

(** ** Runs on sample traffic *)

(** C3, at an input where the code departs from it.  The first page is
    complete with two documents and a next-page URL; the fetch of that
    URL is answered by a 500 whose body is not JSON.
    [check_crawl_status] and [check_batch_scrape_status] log the failure
    and return the two documents; [_monitor_job_status] does not look at
    the status code, parses the body and raises. *)
Theorem monitor_raises_when_a_continuation_page_fails :
  let net := script [answer 200 (Some first_page); answer 500 None] in
  _monitor_job_status net "https://api.test" 5 "job" 2 new_world
  = (Raised (Exception "Failed to parse Firecrawl response as JSON."),
     mkWorld 2
       [Request GET (Some "https://api.test/v1/crawl/job") None;
        Request GET (Some "https://api.test/v1/crawl/job?skip=2") None])
  /\ check_crawl_status net "https://api.test" 5 "job" new_world
     = (Ok (mkStatusResponse
              (Some "completed") (Some 3%Z) (Some 2%Z) (Some 2%Z)
              (Some "2030-01-01T00:00:00.000Z") [doc_a; doc_b]
              (Some "https://api.test/v1/crawl/job?skip=2") None),
        mkWorld 2
          [Request GET (Some "https://api.test/v1/crawl/job") None;
           Request GET (Some "https://api.test/v1/crawl/job?skip=2") None;
           LogError "Failed to fetch next page: 500" None])
  /\ check_batch_scrape_status net "https://api.test" as_is 5 "job" 2
                               new_world
     = (Ok (mkStatusResponse
              (Some "completed") (Some 3%Z) (Some 2%Z) (Some 2%Z)
              (Some "2030-01-01T00:00:00.000Z") [doc_a; doc_b]
              (Some "https://api.test/v1/crawl/job?skip=2") None),
        mkWorld 2
          [Request GET (Some "https://api.test/v1/batch/scrape/job") None;
           Request GET (Some "https://api.test/v1/crawl/job?skip=2") None;
           LogError "Failed to fetch next page: 500" None]).
Proof. repeat split; reflexivity. Qed.

(** C4, at an input where the code departs from it.  With a poll
    interval of 0 and the answers 'scraping' then 'completed',
    [_monitor_job_status] sleeps 2 seconds between its two queries and
    [check_batch_scrape_status] sleeps 0 seconds: it passes the caller's
    interval to [time.sleep] as it is. *)
Theorem batch_poll_has_no_floor :
  let net :=
    script [answer 200 (Some (status_page "scraping" 1 2 (Some [doc_a]) None));
            answer 200 (Some (status_page "completed" 2 2
                                          (Some [doc_a; doc_b]) None))] in
  trace (snd (_monitor_job_status net "https://api.test" 5 "job" 0 new_world))
  = [Request GET (Some "https://api.test/v1/crawl/job") None;
     Sleep (inject_Z 2);
     Request GET (Some "https://api.test/v1/crawl/job") None]
  /\ check_batch_scrape_status net "https://api.test" as_is 5 "job" 0
                               new_world
     = (Ok (mkStatusResponse
              (Some "completed") (Some 2%Z) (Some 2%Z) (Some 2%Z)
              (Some "2030-01-01T00:00:00.000Z") [doc_a; doc_b] None None),
        mkWorld 2
          [Request GET (Some "https://api.test/v1/batch/scrape/job") None;
           Print "scraping";
           Sleep (inject_Z 0);
           Request GET (Some "https://api.test/v1/batch/scrape/job") None]).
Proof. split; reflexivity. Qed.

(** C1 does not hold as stated.  A 200 answer reporting 'completed'
    without a 'data' field makes [_monitor_job_status] raise instead of
    returning a result; and a 200 answer reporting 'failed' makes
    [check_batch_scrape_status] print the status, sleep and query again
    instead of raising: here the second answer is 'completed' and the
    call returns normally. *)
Lemma poll_classification_counterexample :
  _monitor_job_status
    (script [answer 200 (Some (status_page "completed" 2 2 None None))])
    "https://api.test" 5 "job" 2 new_world
  = (Raised (Exception "Crawl job completed but no data was returned"),
     mkWorld 1 [Request GET (Some "https://api.test/v1/crawl/job") None])
  /\ check_batch_scrape_status
       (script [answer 200 (Some (status_page "failed" 1 2
                                              (Some [doc_a]) None));
                answer 200 (Some (status_page "completed" 2 2
                                              (Some [doc_a; doc_b]) None))])
       "https://api.test" as_is 5 "job" 2 new_world
     = (Ok (mkStatusResponse
              (Some "completed") (Some 2%Z) (Some 2%Z) (Some 2%Z)
              (Some "2030-01-01T00:00:00.000Z") [doc_a; doc_b] None None),
        mkWorld 2
          [Request GET (Some "https://api.test/v1/batch/scrape/job") None;
           Print "failed";
           Sleep (inject_Z 2);
           Request GET (Some "https://api.test/v1/batch/scrape/job") None]).
Proof. split; reflexivity. Qed.

(** C9 does not hold as stated for [check_batch_scrape_status]: a 200
    answer whose status is 'scraping' does not make the call raise the
    unbound-local error; the call waits, queries again and returns the
    documents of the 'completed' answer. *)
Lemma batch_status_check_counterexample :
  check_batch_scrape_status
    (script [answer 200 (Some (status_page "scraping" 1 2
                                           (Some [doc_a]) None));
             answer 200 (Some (status_page "completed" 2 2
                                           (Some [doc_a; doc_b]) None))])
    "https://api.test" as_is 5 "job" 2 new_world
  = (Ok (mkStatusResponse
           (Some "completed") (Some 2%Z) (Some 2%Z) (Some 2%Z)
           (Some "2030-01-01T00:00:00.000Z") [doc_a; doc_b] None None),
     mkWorld 2
       [Request GET (Some "https://api.test/v1/batch/scrape/job") None;
        Print "scraping";
        Sleep (inject_Z 2);
        Request GET (Some "https://api.test/v1/batch/scrape/job") None]).
Proof. reflexivity. Qed.

(** C8 does not hold as stated.  A new session with one document
    listener (1) and one done listener (2) handles document(a),
    document(b), done: when the done listener is called the session
    status it reads is already 'completed', because the status is set
    before the done event is dispatched, not after. *)
Lemma status_is_completed_before_done_is_dispatched :
  let listening :=
    snd (CrawlWatcher.add_event_listener "done" (quiet 2)
           (snd (CrawlWatcher.add_event_listener "document" (quiet 1)
                   (CrawlWatcher.start "job")))) in
  CrawlWatcher.heard
    (snd (CrawlWatcher._listen
            [frame_document doc_a; frame_document doc_b; frame_done]
            listening))
  = [mkInvocation 1 (DetailDocument doc_a "job") "scraping";
     mkInvocation 1 (DetailDocument doc_b "job") "scraping";
     mkInvocation 2 (DetailDone "completed" [doc_a; doc_b] "job")
                  "completed"].
Proof. reflexivity. Qed.

(** C6 does not hold as stated.  A new session with three document
    listeners, the second of which raises, handles a catchup frame
    carrying three documents: the status and the three documents are
    stored, but the replay ends at the second listener's call for the
    first document, so that two calls are made and the other two
    documents are dispatched to no one. *)
Lemma catchup_replay_stops_at_a_raising_listener :
  let s :=
    snd (CrawlWatcher.add_event_listener "document" (quiet 3)
           (snd (CrawlWatcher.add_event_listener "document" (raising 2)
                   (snd (CrawlWatcher.add_event_listener
                           "document" (quiet 1)
                           (CrawlWatcher.start "job")))))) in
  let run :=
    CrawlWatcher._handle_message
      (frame_catchup "completed" [doc_a; doc_b; doc_c]) s in
  fst run = Raised (ListenerError 2)
  /\ CrawlWatcher.status (CrawlWatcher.self (snd run)) = "completed"
  /\ CrawlWatcher.data (CrawlWatcher.self (snd run)) = [doc_a; doc_b; doc_c]
  /\ CrawlWatcher.heard (snd run)
     = [mkInvocation 1 (DetailDocument doc_a "job") "completed";
        mkInvocation 2 (DetailDocument doc_a "job") "completed"].
Proof. repeat split; reflexivity. Qed.

(** ** The statements at sample inputs *)

(** C5 on the answers 502, 200, 200: one retry, after half a second. *)
Lemma transport_retries_only_on_502_witness :
  (0 <= 1 # 2)%Q
  /\ (forall i, i < default_retries ->
        script [inr (flaky 0); inr (flaky 1); inr (flaky 2)]
               GET (Some "https://api.test/v1/crawl/job")
               (clock new_world + i)
        = inr (flaky i))
  /\ (forall i, i < default_retries ->
        script [inr (flaky 0); inr (flaky 1); inr (flaky 2)]
               POST (Some "https://api.test/v1/crawl/job")
               (clock new_world + i)
        = inr (flaky i))
  /\ _get_request (script [inr (flaky 0); inr (flaky 1); inr (flaky 2)])
                  (Some "https://api.test/v1/crawl/job")
                  default_retries (1 # 2) new_world
     = (Ok (flaky 1),
        mkWorld 2
          [Request GET (Some "https://api.test/v1/crawl/job") None;
           Sleep ((1 # 2) * inject_Z (2 ^ 0));
           Request GET (Some "https://api.test/v1/crawl/job") None]).
Proof.
  assert (Hb : (0 <= 1 # 2)%Q) by (vm_compute; discriminate).
  assert (Hnet : forall m i, i < default_retries ->
            script [inr (flaky 0); inr (flaky 1); inr (flaky 2)]
                   m (Some "https://api.test/v1/crawl/job")
                   (clock new_world + i)
            = inr (flaky i)).
  { intros m i Hi. unfold default_retries in Hi.
    destruct i as [|[|[|i]]]; [reflexivity|reflexivity|reflexivity|lia]. }
  split; [exact Hb|]. split; [exact (Hnet GET)|]. split; [exact (Hnet POST)|].
  apply (proj1 (proj1 (transport_retries_only_on_502
                         (script [inr (flaky 0); inr (flaky 1); inr (flaky 2)])
                         "https://api.test/v1/crawl/job" None (1 # 2) flaky
                         new_world Hb (Hnet GET) (Hnet POST))
                      1
                      ltac:(unfold default_retries; lia)
                      ltac:(intros i Hi; destruct i; [reflexivity|lia])
                      ltac:(vm_compute; discriminate))).
Defined.

(** C2 on the sample pages [a, b] and [c]. *)
Lemma pagination_aggregates_in_page_order_witness :
  let net := script [answer 200 (Some first_page);
                     answer 200 (Some second_page)] in
  net GET (Some ("https://api.test" +:+ "/v1/crawl/" +:+ "job"))
      (clock new_world)
  = inr (mkResponse 200 (Some first_page))
  /\ j_status first_page = Some "completed"
  /\ j_data first_page = Some [doc_a; doc_b]
  /\ [doc_a; doc_b] <> []
  /\ j_next first_page = Some (Some "https://api.test/v1/crawl/job?skip=2")
  /\ "https://api.test/v1/crawl/job?skip=2" <> ""
  /\ net GET (Some "https://api.test/v1/crawl/job?skip=2")
         (S (clock new_world))
     = inr (mkResponse 200 (Some second_page))
  /\ j_data second_page = Some [doc_c]
  /\ j_next second_page = None
  /\ check_crawl_status net "https://api.test" 2 "job" new_world
     = (Ok (mkStatusResponse
              (Some "completed") (Some 3%Z) (Some 3%Z) (Some 3%Z)
              (Some "2030-01-01T00:00:00.000Z") [doc_a; doc_b; doc_c]
              None None),
        mkWorld 2
          [Request GET (Some "https://api.test/v1/crawl/job") None;
           Request GET (Some "https://api.test/v1/crawl/job?skip=2") None])
  /\ _monitor_job_status net "https://api.test" 3 "job" 2 new_world
     = (Ok (set_data second_page [doc_a; doc_b; doc_c]),
        mkWorld 2
          [Request GET (Some "https://api.test/v1/crawl/job") None;
           Request GET (Some "https://api.test/v1/crawl/job?skip=2") None]).
Proof.
  intros net.
  assert (Hne : [doc_a; doc_b] <> []) by discriminate.
  assert (Hurl : "https://api.test/v1/crawl/job?skip=2" <> "")
    by discriminate.
  pose proof (pagination_aggregates_in_page_order
                net "https://api.test" 0 "job" 2 new_world
                (mkResponse 200 (Some first_page))
                (mkResponse 200 (Some second_page))
                first_page second_page [doc_a; doc_b] [doc_c]
                "https://api.test/v1/crawl/job?skip=2"
                eq_refl eq_refl eq_refl eq_refl eq_refl Hne eq_refl Hurl
                eq_refl eq_refl eq_refl eq_refl eq_refl) as H.
  do 9 (split; [first [reflexivity|assumption]|]).
  split; [exact (proj1 H)|exact (proj1 (proj2 H))].
Defined.

(** C6 on a new session with one document listener and a catchup frame
    carrying three documents: three calls, one per document. *)
Lemma catchup_replays_every_accumulated_document_witness :
  let s := snd (CrawlWatcher.add_event_listener "document" (quiet 1)
                  (CrawlWatcher.start "job")) in
  let msg := frame_catchup "completed" [doc_a; doc_b; doc_c] in
  msg_type msg = Some "catchup"
  /\ CrawlWatcher.event_handlers (CrawlWatcher.self s) !! "document"
     = Some [quiet 1]
  /\ CrawlWatcher.status
       (CrawlWatcher.self (snd (CrawlWatcher._handle_message msg s)))
     = "completed"
  /\ CrawlWatcher.data
       (CrawlWatcher.self (snd (CrawlWatcher._handle_message msg s)))
     = [doc_a; doc_b; doc_c]
  /\ CrawlWatcher.heard (snd (CrawlWatcher._handle_message msg s))
     = [mkInvocation 1 (DetailDocument doc_a "job") "completed";
        mkInvocation 1 (DetailDocument doc_b "job") "completed";
        mkInvocation 1 (DetailDocument doc_c "job") "completed"].
Proof.
  intros s msg.
  assert (Hreg : CrawlWatcher.event_handlers (CrawlWatcher.self s)
                 !! "document" = Some [quiet 1]) by reflexivity.
  assert (Hquiet : forall h doc,
            In h [quiet 1] ->
            In doc (CrawlWatcher.data (CrawlWatcher.self s)
                    ++ default [] (Some [doc_a; doc_b; doc_c])) ->
            h_raises h (DetailDocument doc
                          (CrawlWatcher.id (CrawlWatcher.self s))) = false).
  { intros h doc [<-|[]] _. reflexivity. }
  pose proof (catchup_replays_every_accumulated_document
                s msg
                (mkJson (Some "completed") None None None None
                        (Some [doc_a; doc_b; doc_c]) None None None [])
                "completed" [quiet 1]
                eq_refl eq_refl eq_refl Hreg) as (Hstored & _ & Hreplay).
  split; [reflexivity|]. split; [exact Hreg|].
  rewrite Hstored. split; [reflexivity|]. split; [reflexivity|].
  rewrite (proj1 (Hreplay Hquiet)). reflexivity.
Defined.

(** C8 on the sample session. *)
Lemma events_follow_frame_order_witness :
  CrawlWatcher.event_handlers (CrawlWatcher.self listening) !! "document"
  = Some [quiet 1]
  /\ CrawlWatcher.event_handlers (CrawlWatcher.self listening) !! "done"
     = Some [quiet 2]
  /\ CrawlWatcher.heard
       (snd (CrawlWatcher._listen
               [frame_document doc_a; frame_document doc_b; frame_done]
               listening))
     = [mkInvocation 1 (DetailDocument doc_a "job") "scraping";
        mkInvocation 1 (DetailDocument doc_b "job") "scraping";
        mkInvocation 2 (DetailDone "completed" [doc_a; doc_b] "job")
                     "completed"]
  /\ CrawlWatcher.status
       (CrawlWatcher.self
          (snd (CrawlWatcher._listen
                  [frame_document doc_a; frame_document doc_b] listening)))
     = "scraping".
Proof.
  assert (Hdoc : CrawlWatcher.event_handlers (CrawlWatcher.self listening)
                 !! "document" = Some [quiet 1]) by reflexivity.
  assert (Hdone : CrawlWatcher.event_handlers (CrawlWatcher.self listening)
                  !! "done" = Some [quiet 2]) by reflexivity.
  assert (Qdoc : forall h doc,
            In h [quiet 1] -> In doc [doc_a; doc_b] ->
            h_raises h (DetailDocument doc
                          (CrawlWatcher.id (CrawlWatcher.self listening)))
            = false).
  { intros h doc [<-|[]] _. reflexivity. }
  assert (Qdone : forall h,
            In h [quiet 2] ->
            h_raises h (DetailDone "completed"
                          (CrawlWatcher.data (CrawlWatcher.self listening)
                           ++ [doc_a; doc_b])
                          (CrawlWatcher.id (CrawlWatcher.self listening)))
            = false).
  { intros h [<-|[]]. reflexivity. }
  pose proof (events_follow_frame_order listening doc_a doc_b
                [quiet 1] [quiet 2] Hdoc Hdone Qdoc Qdone)
    as (Hall & Htwo & _).
  split; [exact Hdoc|]. split; [exact Hdone|]. split.
  - rewrite Hall. reflexivity.
  - rewrite Htwo. reflexivity.
Defined.

(** C9 on a 'scraping' answer to [check_crawl_status]. *)
Lemma status_checks_read_unbound_data_witness :
  let page := status_page "scraping" 1 2 (Some [doc_a]) None in
  let net := script [answer 200 (Some page)] in
  status_code (mkResponse 200 (Some page)) = 200%Z
  /\ body (mkResponse 200 (Some page)) = Some page
  /\ j_status page = Some "scraping"
  /\ check_crawl_status net "https://api.test" 5 "job" new_world
     = (Raised (UnboundLocalError "data"),
        mkWorld 1 [Request GET (Some "https://api.test/v1/crawl/job") None]).
Proof.
  intros page net.
  split; [reflexivity|]. split; [reflexivity|]. split; [reflexivity|].
  apply (proj1 (status_checks_read_unbound_data
                  net "https://api.test" as_is 5 "job" 2 new_world
                  (mkResponse 200 (Some page)) page "scraping"
                  eq_refl eq_refl eq_refl)
               eq_refl).
  left. discriminate.
Defined.

(** C10 on the sample session, a 'ping' frame and the kind
    'progress'. *)
Lemma unknown_kinds_leave_the_session_alone_witness :
  let msg := mkMessage (Some "ping") None None in
  reachable listening
  /\ msg_type msg = Some "ping"
  /\ CrawlWatcher._handle_message msg listening = (Ok tt, listening)
  /\ CrawlWatcher.add_event_listener "progress" (quiet 3) listening
     = (Ok tt, listening)
  /\ CrawlWatcher.dispatch_event "progress" (DetailDocument doc_a "job")
                                 listening
     = (Ok tt, listening).
Proof.
  intros msg.
  assert (Hreach : reachable listening).
  { unfold listening. apply reachable_add_event_listener.
    apply reachable_add_event_listener. apply reachable_start. }
  pose proof (unknown_kinds_leave_the_session_alone
                listening msg "ping" "progress" (quiet 3)
                (DetailDocument doc_a "job") Hreach eq_refl
                ltac:(discriminate) ltac:(discriminate)
                ltac:(discriminate) ltac:(discriminate)
                ltac:(discriminate) ltac:(discriminate)
                ltac:(discriminate)) as (H1 & _ & H3 & H4).
  split; [exact Hreach|]. split; [reflexivity|].
  split; [exact H1|]. split; [exact H3|exact H4].
Defined.

(** * Further properties *)

(** ** Construction and keyword arguments *)

Lemma prefix_iff (s1 s2 : string) :
  String.prefix s1 s2 = true <-> exists rest, s2 = s1 +:+ rest.
Proof.
  revert s2. induction s1 as [|c s1 IH]; intros s2.
  - split; [intros _; exists s2; reflexivity|].
    intros _. destruct s2; reflexivity.
  - destruct s2 as [|c2 s2].
    + split; [discriminate|]. intros [rest H]. discriminate.
    + change (String.prefix (String c s1) (String c2 s2))
        with (if Ascii.ascii_dec c c2 then String.prefix s1 s2 else false).
      destruct (Ascii.ascii_dec c c2) as [->|Hne].
      * rewrite IH. split; intros [rest H]; exists rest.
        -- change (String c2 s2 = String c2 (s1 +:+ rest)). f_equal. exact H.
        -- change (String c2 s2 = String c2 (s1 +:+ rest)) in H.
           inversion H. reflexivity.
      * split; [discriminate|]. intros [rest H].
        change (String c2 s2 = String c (s1 +:+ rest)) in H.
        inversion H. congruence.
Qed.

(** [needle in haystack] holds exactly when the needle occurs somewhere
    in the haystack. *)
Lemma py_in_iff (needle haystack : string) :
  py_in needle haystack = true
  <-> exists before after, haystack = before +:+ needle +:+ after.
Proof.
  induction haystack as [|c h IH]; cbn [py_in].
  - rewrite prefix_iff. split.
    + intros [rest H]. exists "", rest. exact H.
    + intros (before & after & H). destruct before as [|b before].
      * exists after. exact H.
      * discriminate.
  - rewrite orb_true_iff, prefix_iff, IH. split.
    + intros [[rest H]|(before & after & H)].
      * exists "", rest. exact H.
      * exists (String c before), after. rewrite H. reflexivity.
    + intros (before & after & H). destruct before as [|b before].
      * left. exists after. exact H.
      * right. exists before, after.
        change (String c h = String b (before +:+ needle +:+ after)) in H.
        inversion H. reflexivity.
Qed.

Lemma py_in_nowhere (needle haystack : string) :
  py_in needle haystack = false ->
  forall before after, haystack <> before +:+ needle +:+ after.
Proof.
  intros Hin before after H.
  assert (Hyes : py_in needle haystack = true)
    by (apply py_in_iff; exists before, after; exact H).
  congruence.
Qed.

Lemma falsy_false (x : option string) :
  falsy x = false -> exists s, x = Some s /\ s <> "".
Proof.
  destruct x as [s|]; [|discriminate]. intros H. exists s. split; [reflexivity|].
  apply String.eqb_neq. exact H.
Qed.

Lemma py_or_left (a b : option string) (s : string) :
  a = Some s -> s <> "" -> py_or a b = Some s.
Proof.
  intros -> Hs. unfold py_or. cbn [falsy].
  apply String.eqb_neq in Hs. rewrite Hs. reflexivity.
Qed.

Lemma py_or_right (a b : option string) :
  falsy a = true -> py_or a b = b.
Proof. intros H. unfold py_or. rewrite H. reflexivity. Qed.

Lemma cloud_host_in_default :
  py_in "api.firecrawl.dev" "https://api.firecrawl.dev" = true.
Proof. reflexivity. Qed.

(** X1.  [FirecrawlApp()] with no URL, neither as an argument nor in
    the environment, talks to the cloud service and needs a key: it
    raises [ValueError('No API key provided')] exactly when the
    [api_key] argument is missing or empty and [FIRECRAWL_API_KEY] is
    not set.  Otherwise it is built with the default URL and with the
    argument as its key, or the environment's value when the argument
    is missing or empty; an environment value that is the empty string
    is accepted as a key. *)
Theorem init_on_the_cloud_needs_a_key
    (getenv : string -> option string) (api_key api_url : option string) :
  falsy api_url = true ->
  getenv "FIRECRAWL_API_URL" = None ->
  (falsy api_key = true /\ getenv "FIRECRAWL_API_KEY" = None ->
   FirecrawlApp.__init__ getenv api_key api_url
   = ([Warning "No API key provided for cloud service"],
      inl (ValueError "No API key provided")))
  /\ (falsy api_key = false \/ getenv "FIRECRAWL_API_KEY" <> None ->
      snd (FirecrawlApp.__init__ getenv api_key api_url)
      = inr (FirecrawlApp.mk
               (if falsy api_key then getenv "FIRECRAWL_API_KEY"
                else api_key)
               "https://api.firecrawl.dev"))
  /\ (getenv "FIRECRAWL_API_KEY" = Some "" ->
      falsy api_key = true ->
      snd (FirecrawlApp.__init__ getenv api_key api_url)
      = inr (FirecrawlApp.mk (Some "") "https://api.firecrawl.dev")).
Proof.
  intros Hurl Henv.
  unfold FirecrawlApp.__init__. rewrite Henv.
  rewrite (py_or_right api_url _ Hurl). cbn [py_str_opt from_option id].
  rewrite cloud_host_in_default. cbn [andb].
  split; [|split].
  - intros [Hkey Hnone]. rewrite (py_or_right _ _ Hkey), Hnone.
    reflexivity.
  - intros Hcase. unfold py_or.
    destruct (falsy api_key) eqn:Hkey.
    + destruct Hcase as [Hcase|Hcase]; [discriminate|].
      rewrite bool_decide_eq_false_2 by exact Hcase. reflexivity.
    + destruct (falsy_false _ Hkey) as (s & -> & Hs).
      rewrite bool_decide_eq_false_2 by discriminate. reflexivity.
  - intros Hempty Hkey. rewrite (py_or_right _ _ Hkey), Hempty. reflexivity.
Qed.

(** X2.  With an explicit, non-empty [api_url] the environment's URL is
    ignored and the key requirement follows a substring test: a URL in
    which 'api.firecrawl.dev' occurs nowhere never needs a key, and a
    URL in which it occurs anywhere (host, path or query) needs one.  A
    non-empty [api_key] argument is always enough and wins over the
    environment. *)
Theorem init_key_requirement_is_a_substring_test
    (getenv : string -> option string) (api_key : option string)
    (url : string) :
  url <> "" ->
  ((forall before after,
       url <> before +:+ "api.firecrawl.dev" +:+ after) ->
   snd (FirecrawlApp.__init__ getenv api_key (Some url))
   = inr (FirecrawlApp.mk (py_or api_key (getenv "FIRECRAWL_API_KEY")) url))
  /\ ((exists before after,
          url = before +:+ "api.firecrawl.dev" +:+ after) ->
      falsy api_key = true ->
      getenv "FIRECRAWL_API_KEY" = None ->
      snd (FirecrawlApp.__init__ getenv api_key (Some url))
      = inl (ValueError "No API key provided"))
  /\ (forall key,
        key <> "" ->
        snd (FirecrawlApp.__init__ getenv (Some key) (Some url))
        = inr (FirecrawlApp.mk (Some key) url)).
Proof.
  intros Hurl. unfold FirecrawlApp.__init__.
  rewrite (py_or_left (Some url) _ url eq_refl Hurl).
  cbn [py_str_opt from_option id].
  split; [|split].
  - intros Hnowhere.
    destruct (py_in "api.firecrawl.dev" url) eqn:Hin.
    + apply py_in_iff in Hin. destruct Hin as (b & a & H).
      exfalso. exact (Hnowhere b a H).
    + reflexivity.
  - intros Hsomewhere Hkey Hnone.
    apply py_in_iff in Hsomewhere. rewrite Hsomewhere.
    rewrite (py_or_right _ _ Hkey), Hnone. reflexivity.
  - intros key Hkey. rewrite (py_or_left (Some key) _ key eq_refl Hkey).
    rewrite bool_decide_eq_false_2 by discriminate.
    rewrite andb_false_r. reflexivity.
Qed.

(** X3.  A client for a self-hosted service built without any key sends
    the literal header 'Authorization: Bearer None'.  The idempotency
    header is present exactly when the key is neither [None] nor empty,
    and the content type is always JSON. *)
Theorem keyless_client_sends_bearer_none
    (getenv : string -> option string) (url : string)
    (idempotency_key : option string) :
  url <> "" ->
  (forall before after,
      url <> before +:+ "api.firecrawl.dev" +:+ after) ->
  getenv "FIRECRAWL_API_KEY" = None ->
  exists app,
    snd (FirecrawlApp.__init__ getenv None (Some url)) = inr app
    /\ FirecrawlApp._prepare_headers app idempotency_key !! "Authorization"
       = Some "Bearer None"
    /\ FirecrawlApp._prepare_headers app idempotency_key !! "Content-Type"
       = Some "application/json"
    /\ FirecrawlApp._prepare_headers app idempotency_key
       !! "x-idempotency-key"
       = (if falsy idempotency_key then None else idempotency_key).
Proof.
  intros Hurl Hnowhere Hnone.
  exists (FirecrawlApp.mk None url). split.
  - unfold FirecrawlApp.__init__.
    rewrite (py_or_left (Some url) _ url eq_refl Hurl).
    cbn [py_str_opt from_option id].
    destruct (py_in "api.firecrawl.dev" url) eqn:Hin.
    + apply py_in_iff in Hin. destruct Hin as (b & a & H).
      exfalso. exact (Hnowhere b a H).
    + rewrite (py_or_right None _ eq_refl), Hnone. reflexivity.
  - unfold FirecrawlApp._prepare_headers.
    destruct (falsy idempotency_key) eqn:Hkey; cbn [negb].
    + repeat split; reflexivity.
    + destruct (falsy_false _ Hkey) as (k & -> & Hk).
      repeat split; reflexivity.
Qed.

(** ** Keyword arguments *)

Lemma validate_kwargs_known {S : Type}
    (set_order : gset string -> list string) (kwargs : gset string)
    (method_name : string) (s : S) :
  kwargs ⊆ default ∅ (FirecrawlApp.method_params !! method_name) ->
  FirecrawlApp._validate_kwargs set_order kwargs method_name s = (Ok tt, s).
Proof.
  intros Hsub. unfold FirecrawlApp._validate_kwargs.
  destruct (bool_decide (kwargs = ∅)); [reflexivity|].
  rewrite bool_decide_eq_true_2 by set_solver. reflexivity.
Qed.

Lemma validate_kwargs_unknown {S : Type}
    (set_order : gset string -> list string) (kwargs : gset string)
    (method_name key : string) (s : S) :
  key ∈ kwargs ->
  key ∉ default ∅ (FirecrawlApp.method_params !! method_name) ->
  FirecrawlApp._validate_kwargs set_order kwargs method_name s
  = (Raised (ValueError
               ("Unsupported parameter(s) for " +:+ method_name +:+ ": "
                +:+ join ", "
                      (set_order
                         (kwargs
                          ∖ default ∅ (FirecrawlApp.method_params
                                        !! method_name)))
                +:+ ". Please refer to the API documentation for the "
                +:+ "correct parameters.")),
     s).
Proof.
  intros Hin Hnot. unfold FirecrawlApp._validate_kwargs.
  rewrite bool_decide_eq_false_2 by set_solver.
  rewrite bool_decide_eq_false_2 by set_solver. reflexivity.
Qed.

(** X4.  [_validate_kwargs] accepts a call exactly when every extra
    keyword is in the table entry of the method, an absent entry
    counting as empty; it raises [ValueError] as soon as one keyword is
    not, and with a single offending keyword the message names it.
    Either way it changes nothing. *)
Theorem validate_kwargs_accepts_exactly_the_known
    (S : Type) (set_order : gset string -> list string)
    (kwargs : gset string) (method_name : string) (s : S) :
  let allowed := default ∅ (FirecrawlApp.method_params !! method_name) in
  let run := FirecrawlApp._validate_kwargs set_order kwargs method_name s in
  snd run = s
  /\ (fst run = Ok tt <-> kwargs ⊆ allowed)
  /\ (~ kwargs ⊆ allowed -> exists msg, fst run = Raised (ValueError msg))
  /\ (forall key,
        kwargs ∖ allowed = {[key]} ->
        set_order {[key]} = [key] ->
        fst run
        = Raised (ValueError
                    ("Unsupported parameter(s) for " +:+ method_name
                     +:+ ": " +:+ key
                     +:+ ". Please refer to the API documentation for the "
                     +:+ "correct parameters."))).
Proof.
  intros allowed run.
  destruct (decide (kwargs ⊆ allowed)) as [Hsub|Hnot].
  - unfold run. rewrite (validate_kwargs_known _ _ _ _ Hsub). cbn [fst snd].
    split; [reflexivity|]. split; [tauto|]. split; [tauto|].
    intros key Hkey _. exfalso. set_solver.
  - assert (exists key, key ∈ kwargs /\ key ∉ allowed) as (k & Hin & Hout).
    { destruct (set_choose_or_empty (kwargs ∖ allowed)) as [[k Hk]|Hempty].
      - exists k. set_solver.
      - exfalso. apply Hnot. set_solver. }
    unfold run. rewrite (validate_kwargs_unknown _ _ _ k _ Hin Hout).
    cbn [fst snd]. split; [reflexivity|]. split.
    { split; [discriminate|tauto]. }
    split; [eauto|].
    intros key Hkey Horder. fold allowed. rewrite Hkey, Horder. reflexivity.
Qed.

(** ** Job submission *)

Section SubmissionFacts.

Variable net : Net.
Variable api_url : string.
Variable scrape_formats_response_transform : Json -> Json.
Variable set_order : gset string -> list string.
Variables CrawlErrorsResponse CrawlResponse BatchScrapeResponse : Json -> bool.

Lemma post_returns (url : string) (data_timeout : option Z) (w : World)
    (r : Response) :
  net POST (Some url) (clock w) = inr r ->
  status_code r <> 502%Z ->
  _post_request net url data_timeout default_retries default_backoff_factor w
  = (Ok r, mkWorld (S (clock w))
                   (trace w ++ [Request POST (Some url)
                                        (post_timeout data_timeout)])).
Proof.
  intros Hnet Hne. unfold _post_request, default_retries.
  apply retry_loop_other; assumption.
Qed.

Lemma handle_error_raises {A : Type} (response : Response) (action : string)
    (w : World) :
  exists message,
    _handle_error (A := A) response action w
    = (Raised (HTTPError message (status_code response)), w)
    /\ message
       = match body response with
         | None =>
             Some ("Failed to parse Firecrawl error response as JSON. "
                   +:+ "Status code: "
                   +:+ py_str_int (status_code response))
         | Some j =>
             _get_error_message
               (status_code response) action
               (default "No error message provided." (j_error j))
               (default "No additional error details provided."
                        (j_details j))
         end.
Proof.
  unfold _handle_error. destruct (body response); eexists; split; reflexivity.
Qed.

Lemma async_crawl_url_has_no_entry :
  FirecrawlApp.method_params !! "async_crawl_url" = None.
Proof. reflexivity. Qed.

Lemma crawl_url_entry :
  FirecrawlApp.method_params !! "crawl_url"
  = Some (list_to_set
            ["include_paths"; "exclude_paths"; "max_depth";
             "max_discovery_depth"; "limit"; "allow_backward_links";
             "allow_external_links"; "ignore_sitemap"; "scrape_options";
             "webhook"; "deduplicate_similar_urls";
             "ignore_query_parameters"; "regex_on_full_url"]).
Proof. reflexivity. Qed.

(** After the keyword check and the marshalling, [crawl_url] is its
    POST followed by the poll. *)
Lemma crawl_url_submitted (fuel : nat) (kwargs : gset string)
    (data_timeout : option Z) (poll_interval : Z) (w : World)
    (r : Response) (j : Json) :
  kwargs ⊆ default ∅ (FirecrawlApp.method_params !! "crawl_url") ->
  net POST (Some (api_url +:+ "/v1/crawl")) (clock w) = inr r ->
  status_code r = 200%Z ->
  body r = Some j ->
  crawl_url net api_url set_order fuel kwargs (inr data_timeout)
            poll_interval w
  = _monitor_job_status net api_url fuel
      (py_str_opt (get_field "id" (j_fields j))) poll_interval
      (mkWorld (S (clock w))
         (trace w ++ [Request POST (Some (api_url +:+ "/v1/crawl"))
                              (post_timeout data_timeout)])).
Proof.
  intros Hsub Hnet H200 Hbody. unfold crawl_url.
  unfold bind at 1. rewrite (validate_kwargs_known _ _ _ _ Hsub).
  unfold bind at 1. cbn [marshal]. unfold ret at 1.
  unfold bind at 1. rewrite (post_returns _ _ _ r Hnet) by lia.
  rewrite H200. cbn [Z.eqb Pos.eqb].
  unfold bind at 1. unfold job_id. unfold bind at 1.
  unfold json_or_raise. rewrite Hbody. reflexivity.
Qed.

End SubmissionFacts.

(** X5.  [FirecrawlApp.async_crawl_url] checks its extra keyword
    arguments against the table entry 'async_crawl_url', which the table
    does not have: a call that passes any keyword beside its named
    parameters raises [ValueError] and sends nothing. *)
Theorem async_crawl_url_rejects_every_extra_keyword
    (net : Net) (api_url : string)
    (set_order : gset string -> list string) (CrawlResponse : Json -> bool)
    (kwargs : gset string) (params : Exn + option Z) (w : World) :
  kwargs <> ∅ ->
  exists msg,
    async_crawl_url net api_url set_order CrawlResponse kwargs params w
    = (Raised (ValueError msg), w).
Proof.
  intros Hne.
  destruct (set_choose_or_empty kwargs) as [[key Hkey]|Hempty];
    [|exfalso; apply Hne; set_solver].
  unfold async_crawl_url, bind.
  rewrite (validate_kwargs_unknown set_order kwargs "async_crawl_url" key w
             Hkey).
  - eexists. reflexivity.
  - rewrite async_crawl_url_has_no_entry. set_solver.
Qed.

(** X6.  [crawl_url] and [batch_scrape_urls] send nothing when the call
    is refused on their side: a keyword argument outside the table entry
    raises [ValueError], and a failure while the request body is built
    is raised as it is; in both cases no request has been made. *)
Theorem invalid_arguments_are_refused_before_any_request
    (net : Net) (api_url : string)
    (scrape_formats_response_transform : Json -> Json)
    (set_order : gset string -> list string)
    (fuel : nat) (kwargs : gset string) (params : Exn + option Z)
    (poll_interval : Z) (w : World) :
  (forall key,
      key ∈ kwargs ->
      key ∉ default ∅ (FirecrawlApp.method_params !! "crawl_url") ->
      exists msg,
        crawl_url net api_url set_order fuel kwargs params poll_interval w
        = (Raised (ValueError msg), w))
  /\ (forall key,
        key ∈ kwargs ->
        key ∉ default ∅ (FirecrawlApp.method_params !! "batch_scrape_urls") ->
        exists msg,
          batch_scrape_urls net api_url scrape_formats_response_transform
                            set_order fuel kwargs params poll_interval w
          = (Raised (ValueError msg), w))
  /\ (forall e,
        params = inl e ->
        kwargs ⊆ default ∅ (FirecrawlApp.method_params !! "crawl_url") ->
        crawl_url net api_url set_order fuel kwargs params poll_interval w
        = (Raised e, w))
  /\ (forall e,
        params = inl e ->
        kwargs ⊆ default ∅ (FirecrawlApp.method_params
                             !! "batch_scrape_urls") ->
        batch_scrape_urls net api_url scrape_formats_response_transform
                          set_order fuel kwargs params poll_interval w
        = (Raised e, w)).
Proof.
  split; [|split; [|split]].
  - intros key Hin Hout. unfold crawl_url, bind.
    rewrite (validate_kwargs_unknown set_order kwargs "crawl_url" key w
               Hin Hout).
    eexists. reflexivity.
  - intros key Hin Hout. unfold batch_scrape_urls, bind.
    rewrite (validate_kwargs_unknown set_order kwargs "batch_scrape_urls"
               key w Hin Hout).
    eexists. reflexivity.
  - intros e -> Hsub. unfold crawl_url, bind.
    rewrite (validate_kwargs_known _ _ _ _ Hsub). reflexivity.
  - intros e -> Hsub. unfold batch_scrape_urls, bind.
    rewrite (validate_kwargs_known _ _ _ _ Hsub). reflexivity.
Qed.

(** X7.  Once the job is accepted, [crawl_url] is one POST to /v1/crawl,
    with a transport timeout of the body's timeout plus 5000 when the
    body has one, followed by the poll of [_monitor_job_status] on the
    identifier of the answer.  The identifier is not checked: an answer
    without an 'id' makes the poll query the status of a job called
    'None'. *)
Theorem crawl_url_is_submission_then_poll
    (net : Net) (api_url : string)
    (set_order : gset string -> list string)
    (fuel : nat) (kwargs : gset string) (data_timeout : option Z)
    (poll_interval : Z) (w : World) (r : Response) (j : Json) :
  kwargs ⊆ default ∅ (FirecrawlApp.method_params !! "crawl_url") ->
  net POST (Some (api_url +:+ "/v1/crawl")) (clock w) = inr r ->
  status_code r = 200%Z ->
  body r = Some j ->
  let posted :=
    mkWorld (S (clock w))
      (trace w ++ [Request POST (Some (api_url +:+ "/v1/crawl"))
                           (post_timeout data_timeout)]) in
  (forall id,
      get_field "id" (j_fields j) = Some id ->
      crawl_url net api_url set_order fuel kwargs (inr data_timeout)
                poll_interval w
      = _monitor_job_status net api_url fuel id poll_interval posted)
  /\ (get_field "id" (j_fields j) = None ->
      exists rest,
        trace (snd (crawl_url net api_url set_order (S fuel) kwargs
                              (inr data_timeout) poll_interval w))
        = trace w
          ++ Request POST (Some (api_url +:+ "/v1/crawl"))
                     (post_timeout data_timeout)
          :: Request GET (Some (api_url +:+ "/v1/crawl/None")) None
          :: rest).
Proof.
  intros Hsub Hnet H200 Hbody posted. split.
  - intros id Hid.
    rewrite (crawl_url_submitted net api_url set_order fuel kwargs
               data_timeout poll_interval w r j Hsub Hnet H200 Hbody).
    rewrite Hid. reflexivity.
  - intros Hid.
    rewrite (crawl_url_submitted net api_url set_order (S fuel) kwargs
               data_timeout poll_interval w r j Hsub Hnet H200 Hbody).
    rewrite Hid. cbn [py_str_opt from_option].
    destruct (monitor_turn_queries_first net api_url fuel "None"
                poll_interval
                (mkWorld (S (clock w))
                   (trace w ++ [Request POST (Some (api_url +:+ "/v1/crawl"))
                                        (post_timeout data_timeout)])))
      as [rest Hrest].
    exists rest. rewrite Hrest. cbn [trace]. rewrite <- app_assoc.
    reflexivity.
Qed.

(** X8.  A submission that the service refuses is never polled: when
    the POST of [crawl_url] or [batch_scrape_urls] is answered by a
    status other than 200 and 502, the call raises the [HTTPError] of
    [_handle_error] for the action 'start crawl job' or 'start batch
    scrape job', and the POST is the only request made. *)
Theorem refused_submission_is_not_polled
    (net : Net) (api_url : string)
    (scrape_formats_response_transform : Json -> Json)
    (set_order : gset string -> list string)
    (fuel : nat) (data_timeout : option Z) (poll_interval : Z) (w : World)
    (r : Response) :
  status_code r <> 200%Z ->
  status_code r <> 502%Z ->
  (net POST (Some (api_url +:+ "/v1/crawl")) (clock w) = inr r ->
   exists message,
     crawl_url net api_url set_order fuel ∅ (inr data_timeout)
               poll_interval w
     = (Raised (HTTPError message (status_code r)),
        mkWorld (S (clock w))
          (trace w ++ [Request POST (Some (api_url +:+ "/v1/crawl"))
                               (post_timeout data_timeout)]))
     /\ forall e d,
          body r = Some (error_body e d) ->
          message = _get_error_message (status_code r) "start crawl job" e d)
  /\ (net POST (Some (api_url +:+ "/v1/batch/scrape")) (clock w) = inr r ->
      exists message,
        batch_scrape_urls net api_url scrape_formats_response_transform
                          set_order fuel ∅ (inr data_timeout)
                          poll_interval w
        = (Raised (HTTPError message (status_code r)),
           mkWorld (S (clock w))
             (trace w ++ [Request POST (Some (api_url +:+ "/v1/batch/scrape"))
                                  (post_timeout data_timeout)]))
        /\ forall e d,
             body r = Some (error_body e d) ->
             message
             = _get_error_message (status_code r) "start batch scrape job"
                                  e d).
Proof.
  intros H200 H502. apply Z.eqb_neq in H200. split.
  - intros Hnet. unfold crawl_url.
    unfold bind at 1. rewrite validate_kwargs_known by set_solver.
    unfold bind at 1. cbn [marshal]. unfold ret at 1.
    unfold bind at 1. rewrite (post_returns _ _ _ _ r Hnet H502).
    rewrite H200.
    destruct (handle_error_raises (A := Json) r "start crawl job"
                (mkWorld (S (clock w))
                   (trace w ++ [Request POST (Some (api_url +:+ "/v1/crawl"))
                                        (post_timeout data_timeout)])))
      as (message & Hrun & Hmessage).
    exists message. split; [exact Hrun|].
    intros e d Hbody. rewrite Hmessage, Hbody. reflexivity.
  - intros Hnet. unfold batch_scrape_urls.
    unfold bind at 1. rewrite validate_kwargs_known by set_solver.
    unfold bind at 1. cbn [marshal]. unfold ret at 1.
    unfold bind at 1. rewrite (post_returns _ _ _ _ r Hnet H502).
    rewrite H200.
    destruct (handle_error_raises (A := StatusResponse) r
                "start batch scrape job"
                (mkWorld (S (clock w))
                   (trace w
                    ++ [Request POST (Some (api_url +:+ "/v1/batch/scrape"))
                                (post_timeout data_timeout)])))
      as (message & Hrun & Hmessage).
    exists message. split; [exact Hrun|].
    intros e d Hbody. rewrite Hmessage, Hbody. reflexivity.
Qed.

(** ** Transport, whatever the server does *)

Section TransportBounds.

Variable net : Net.
Variables (method : Method) (url : option string) (timeout : option Z).
Variable backoff_factor : Q.

Lemma requests_sent_app (l1 l2 : list Effect) :
  requests_sent (l1 ++ l2) = requests_sent l1 + requests_sent l2.
Proof. unfold requests_sent. rewrite List.filter_app, length_app. reflexivity. Qed.

Lemma retry_loop_bounded (remaining : nat) :
  forall (attempt : nat) (last : option Response) (w : World),
  exists added,
    trace (snd (retry_loop net method url timeout backoff_factor remaining
                           attempt last w))
    = trace w ++ added
    /\ requests_sent added <= remaining
    /\ clock (snd (retry_loop net method url timeout backoff_factor
                              remaining attempt last w))
       = clock w + requests_sent added.
Proof.
  induction remaining as [|n IH]; intros attempt last w.
  - exists []. cbn [retry_loop]. destruct last; cbn;
      rewrite app_nil_r, Nat.add_0_r; auto.
  - cbn [retry_loop]. unfold bind at 1 3. unfold requests_send.
    destruct (net method url (clock w)) as [e|r].
    + exists [Request method url timeout]. cbn. repeat split; lia.
    + destruct (status_code r =? 502)%Z.
      * unfold bind at 1 2. unfold sleep.
        destruct (Qle_bool 0 (backoff backoff_factor attempt)).
        -- unfold emit. cbn [clock trace].
           destruct (IH (S attempt) (Some r)
                        (mkWorld (S (clock w))
                           ((trace w ++ [Request method url timeout])
                            ++ [Sleep (backoff backoff_factor attempt)])))
             as (added & Htrace & Hbound & Hclock).
           exists ([Request method url timeout;
                    Sleep (backoff backoff_factor attempt)] ++ added).
           rewrite Htrace, Hclock. cbn [clock trace].
           rewrite requests_sent_app. cbn.
           rewrite <- !app_assoc. cbn. repeat split; lia.
        -- exists [Request method url timeout]. cbn. repeat split; lia.
      * exists [Request method url timeout]. cbn. repeat split; lia.
Qed.

Hypothesis backoff_factor_nonneg : (0 <= backoff_factor)%Q.

(** The iterations that meet a 502 are passed one by one. *)
Lemma retry_loop_skips_502 (k : nat) :
  forall (remaining attempt : nat) (last : option Response) (w : World)
         (rs : nat -> Response),
    (forall i, i < k -> net method url (clock w + i) = inr (rs i)) ->
    (forall i, i < k -> status_code (rs i) = 502%Z) ->
    retry_loop net method url timeout backoff_factor (k + remaining)
               attempt last w
    = retry_loop net method url timeout backoff_factor remaining
                 (attempt + k)
                 (match k with O => last | S k' => Some (rs k') end)
                 (mkWorld (clock w + k)
                    (trace w ++ attempts method url timeout backoff_factor
                                         attempt k)).
Proof.
  induction k as [|k IH]; intros remaining attempt last w rs Hnet H502.
  - cbn [Nat.add]. rewrite !Nat.add_0_r. unfold attempts. cbn.
    rewrite app_nil_r. destruct w; reflexivity.
  - change (S k + remaining) with (S (k + remaining)).
    rewrite (retry_loop_502 net method url timeout backoff_factor
               backoff_factor_nonneg _ _ _ _ (rs 0)).
    + rewrite (IH remaining (S attempt) (Some (rs 0)) _
                 (fun i => rs (S i))).
      * cbn [clock trace]. rewrite attempts_S, <- app_assoc.
        replace (S attempt + k) with (attempt + S k) by lia.
        replace (S (clock w) + k) with (clock w + S k) by lia.
        destruct k; reflexivity.
      * intros i Hi. cbn [clock]. rewrite <- (Hnet (S i)) by lia.
        f_equal. lia.
      * intros i Hi. apply H502. lia.
    + rewrite <- (Hnet 0) by lia. f_equal. lia.
    + apply H502. lia.
Qed.

(** A failure inside [requests] ends the loop at once. *)
Lemma retry_loop_fails (remaining attempt : nat) (last : option Response)
    (w : World) (e : Exn) :
  net method url (clock w) = inl e ->
  retry_loop net method url timeout backoff_factor (S remaining) attempt
             last w
  = (Raised e, mkWorld (S (clock w))
                       (trace w ++ [Request method url timeout])).
Proof.
  intros Hnet. cbn [retry_loop]. unfold bind, requests_send.
  rewrite Hnet. reflexivity.
Qed.

End TransportBounds.

(** X9.  Whatever the server answers and however [requests] fails, and
    for every backoff factor, [_get_request] and [_post_request] send at
    most [retries] requests.  With [retries=0] they send none and fail
    on their unbound local variable [response]. *)
Theorem transport_sends_at_most_retries_requests
    (net : Net) (url : string) (data_timeout : option Z)
    (retries : nat) (backoff_factor : Q) (w : World) :
  let got := _get_request net (Some url) retries backoff_factor w in
  let posted := _post_request net url data_timeout retries backoff_factor w in
  (exists added,
      trace (snd got) = trace w ++ added
      /\ requests_sent added <= retries
      /\ clock (snd got) = clock w + requests_sent added)
  /\ (exists added,
         trace (snd posted) = trace w ++ added
         /\ requests_sent added <= retries
         /\ clock (snd posted) = clock w + requests_sent added)
  /\ (retries = 0 ->
      got = (Raised (UnboundLocalError "response"), w)
      /\ posted = (Raised (UnboundLocalError "response"), w)).
Proof.
  intros got posted. split; [|split].
  - apply retry_loop_bounded.
  - apply retry_loop_bounded.
  - intros ->. split; reflexivity.
Qed.

(** X10.  A failure inside [requests] (connection refused, timeout,
    ...) is not retried: when the answers before attempt [k] are 502 and
    attempt [k] fails with [e], [_get_request] and [_post_request] raise
    [e] at once, after [k + 1] requests, whatever the number of attempts
    still allowed. *)
Theorem connection_failure_is_not_retried
    (net : Net) (url : string) (data_timeout : option Z)
    (retries : nat) (backoff_factor : Q) (answers : nat -> Response)
    (k : nat) (e : Exn) (w : World) :
  (0 <= backoff_factor)%Q ->
  k < retries ->
  (forall i, i < k -> status_code (answers i) = 502%Z) ->
  ((forall i, i < k -> net GET (Some url) (clock w + i) = inr (answers i)) ->
   net GET (Some url) (clock w + k) = inl e ->
   _get_request net (Some url) retries backoff_factor w
   = (Raised e,
      mkWorld (clock w + S k)
        (trace w ++ attempts GET (Some url) None backoff_factor 0 k
         ++ [Request GET (Some url) None])))
  /\ ((forall i, i < k ->
                 net POST (Some url) (clock w + i) = inr (answers i)) ->
      net POST (Some url) (clock w + k) = inl e ->
      _post_request net url data_timeout retries backoff_factor w
      = (Raised e,
         mkWorld (clock w + S k)
           (trace w
            ++ attempts POST (Some url) (post_timeout data_timeout)
                        backoff_factor 0 k
            ++ [Request POST (Some url) (post_timeout data_timeout)]))).
Proof.
  intros Hb Hk H502.
  destruct retries as [|n]; [lia|].
  replace (S n) with (k + S (n - k)) by lia.
  split.
  - intros Hnet He. unfold _get_request.
    rewrite (retry_loop_skips_502 net GET (Some url) None backoff_factor Hb
               k (S (n - k)) 0 None w answers Hnet H502).
    rewrite retry_loop_fails with (e := e) by exact He.
    cbn [clock trace]. rewrite <- app_assoc.
    replace (S (clock w + k)) with (clock w + S k) by lia. reflexivity.
  - intros Hnet He. unfold _post_request.
    rewrite (retry_loop_skips_502 net POST (Some url)
               (post_timeout data_timeout) backoff_factor Hb
               k (S (n - k)) 0 None w answers Hnet H502).
    rewrite retry_loop_fails with (e := e) by exact He.
    cbn [clock trace]. rewrite <- app_assoc.
    replace (S (clock w + k)) with (clock w + S k) by lia. reflexivity.
Qed.

(** ** The error lists *)

Section ErrorLists.

Variable net : Net.
Variable api_url : string.
Variable CrawlErrorsResponse : Json -> bool.

Lemma half_nonneg : (0 <= default_backoff_factor)%Q.
Proof. unfold default_backoff_factor, Qle. simpl. lia. Qed.

(** Three 502 answers to a GET with the default arguments. *)
Lemma get_exhausted (url : option string) (w : World)
    (answers : nat -> Response) :
  (forall i, i < 3 -> net GET url (clock w + i) = inr (answers i)) ->
  (forall i, i < 3 -> status_code (answers i) = 502%Z) ->
  get net url w
  = (Ok (answers 2),
     mkWorld (clock w + 3)
       (trace w
        ++ [Request GET url None;
            Sleep (default_backoff_factor * inject_Z (2 ^ 0));
            Request GET url None;
            Sleep (default_backoff_factor * inject_Z (2 ^ 1));
            Request GET url None;
            Sleep (default_backoff_factor * inject_Z (2 ^ 2))])).
Proof.
  intros Hnet H502. unfold get, _get_request, default_retries.
  rewrite (retry_loop_exhausted net GET url None default_backoff_factor
             half_nonneg 2 w answers) by assumption.
  reflexivity.
Qed.

Lemma model_or_raise_run (model : Json -> bool) (response : Response)
    (w : World) :
  model_or_raise model response w
  = (match body response with
     | Some j =>
         if model j then Ok j
         else Raised (Exception "Failed to parse Firecrawl response as JSON.")
     | None => Raised (Exception "Failed to parse Firecrawl response as JSON.")
     end, w).
Proof.
  unfold model_or_raise. destruct (body response) as [j|]; [|reflexivity].
  destruct (model j); reflexivity.
Qed.

End ErrorLists.

(** X11.  Retry and error translation compose: when the service answers
    502 three times, with a JSON error body the last time,
    [check_crawl_errors] and [check_batch_scrape_errors] give up after
    three requests and the sleeps of 0.5, 1 and 2 seconds, and raise an
    [HTTPError] whose message is 'Unexpected error during check crawl
    errors: Status code 502.' (or '... check batch scrape errors ...')
    followed by the server's error and details. *)
Theorem error_lists_give_up_after_three_502
    (net : Net) (api_url : string) (CrawlErrorsResponse : Json -> bool)
    (id error details : string) (answers : nat -> Response) (w : World) :
  (forall i, i < 3 -> status_code (answers i) = 502%Z) ->
  body (answers 2) = Some (error_body error details) ->
  let waited url :=
    mkWorld (clock w + 3)
      (trace w
       ++ [Request GET (Some url) None;
           Sleep (default_backoff_factor * inject_Z (2 ^ 0));
           Request GET (Some url) None;
           Sleep (default_backoff_factor * inject_Z (2 ^ 1));
           Request GET (Some url) None;
           Sleep (default_backoff_factor * inject_Z (2 ^ 2))]) in
  ((forall i, i < 3 ->
      net GET (Some (api_url +:+ "/v1/crawl/" +:+ id +:+ "/errors"))
          (clock w + i) = inr (answers i)) ->
   check_crawl_errors net api_url CrawlErrorsResponse id w
   = (Raised (HTTPError
                (Some ("Unexpected error during check crawl errors: "
                       +:+ "Status code 502. "
                       +:+ error +:+ " - " +:+ details))
                502),
      waited (api_url +:+ "/v1/crawl/" +:+ id +:+ "/errors")))
  /\ ((forall i, i < 3 ->
         net GET (Some (api_url +:+ "/v1/batch/scrape/" +:+ id +:+ "/errors"))
             (clock w + i) = inr (answers i)) ->
      check_batch_scrape_errors net api_url CrawlErrorsResponse id w
      = (Raised (HTTPError
                   (Some ("Unexpected error during check batch scrape errors: "
                          +:+ "Status code 502. "
                          +:+ error +:+ " - " +:+ details))
                   502),
         waited (api_url +:+ "/v1/batch/scrape/" +:+ id +:+ "/errors"))).
Proof.
  intros H502 Hbody waited. split.
  - intros Hnet. unfold check_crawl_errors, bind.
    rewrite (get_exhausted net _ w answers Hnet H502).
    rewrite (H502 2) by lia. cbn [Z.eqb Pos.eqb].
    unfold _handle_error. rewrite Hbody, (H502 2) by lia. reflexivity.
  - intros Hnet. unfold check_batch_scrape_errors, bind.
    rewrite (get_exhausted net _ w answers Hnet H502).
    rewrite (H502 2) by lia. cbn [Z.eqb Pos.eqb].
    unfold _handle_error. rewrite Hbody, (H502 2) by lia. reflexivity.
Qed.

(** X12.  The four calls that build a pydantic model from a 200 answer
    ([check_crawl_errors], [check_batch_scrape_errors],
    [async_crawl_url], [async_batch_scrape_urls]) return the answer's
    dictionary when the model accepts it, and report 'Failed to parse
    Firecrawl response as JSON.' both when the body is not JSON and when
    it is JSON that the model rejects. *)
Theorem model_rejection_is_reported_as_a_parse_failure
    (net : Net) (api_url : string)
    (set_order : gset string -> list string)
    (CrawlErrorsResponse CrawlResponse BatchScrapeResponse : Json -> bool)
    (id : string) (data_timeout : option Z) (r : Response) (w : World) :
  status_code r = 200%Z ->
  let outcome (model : Json -> bool) :=
    match body r with
    | Some j =>
        if model j then Ok j
        else Raised (Exception "Failed to parse Firecrawl response as JSON.")
    | None => Raised (Exception "Failed to parse Firecrawl response as JSON.")
    end in
  (net GET (Some (api_url +:+ "/v1/crawl/" +:+ id +:+ "/errors")) (clock w)
   = inr r ->
   fst (check_crawl_errors net api_url CrawlErrorsResponse id w)
   = outcome CrawlErrorsResponse)
  /\ (net GET (Some (api_url +:+ "/v1/batch/scrape/" +:+ id +:+ "/errors"))
          (clock w) = inr r ->
      fst (check_batch_scrape_errors net api_url CrawlErrorsResponse id w)
      = outcome CrawlErrorsResponse)
  /\ (net POST (Some (api_url +:+ "/v1/crawl")) (clock w) = inr r ->
      fst (async_crawl_url net api_url set_order CrawlResponse ∅
                           (inr data_timeout) w)
      = outcome CrawlResponse)
  /\ (net POST (Some (api_url +:+ "/v1/batch/scrape")) (clock w) = inr r ->
      fst (async_batch_scrape_urls net api_url set_order BatchScrapeResponse
                                   ∅ (inr data_timeout) w)
      = outcome BatchScrapeResponse).
Proof.
  intros H200 outcome. split; [|split; [|split]]; intros Hnet.
  - unfold check_crawl_errors, bind.
    rewrite (get_200 net _ w r Hnet H200). rewrite H200.
    cbn [Z.eqb Pos.eqb]. rewrite model_or_raise_run. reflexivity.
  - unfold check_batch_scrape_errors, bind.
    rewrite (get_200 net _ w r Hnet H200). rewrite H200.
    cbn [Z.eqb Pos.eqb]. rewrite model_or_raise_run. reflexivity.
  - unfold async_crawl_url.
    unfold bind at 1. rewrite validate_kwargs_known by set_solver.
    unfold bind at 1. cbn [marshal]. unfold ret at 1.
    unfold bind at 1. rewrite (post_returns net _ _ w r Hnet) by lia.
    rewrite H200. cbn [Z.eqb Pos.eqb]. rewrite model_or_raise_run.
    reflexivity.
  - unfold async_batch_scrape_urls.
    unfold bind at 1. rewrite validate_kwargs_known by set_solver.
    unfold bind at 1. cbn [marshal]. unfold ret at 1.
    unfold bind at 1. rewrite (post_returns net _ _ w r Hnet) by lia.
    rewrite H200. cbn [Z.eqb Pos.eqb]. rewrite model_or_raise_run.
    reflexivity.
Qed.

(** ** Page chains of any length *)

Section Chains.

Variable net : Net.
Variable api_url : string.

Lemma last_cons {A : Type} (rest : list A) :
  forall x d : A, List.last (x :: rest) d = List.last rest x.
Proof.
  induction rest as [|y rest IH]; intros x d; [reflexivity|].
  change (List.last (x :: y :: rest) d) with (List.last (y :: rest) d).
  rewrite (IH y d), (IH y x). reflexivity.
Qed.

Lemma paginate_chain (rest : list Json) :
  forall (page : Json) (data : list Json) (w : World) (fuel : nat),
    page_chain net (clock w) page rest ->
    paginate net (S (length rest) + fuel) page data w
    = (Ok (List.last rest page, data ++ documents_of rest),
       mkWorld (clock w + length rest)
               (trace w ++ next_fetches (page :: rest))).
Proof.
  induction rest as [|p rest IH]; intros page data w fuel Hchain.
  - cbn in Hchain. cbn [length Nat.add]. rewrite paginate_last_page by exact Hchain.
    unfold next_fetches, documents_of. cbn. rewrite Hchain. cbn.
    rewrite !app_nil_r, Nat.add_0_r. destruct w; reflexivity.
  - cbn [page_chain] in Hchain.
    destruct Hchain as (url & docs & r & Hnext & Hurl & Hdata & Hdocs
                        & Hnet & H200 & Hbody & Hrest).
    cbn [length Nat.add].
    rewrite (paginate_next_page net _ page p docs data url w r)
      by assumption.
    rewrite (IH p _ (mkWorld (S (clock w)) _) fuel) by exact Hrest.
    cbn [clock trace]. unfold next_fetches, documents_of.
    cbn [flat_map]. rewrite Hnext. rewrite <- !app_assoc.
    replace (S (clock w) + length rest) with (clock w + S (length rest))
      by lia.
    rewrite last_cons. reflexivity.
Qed.

Lemma monitor_pages_chain (rest : list Json) :
  forall (page : Json) (data : list Json) (w : World) (fuel : nat),
    page_chain net (clock w) page rest ->
    monitor_pages net (S (length rest) + fuel) page data w
    = (Ok (List.last rest page, data ++ documents_of rest),
       mkWorld (clock w + length rest)
               (trace w ++ next_fetches (page :: rest))).
Proof.
  induction rest as [|p rest IH]; intros page data w fuel Hchain.
  - cbn in Hchain. cbn [length Nat.add].
    rewrite monitor_pages_last_page by exact Hchain.
    unfold next_fetches, documents_of. cbn. rewrite Hchain. cbn.
    rewrite !app_nil_r, Nat.add_0_r. destruct w; reflexivity.
  - cbn [page_chain] in Hchain.
    destruct Hchain as (url & docs & r & Hnext & Hurl & Hdata & Hdocs
                        & Hnet & H200 & Hbody & Hrest).
    cbn [length Nat.add].
    rewrite (monitor_pages_next_page net _ page p docs data (Some url) w r);
      try assumption; [|lia].
    rewrite (IH p _ (mkWorld (S (clock w)) _) fuel) by exact Hrest.
    cbn [clock trace]. unfold next_fetches, documents_of.
    cbn [flat_map]. rewrite Hnext. rewrite <- !app_assoc.
    replace (S (clock w) + length rest) with (clock w + S (length rest))
      by lia.
    rewrite last_cons. reflexivity.
Qed.

Lemma chain_ends_without_next (rest : list Json) :
  forall (n : nat) (page : Json),
    page_chain net n page rest -> j_next (List.last rest page) = None.
Proof.
  induction rest as [|p rest IH]; intros n page Hchain.
  - exact Hchain.
  - cbn [page_chain] in Hchain.
    destruct Hchain as (url & docs & r & _ & _ & _ & _ & _ & _ & _ & Hrest).
    specialize (IH _ _ Hrest). rewrite last_cons. exact IH.
Qed.

End Chains.

(** ** Terminal-state classification *)

(** C1, as the code has it.  [_monitor_job_status], on a 200 answer
    whose body parses and reports a status: an in-progress status makes
    it sleep max(poll_interval, 2) seconds and start a new turn, which
    opens with the status query; 'completed' with a 'data' field whose
    continuation pages are each answered by a parsed 200 makes it
    return the documents of all the pages, in page order, with the
    fields of the last page, after one request per page, no sleep and
    no other status query; 'completed' without 'data' raises; any other
    status raises an exception whose message ends with the reported
    status.  The wait of [check_batch_scrape_status], given a
    non-negative interval: an in-progress status makes it print the
    status, sleep and query again; 'completed' ends the wait. *)
Theorem poll_turn_follows_reported_status
    (net : Net) (api_url : string) (fuel : nat) (id : string)
    (poll_interval : Z) (w : World) (r : Response) (status_data : Json)
    (status : string) :
  let crawl := Some (api_url +:+ "/v1/crawl/" +:+ id) in
  let batch := api_url +:+ "/v1/batch/scrape/" +:+ id in
  let asked := mkWorld (S (clock w)) (trace w ++ [Request GET crawl None]) in
  status_code r = 200%Z ->
  body r = Some status_data ->
  j_status status_data = Some status ->
  (net GET crawl (clock w) = inr r ->
   (in_progress status = true ->
    _monitor_job_status net api_url (S fuel) id poll_interval w
    = _monitor_job_status net api_url fuel id (Z.max poll_interval 2)
        (mkWorld (S (clock w))
           (trace w ++ [Request GET crawl None;
                        Sleep (inject_Z (Z.max poll_interval 2))]))
    /\ forall w', exists rest,
         trace (snd (_monitor_job_status net api_url (S fuel) id
                                         (Z.max poll_interval 2) w'))
         = trace w' ++ Request GET crawl None :: rest)
   /\ (status = "completed" ->
       forall (data : list Json) (pages : list Json),
         j_data status_data = Some data ->
         page_chain net (S (clock w)) status_data pages ->
         _monitor_job_status net api_url (S (S (length pages)) + fuel) id
                             poll_interval w
         = (Ok (set_data (List.last pages status_data)
                         (data ++ documents_of pages)),
            mkWorld (S (clock w) + length pages)
              (trace w
               ++ Request GET crawl None
               :: next_fetches (status_data :: pages))))
   /\ (status = "completed" ->
       j_data status_data = None ->
       _monitor_job_status net api_url (S fuel) id poll_interval w
       = (Raised (Exception "Crawl job completed but no data was returned"),
          asked))
   /\ (status <> "completed" ->
       in_progress status = false ->
       _monitor_job_status net api_url (S fuel) id poll_interval w
       = (Raised (Exception ("Crawl job failed or was stopped. Status: "
                             +:+ status)),
          asked)))
  /\ (in_progress status = true ->
      (0 <= poll_interval)%Z ->
      forall (r' : Response) (status_data' : Json),
        net GET (Some batch) (clock w) = inr r' ->
        status_code r' = 200%Z ->
        body r' = Some status_data' ->
        exists seconds,
          batch_wait net (S fuel) batch poll_interval status_data w
          = batch_wait net fuel batch poll_interval status_data'
              (mkWorld (S (clock w))
                 (trace w ++ [Print status; Sleep seconds;
                              Request GET (Some batch) None])))
  /\ (status = "completed" ->
      batch_wait net (S fuel) batch poll_interval status_data w
      = (Ok status_data, w)).
Proof.
  intros crawl batch asked H200 Hbody Hstatus.
  split; [intros Hnet; split; [|split; [|split]]|split].
  - intros Hprog. split.
    + eapply monitor_in_progress; eassumption.
    + intros w'. apply monitor_turn_queries_first.
  - intros -> data pages Hdata Hchain.
    change (S (S (length pages)) + fuel)
      with (S (S (length pages) + fuel)).
    rewrite (monitor_completed net api_url _ id poll_interval w r
               status_data data) by assumption.
    unfold bind.
    rewrite (monitor_pages_chain net pages status_data data
               (mkWorld (S (clock w)) _) fuel) by exact Hchain.
    unfold ret. cbn [fst snd clock trace].
    rewrite <- app_assoc. reflexivity.
  - intros -> Hdata. eapply monitor_completed_no_data; eassumption.
  - intros Hne Hprog. eapply monitor_other_status; eassumption.
  - intros Hprog Hpi r' status_data' Hnet' H200' Hbody'.
    exists (inject_Z poll_interval).
    apply (batch_wait_again net fuel batch poll_interval w status_data
             status_data' status r'); try assumption.
    intros ->. discriminate.
  - intros ->. apply batch_wait_completed. exact Hstatus.
Qed.

(** C1 on a 'scraping' answer and a poll interval of 0: the poller
    sleeps 2 seconds and starts a new turn; and on the 'completed'
    answer of the sample pages: the poller fetches the second page and
    returns the three documents. *)
Lemma poll_turn_follows_reported_status_witness :
  let page := status_page "scraping" 1 2 (Some [doc_a]) None in
  let net := script [answer 200 (Some page)] in
  let paged := script [answer 200 (Some first_page);
                       answer 200 (Some second_page)] in
  status_code (mkResponse 200 (Some page)) = 200%Z
  /\ body (mkResponse 200 (Some page)) = Some page
  /\ j_status page = Some "scraping"
  /\ _monitor_job_status net "https://api.test" 5 "job" 0 new_world
     = _monitor_job_status net "https://api.test" 4 "job" 2
         (mkWorld 1 [Request GET (Some "https://api.test/v1/crawl/job") None;
                     Sleep (inject_Z 2)])
  /\ page_chain paged 1 first_page [second_page]
  /\ _monitor_job_status paged "https://api.test" 3 "job" 0 new_world
     = (Ok (set_data second_page [doc_a; doc_b; doc_c]),
        mkWorld 2
          [Request GET (Some "https://api.test/v1/crawl/job") None;
           Request GET (Some "https://api.test/v1/crawl/job?skip=2") None]).
Proof.
  intros page net paged.
  assert (Hchain : page_chain paged 1 first_page [second_page]).
  { exists "https://api.test/v1/crawl/job?skip=2", [doc_a; doc_b],
           (mkResponse 200 (Some second_page)).
    repeat (split; [first [reflexivity|discriminate]|]).
    reflexivity. }
  split; [reflexivity|]. split; [reflexivity|]. split; [reflexivity|].
  split; [|split; [exact Hchain|]].
  - apply (proj1 (proj1 (proj1 (poll_turn_follows_reported_status
                                  net "https://api.test" 4 "job" 0 new_world
                                  (mkResponse 200 (Some page)) page
                                  "scraping" eq_refl eq_refl eq_refl)
                               eq_refl)
                        eq_refl)).
  - exact (proj1 (proj2 (proj1 (poll_turn_follows_reported_status
                                  paged "https://api.test" 0 "job" 0
                                  new_world
                                  (mkResponse 200 (Some first_page))
                                  first_page "completed"
                                  eq_refl eq_refl eq_refl)
                               eq_refl))
                 eq_refl [doc_a; doc_b] [second_page] eq_refl Hchain).
Defined.

(** X13.  For a completed job whose result is a chain of pages of any
    length, each page but the last naming the next and holding
    documents, [check_crawl_status] and [_monitor_job_status] return the
    documents of all the pages in chain order, with the status, totals,
    credits and expiry of the last page, after one request per page. *)
Theorem whole_page_chain_is_aggregated
    (net : Net) (api_url : string) (fuel : nat) (id : string)
    (poll_interval : Z) (w : World) (r : Response)
    (page : Json) (docs : list Json) (rest : list Json) :
  net GET (Some (api_url +:+ "/v1/crawl/" +:+ id)) (clock w) = inr r ->
  status_code r = 200%Z ->
  body r = Some page ->
  j_status page = Some "completed" ->
  j_data page = Some docs ->
  page_chain net (S (clock w)) page rest ->
  let final := List.last rest page in
  let w' :=
    mkWorld (S (clock w) + length rest)
      (trace w
       ++ Request GET (Some (api_url +:+ "/v1/crawl/" +:+ id)) None
       :: next_fetches (page :: rest)) in
  check_crawl_status net api_url (S (length rest) + fuel) id w
  = (Ok (mkStatusResponse (j_status final) (j_total final)
                          (j_completed final) (j_creditsUsed final)
                          (j_expiresAt final) (docs ++ documents_of rest)
                          None (j_error final)),
     w')
  /\ _monitor_job_status net api_url (S (S (length rest)) + fuel) id
                         poll_interval w
     = (Ok (set_data final (docs ++ documents_of rest)), w').
Proof.
  intros Hnet H200 Hbody Hstatus Hdata Hchain final w'. subst final w'.
  pose proof (chain_ends_without_next net rest _ _ Hchain) as Hend.
  split.
  - rewrite (check_crawl_status_200 net api_url _ id w r page "completed")
      by assumption.
    cbv [String.eqb Ascii.eqb Bool.eqb]. rewrite Hdata.
    unfold bind at 1. unfold bind at 1.
    rewrite (paginate_chain net rest page docs (mkWorld _ _) fuel)
      by exact Hchain.
    cbn [ret fst snd build_response].
    unfold set_data; cbn [j_status j_total j_completed j_creditsUsed
                          j_expiresAt j_next j_error].
    rewrite Hend. cbn [from_option clock trace].
    rewrite <- app_assoc. reflexivity.
  - change (S (S (length rest)) + fuel) with (S (S (length rest) + fuel)).
    rewrite (monitor_completed net api_url _ id poll_interval w r page docs)
      by assumption.
    unfold bind at 1.
    rewrite (monitor_pages_chain net rest page docs (mkWorld _ _) fuel)
      by exact Hchain.
    cbn [ret fst snd clock trace].
    rewrite <- app_assoc. reflexivity.
Qed.

(** ** Where pagination stops *)

Section PaginationStops.

Variable net : Net.
Variable api_url : string.
Variable scrape_formats_response_transform : Json -> Json.

Lemma sleep_returns_or_raises (seconds : Q) (w : World) :
  fst (sleep seconds w) <> OutOfFuel.
Proof. unfold sleep. destruct (Qle_bool 0 seconds); discriminate. Qed.

Lemma retry_loop_ends (method : Method) (url : option string)
    (timeout : option Z) (backoff_factor : Q) (remaining : nat) :
  forall attempt last w,
    fst (retry_loop net method url timeout backoff_factor remaining attempt
                    last w) <> OutOfFuel.
Proof.
  induction remaining as [|n IH]; intros attempt last w; cbn [retry_loop].
  - destruct last; discriminate.
  - unfold bind at 1. unfold requests_send.
    destruct (net method url (clock w)) as [e|r]; [discriminate|].
    destruct (status_code r =? 502)%Z; [|discriminate].
    unfold bind. pose proof (sleep_returns_or_raises
                               (backoff backoff_factor attempt)
                               (mkWorld (S (clock w))
                                  (trace w ++ [Request method url timeout])))
      as Hsleep.
    destruct (sleep (backoff backoff_factor attempt) _) as [[[]|e|] w1];
      [apply IH|discriminate|cbn [fst] in Hsleep; congruence].
Qed.

Lemma get_ends (url : option string) (w : World) :
  fst (get net url w) <> OutOfFuel.
Proof. apply retry_loop_ends. Qed.

(** The [try] of the page walk: it goes on with a parsed 200, and
    ends in one logged error otherwise. *)
Lemma fetch_next_page_cases (next_url : option string) (data : list Json)
    (w : World) :
  (exists r next_data,
      fst (get net next_url w) = Ok r
      /\ status_code r = 200%Z
      /\ body r = Some next_data
      /\ fetch_next_page net next_url data w
         = (Ok (Some (next_data, data ++ default [] (j_data next_data))),
            snd (get net next_url w)))
  \/ (exists text cause,
         fetch_next_page net next_url data w
         = (Ok None,
            mkWorld (clock (snd (get net next_url w)))
                    (trace (snd (get net next_url w))
                     ++ [LogError text cause]))).
Proof.
  pose proof (get_ends next_url w) as Hends.
  unfold fetch_next_page, try_except, bind, emit, ret, raise, json_or_raise.
  destruct (get net next_url w) as [[r|e|] wg]; cbn [fst snd] in *.
  - destruct (status_code r =? 200)%Z eqn:H200; cbn [negb].
    + destruct (body r) as [next_data|] eqn:Hbody.
      * left. exists r, next_data. apply Z.eqb_eq in H200.
        repeat split; assumption.
      * right. eexists _, _. reflexivity.
    + right. eexists _, _. reflexivity.
  - right. eexists _, _. reflexivity.
  - congruence.
Qed.

Lemma get_fails (url : option string) (w : World) (e : Exn) :
  net GET url (clock w) = inl e ->
  get net url w
  = (Raised e, mkWorld (S (clock w)) (trace w ++ [Request GET url None])).
Proof.
  intros Hnet. unfold get, _get_request, default_retries.
  apply retry_loop_fails. exact Hnet.
Qed.

(** A continuation fetch that [requests] fails. *)
Lemma paginate_fetch_raises (fuel : nat) (status_data : Json)
    (page data : list Json) (url : string) (w : World) (e : Exn) :
  j_next status_data = Some (Some url) ->
  j_data status_data = Some page ->
  page <> [] ->
  url <> "" ->
  net GET (Some url) (clock w) = inl e ->
  paginate net (S fuel) status_data data w
  = (Ok (status_data, data),
     mkWorld (S (clock w))
       (trace w ++ [Request GET (Some url) None;
                    LogError "Error during pagination request: " (Some e)])).
Proof.
  intros Hnext Hdata Hpage Hurl Hnet.
  cbn [paginate]. rewrite Hnext, Hdata, (nonempty_length _ Hpage).
  rewrite (falsy_url _ Hurl). unfold bind at 1.
  unfold fetch_next_page, try_except. unfold bind at 1.
  rewrite (get_fails _ _ _ Hnet). unfold bind, emit, ret. cbn [clock trace].
  rewrite <- app_assoc. reflexivity.
Qed.

(** A continuation page whose body is not JSON. *)
Lemma paginate_fetch_unparsed (fuel : nat) (status_data : Json)
    (page data : list Json) (url : string) (w : World) (r : Response) :
  j_next status_data = Some (Some url) ->
  j_data status_data = Some page ->
  page <> [] ->
  url <> "" ->
  net GET (Some url) (clock w) = inr r ->
  status_code r = 200%Z ->
  body r = None ->
  paginate net (S fuel) status_data data w
  = (Ok (status_data, data),
     mkWorld (S (clock w))
       (trace w
        ++ [Request GET (Some url) None;
            LogError "Error during pagination request: "
                     (Some (Exception
                              "Failed to parse Firecrawl response as JSON."))])).
Proof.
  intros Hnext Hdata Hpage Hurl Hnet H200 Hbody.
  cbn [paginate]. rewrite Hnext, Hdata, (nonempty_length _ Hpage).
  rewrite (falsy_url _ Hurl). unfold bind at 1.
  unfold fetch_next_page, try_except. unfold bind at 1.
  rewrite (get_200 _ _ _ _ Hnet H200). rewrite H200.
  cbn [Z.eqb Pos.eqb negb]. unfold bind at 1, json_or_raise.
  rewrite Hbody. unfold raise at 1. unfold bind, emit, ret.
  cbn [clock trace]. rewrite <- app_assoc. reflexivity.
Qed.

(** [check_crawl_status] on a completed first answer whose page walk is
    known. *)
Lemma check_crawl_status_walk (fuel : nat) (id : string) (w w' : World)
    (r : Response) (page final : Json) (docs all : list Json) :
  net GET (Some (api_url +:+ "/v1/crawl/" +:+ id)) (clock w) = inr r ->
  status_code r = 200%Z ->
  body r = Some page ->
  j_status page = Some "completed" ->
  j_data page = Some docs ->
  paginate net fuel page docs
    (mkWorld (S (clock w))
       (trace w
        ++ [Request GET (Some (api_url +:+ "/v1/crawl/" +:+ id)) None]))
  = (Ok (final, all), w') ->
  check_crawl_status net api_url fuel id w
  = (Ok (mkStatusResponse (j_status final) (j_total final)
                          (j_completed final) (j_creditsUsed final)
                          (j_expiresAt final) all
                          (default None (j_next final)) (j_error final)),
     w').
Proof.
  intros Hnet H200 Hbody Hstatus Hdata Hwalk.
  rewrite (check_crawl_status_200 net api_url _ id w r page "completed")
    by assumption.
  cbv [String.eqb Ascii.eqb Bool.eqb]. rewrite Hdata.
  unfold bind at 1. unfold bind at 1. rewrite Hwalk. reflexivity.
Qed.

(** [check_batch_scrape_status] on a completed first answer whose page
    walk is known. *)
Lemma check_batch_scrape_status_walk (fuel : nat) (id : string)
    (poll_interval : Z) (w w' : World)
    (r : Response) (page final : Json) (docs all : list Json) :
  net GET (Some (api_url +:+ "/v1/batch/scrape/" +:+ id)) (clock w) = inr r ->
  status_code r = 200%Z ->
  body r = Some page ->
  j_status page = Some "completed" ->
  j_data page = Some docs ->
  paginate net (S fuel) page docs
    (mkWorld (S (clock w))
       (trace w
        ++ [Request GET (Some (api_url +:+ "/v1/batch/scrape/" +:+ id))
                    None]))
  = (Ok (final, all), w') ->
  check_batch_scrape_status net api_url scrape_formats_response_transform
                            (S fuel) id poll_interval w
  = (Ok (mkStatusResponse (j_status final) (j_total final)
                          (j_completed final) (j_creditsUsed final)
                          (j_expiresAt final)
                          (transform_documents
                             scrape_formats_response_transform all)
                          (default None (j_next final)) (j_error final)),
     w').
Proof.
  intros Hnet H200 Hbody Hstatus Hdata Hwalk.
  rewrite (check_batch_scrape_status_200 net api_url _ _ id poll_interval w
             r page) by assumption.
  unfold bind at 1. rewrite batch_wait_completed by assumption.
  rewrite Hdata. unfold bind at 1. unfold bind at 1. rewrite Hwalk.
  reflexivity.
Qed.

End PaginationStops.

(** X14.  In [check_crawl_status] and [check_batch_scrape_status] a
    continuation fetch that fails inside [requests], or whose 200 answer
    is not JSON, is logged and ends the walk: the call returns the
    documents gathered so far (transformed, for the batch) with the
    fields of the page it stopped on, whose 'next' still names the page
    that could not be read. *)
Theorem failed_continuation_fetch_keeps_the_documents
    (net : Net) (api_url : string)
    (scrape_formats_response_transform : Json -> Json)
    (fuel : nat) (id : string) (poll_interval : Z) (w : World)
    (r : Response) (page : Json) (docs : list Json) (url : string)
    (cause : Exn) :
  status_code r = 200%Z ->
  body r = Some page ->
  j_status page = Some "completed" ->
  j_data page = Some docs ->
  docs <> [] ->
  j_next page = Some (Some url) ->
  url <> "" ->
  (net GET (Some url) (S (clock w)) = inl cause
   \/ exists r', net GET (Some url) (S (clock w)) = inr r'
                 /\ status_code r' = 200%Z /\ body r' = None
                 /\ cause = Exception
                              "Failed to parse Firecrawl response as JSON.") ->
  let kept data :=
    mkStatusResponse (j_status page) (j_total page) (j_completed page)
                     (j_creditsUsed page) (j_expiresAt page) data
                     (Some url) (j_error page) in
  let logged first :=
    mkWorld (S (S (clock w)))
      (trace w
       ++ [Request GET (Some first) None;
           Request GET (Some url) None;
           LogError "Error during pagination request: " (Some cause)]) in
  (net GET (Some (api_url +:+ "/v1/crawl/" +:+ id)) (clock w) = inr r ->
   check_crawl_status net api_url (S fuel) id w
   = (Ok (kept docs), logged (api_url +:+ "/v1/crawl/" +:+ id)))
  /\ (net GET (Some (api_url +:+ "/v1/batch/scrape/" +:+ id)) (clock w)
      = inr r ->
      check_batch_scrape_status net api_url scrape_formats_response_transform
                                (S fuel) id poll_interval w
      = (Ok (kept (transform_documents scrape_formats_response_transform
                                       docs)),
         logged (api_url +:+ "/v1/batch/scrape/" +:+ id))).
Proof.
  intros H200 Hbody Hstatus Hdata Hdocs Hnext Hurl Hcause kept logged.
  assert (Hwalk : forall first,
            paginate net (S fuel) page docs
              (mkWorld (S (clock w)) (trace w ++ [Request GET (Some first) None]))
            = (Ok (page, docs), logged first)).
  { intros first. destruct Hcause as [He|(r' & Hr' & H200' & Hbody' & ->)].
    - rewrite (paginate_fetch_raises net fuel page docs docs url
                 (mkWorld _ _) cause) by assumption.
      unfold logged. cbn [clock trace]. rewrite <- app_assoc. reflexivity.
    - rewrite (paginate_fetch_unparsed net fuel page docs docs url
                 (mkWorld _ _) r') by assumption.
      unfold logged. cbn [clock trace]. rewrite <- app_assoc. reflexivity. }
  split; intros Hnet.
  - rewrite (check_crawl_status_walk net api_url (S fuel) id w _ r page page
               docs docs Hnet H200 Hbody Hstatus Hdata (Hwalk _)).
    unfold kept. rewrite Hnext. reflexivity.
  - rewrite (check_batch_scrape_status_walk net api_url
               scrape_formats_response_transform fuel id poll_interval w _
               r page page docs docs Hnet H200 Hbody Hstatus Hdata (Hwalk _)).
    unfold kept. rewrite Hnext. reflexivity.
Qed.

(** X15.  One turn of the page walk of [check_crawl_status] and
    [check_batch_scrape_status], on a page that holds documents and
    names a next URL, never raises.  Either the transport returns a 200
    answer with a JSON body, and the walk goes on from that page with
    its documents appended; or the walk ends there, normally, with the
    documents gathered so far and one error written to the log after
    the requests and sleeps of the transport: so it is when [requests]
    raises, when the answer has another status, and when the body is
    not JSON. *)
Theorem continuation_fetch_never_raises
    (net : Net) (fuel : nat) (status_data : Json) (page data : list Json)
    (url : string) (w : World) :
  j_next status_data = Some (Some url) ->
  url <> "" ->
  j_data status_data = Some page ->
  page <> [] ->
  let fetched := get net (Some url) w in
  (exists r next_data,
      fst fetched = Ok r
      /\ status_code r = 200%Z
      /\ body r = Some next_data
      /\ paginate net (S fuel) status_data data w
         = paginate net fuel next_data
                    (data ++ default [] (j_data next_data)) (snd fetched))
  \/ (exists text cause,
         paginate net (S fuel) status_data data w
         = (Ok (status_data, data),
            mkWorld (clock (snd fetched))
                    (trace (snd fetched) ++ [LogError text cause]))).
Proof.
  intros Hnext Hurl Hdata Hpage fetched. unfold fetched.
  assert (Hturn : paginate net (S fuel) status_data data w
                  = match fetch_next_page net (Some url) data w with
                    | (Ok (Some (next_data, data')), w') =>
                        paginate net fuel next_data data' w'
                    | (Ok None, w') => (Ok (status_data, data), w')
                    | (Raised e, w') => (Raised e, w')
                    | (OutOfFuel, w') => (OutOfFuel, w')
                    end).
  { cbn [paginate]. rewrite Hnext, Hdata, (nonempty_length _ Hpage).
    rewrite (falsy_url _ Hurl). unfold bind at 1.
    destruct (fetch_next_page net (Some url) data w)
      as [[[[next_data data']|]|e|] w']; reflexivity. }
  rewrite Hturn.
  destruct (fetch_next_page_cases net (Some url) data w)
    as [(r & next_data & Hr & H200 & Hbody & Hstep)
       |(text & cause & Hstep)]; rewrite Hstep.
  - left. exists r, next_data. repeat split; assumption.
  - right. exists text, cause. reflexivity.
Qed.

(** X16.  [check_crawl_status] does not follow a 'next' when the page
    in hand has no document, nor when 'next' is present but [null] or
    empty: it returns the documents it has after the status query alone,
    with a warning in the log in the second case. *)
Theorem empty_page_or_empty_next_ends_the_walk
    (net : Net) (api_url : string) (fuel : nat) (id : string) (w : World)
    (r : Response) (page : Json) (docs : list Json)
    (next_url : option string) :
  net GET (Some (api_url +:+ "/v1/crawl/" +:+ id)) (clock w) = inr r ->
  status_code r = 200%Z ->
  body r = Some page ->
  j_status page = Some "completed" ->
  j_data page = Some docs ->
  j_next page = Some next_url ->
  let result :=
    mkStatusResponse (j_status page) (j_total page) (j_completed page)
                     (j_creditsUsed page) (j_expiresAt page) docs
                     next_url (j_error page) in
  let asked :=
    trace w ++ [Request GET (Some (api_url +:+ "/v1/crawl/" +:+ id)) None] in
  (docs = [] ->
   check_crawl_status net api_url (S fuel) id w
   = (Ok result, mkWorld (S (clock w)) asked))
  /\ (docs <> [] ->
      falsy next_url = true ->
      check_crawl_status net api_url (S fuel) id w
      = (Ok result,
         mkWorld (S (clock w))
           (asked ++ [LogWarning "Expected 'next' URL is missing."]))).
Proof.
  intros Hnet H200 Hbody Hstatus Hdata Hnext result asked. split.
  - intros ->.
    rewrite (check_crawl_status_walk net api_url (S fuel) id w
               (mkWorld (S (clock w)) asked) r page page [] []
               Hnet H200 Hbody Hstatus Hdata).
    + unfold result. rewrite Hnext. reflexivity.
    + cbn [paginate]. rewrite Hnext, Hdata. reflexivity.
  - intros Hdocs Hfalsy.
    rewrite (check_crawl_status_walk net api_url (S fuel) id w
               (mkWorld (S (clock w))
                  (asked ++ [LogWarning "Expected 'next' URL is missing."]))
               r page page docs docs Hnet H200 Hbody Hstatus Hdata).
    + unfold result. rewrite Hnext. reflexivity.
    + cbn [paginate]. rewrite Hnext, Hdata, (nonempty_length _ Hdocs), Hfalsy.
      reflexivity.
Qed.

(** ** How long the pollers wait *)

Section Waiting.

Variable net : Net.
Variable api_url : string.
Variable scrape_formats_response_transform : Json -> Json.

Lemma polls_snoc (url : string) (seconds : Z) (n : nat) :
  Request GET (Some url) None :: Sleep (inject_Z seconds)
  :: polls url seconds n
  = polls url seconds n
    ++ [Request GET (Some url) None; Sleep (inject_Z seconds)].
Proof.
  induction n as [|n IH]; [reflexivity|].
  cbn [polls app]. rewrite <- IH. reflexivity.
Qed.

(** [k] answers in progress are [k] turns of the loop, after which the
    interval is the floored one. *)
Lemma monitor_waits (id : string) (k : nat) :
  forall (poll_interval : Z) (w : World) (fuel : nat),
    (forall i, i < k ->
       answers_status net (api_url +:+ "/v1/crawl/" +:+ id) (clock w + i)
                      in_progress) ->
    _monitor_job_status net api_url (k + fuel) id poll_interval w
    = _monitor_job_status net api_url fuel id
        (match k with O => poll_interval | S _ => Z.max poll_interval 2 end)
        (mkWorld (clock w + k)
           (trace w ++ polls (api_url +:+ "/v1/crawl/" +:+ id)
                             (Z.max poll_interval 2) k)).
Proof.
  induction k as [|k IH]; intros poll_interval w fuel Hanswers.
  - cbn [polls Nat.add]. rewrite Nat.add_0_r, app_nil_r.
    destruct w; reflexivity.
  - destruct (Hanswers 0) as (r & j & s & Hnet & H200 & Hbody & Hs & Hin);
      [lia|].
    rewrite Nat.add_0_r in Hnet.
    change (S k + fuel) with (S (k + fuel)).
    rewrite (monitor_in_progress net api_url (k + fuel) id poll_interval w
               r j s Hnet H200 Hbody Hs Hin).
    rewrite IH.
    + cbn [clock trace polls].
      replace (Z.max (Z.max poll_interval 2) 2) with (Z.max poll_interval 2)
        by lia.
      replace (match k with
               | O => Z.max poll_interval 2
               | S _ => Z.max poll_interval 2
               end) with (Z.max poll_interval 2) by (destruct k; reflexivity).
      rewrite <- app_assoc. cbn [app].
      replace (S (clock w) + k) with (clock w + S k) by lia.
      reflexivity.
    + intros i Hi. cbn [clock].
      replace (S (clock w) + i) with (clock w + S i) by lia.
      apply Hanswers. lia.
Qed.

(** The wait loop of [check_batch_scrape_status] on answers that never
    say 'completed'. *)
Lemma batch_wait_unfinished (url : string) (poll_interval : Z) (n : nat) :
  forall (status_data : Json) (status : string) (w : World),
    (0 <= poll_interval)%Z ->
    j_status status_data = Some status ->
    unfinished status = true ->
    (forall i, answers_status net url (clock w + i) unfinished) ->
    fst (batch_wait net n url poll_interval status_data w) = OutOfFuel
    /\ clock (snd (batch_wait net n url poll_interval status_data w))
       = clock w + n.
Proof.
  induction n as [|n IH]; intros status_data status w Hpoll Hs Hun Hanswers.
  - cbn. split; [reflexivity|lia].
  - destruct (Hanswers 0) as (r & j & s & Hnet & H200 & Hbody & Hs' & Hun').
    rewrite Nat.add_0_r in Hnet.
    assert (Hne : status <> "completed").
    { intros ->. discriminate Hun. }
    rewrite (batch_wait_again net n url poll_interval w status_data j status
               r Hs Hne Hpoll Hnet H200 Hbody).
    destruct (IH j s
                (mkWorld (S (clock w))
                   (trace w ++ [Print status; Sleep (inject_Z poll_interval);
                                Request GET (Some url) None]))
                Hpoll Hs' Hun') as [Hout Hclock].
    + intros i. cbn [clock].
      replace (S (clock w) + i) with (clock w + S i) by lia. apply Hanswers.
    + split; [exact Hout|]. rewrite Hclock. cbn [clock]. lia.
Qed.

End Waiting.

(** X17.  [_monitor_job_status] asks for the status once per answer:
    after [k] answers in progress and a 'completed' answer with its
    documents and no next page it returns that answer, having sent
    [k + 1] status queries and slept [k] times, each time
    [max(poll_interval, 2)] seconds. *)
Theorem monitor_polls_until_the_job_completes
    (net : Net) (api_url : string) (id : string) (poll_interval : Z)
    (k fuel : nat) (w : World) (r : Response) (page : Json)
    (docs : list Json) :
  (forall i, i < k ->
     answers_status net (api_url +:+ "/v1/crawl/" +:+ id) (clock w + i)
                    in_progress) ->
  net GET (Some (api_url +:+ "/v1/crawl/" +:+ id)) (clock w + k) = inr r ->
  status_code r = 200%Z ->
  body r = Some page ->
  j_status page = Some "completed" ->
  j_data page = Some docs ->
  j_next page = None ->
  _monitor_job_status net api_url (k + S (S fuel)) id poll_interval w
  = (Ok (set_data page docs),
     mkWorld (clock w + S k)
       (trace w
        ++ polls (api_url +:+ "/v1/crawl/" +:+ id) (Z.max poll_interval 2) k
        ++ [Request GET (Some (api_url +:+ "/v1/crawl/" +:+ id)) None])).
Proof.
  intros Hwait Hnet H200 Hbody Hstatus Hdata Hnext.
  rewrite (monitor_waits net api_url id k poll_interval w (S (S fuel)) Hwait).
  rewrite (monitor_completed net api_url (S fuel) id _ (mkWorld _ _) r page
             docs Hnet H200 Hbody Hstatus Hdata).
  unfold bind. rewrite (monitor_pages_last_page net fuel page docs _ Hnext).
  unfold ret. cbn [fst snd clock trace]. rewrite <- app_assoc.
  replace (S (clock w + k)) with (clock w + S k) by lia. reflexivity.
Qed.

(** X18.  [_monitor_job_status] has no limit of its own on the number
    of polls: as long as the server answers with a status in progress,
    the loop is still running after any number [n] of turns, with [n]
    status queries sent and [n] sleeps of [max(poll_interval, 2)]
    seconds behind it. *)
Theorem monitor_has_no_poll_limit
    (net : Net) (api_url : string) (id : string) (poll_interval : Z)
    (w : World) :
  (forall i,
     answers_status net (api_url +:+ "/v1/crawl/" +:+ id) (clock w + i)
                    in_progress) ->
  forall n,
    _monitor_job_status net api_url n id poll_interval w
    = (OutOfFuel,
       mkWorld (clock w + n)
         (trace w ++ polls (api_url +:+ "/v1/crawl/" +:+ id)
                           (Z.max poll_interval 2) n)).
Proof.
  intros Hwait n.
  replace n with (n + 0) at 1 by lia.
  rewrite (monitor_waits net api_url id n poll_interval w 0
             (fun i _ => Hwait i)).
  reflexivity.
Qed.

(** X19.  [check_batch_scrape_status] leaves its wait loop on
    'completed' alone: while the server answers with any other status,
    'failed' and 'cancelled' included, it keeps asking, and after any
    number [n] of turns it has sent [n + 1] status queries and is still
    waiting. *)
Theorem batch_status_check_waits_on_every_other_status
    (net : Net) (api_url : string)
    (scrape_formats_response_transform : Json -> Json)
    (id : string) (poll_interval : Z) (w : World) :
  (0 <= poll_interval)%Z ->
  (forall i,
     answers_status net (api_url +:+ "/v1/batch/scrape/" +:+ id)
                    (clock w + i) unfinished) ->
  forall n,
    fst (check_batch_scrape_status net api_url
           scrape_formats_response_transform n id poll_interval w)
    = OutOfFuel
    /\ clock (snd (check_batch_scrape_status net api_url
                     scrape_formats_response_transform n id poll_interval w))
       = clock w + S n.
Proof.
  intros Hpoll Hanswers n.
  destruct (Hanswers 0) as (r & j & s & Hnet & H200 & Hbody & Hs & Hun).
  rewrite Nat.add_0_r in Hnet.
  rewrite (check_batch_scrape_status_200 net api_url
             scrape_formats_response_transform n id poll_interval w r j
             Hnet H200 Hbody).
  destruct (batch_wait_unfinished net
              (api_url +:+ "/v1/batch/scrape/" +:+ id) poll_interval n j s
              (mkWorld (S (clock w))
                 (trace w
                  ++ [Request GET
                        (Some (api_url +:+ "/v1/batch/scrape/" +:+ id))
                        None]))
              Hpoll Hs Hun) as [Hout Hclock].
  { intros i. cbn [clock].
    replace (S (clock w) + i) with (clock w + S i) by lia. apply Hanswers. }
  match goal with
  | |- fst (bind ?c ?k ?w0) = _ /\ _ =>
      assert (Hrun : bind c k w0 = (OutOfFuel, snd (c w0)))
  end.
  { unfold bind at 1.
    destruct (batch_wait net n _ poll_interval j _) as [[x|e|] w1];
      cbn [fst] in Hout; try discriminate. reflexivity. }
  rewrite Hrun. cbn [fst snd]. split; [reflexivity|].
  rewrite Hclock. cbn [clock]. lia.
Qed.

(** X20.  A status query that the server refuses ends
    [_monitor_job_status]: after [k] answers in progress, an answer
    other than 200 and 502 raises the [HTTPError] of [_handle_error]
    with the code of the answer, and nothing is sent after it. *)
Theorem monitor_stops_on_a_refused_status_query
    (net : Net) (api_url : string) (id : string) (poll_interval : Z)
    (k fuel : nat) (w : World) (r : Response) :
  (forall i, i < k ->
     answers_status net (api_url +:+ "/v1/crawl/" +:+ id) (clock w + i)
                    in_progress) ->
  net GET (Some (api_url +:+ "/v1/crawl/" +:+ id)) (clock w + k) = inr r ->
  status_code r <> 200%Z ->
  status_code r <> 502%Z ->
  exists message,
    _monitor_job_status net api_url (k + S fuel) id poll_interval w
    = (Raised (HTTPError message (status_code r)),
       mkWorld (clock w + S k)
         (trace w
          ++ polls (api_url +:+ "/v1/crawl/" +:+ id)
                   (Z.max poll_interval 2) k
          ++ [Request GET (Some (api_url +:+ "/v1/crawl/" +:+ id)) None])).
Proof.
  intros Hwait Hnet Hnot200 Hnot502.
  destruct (handle_error_raises (A := unit) r "check crawl status"
              (mkWorld (clock w + S k)
                 (trace w
                  ++ polls (api_url +:+ "/v1/crawl/" +:+ id)
                           (Z.max poll_interval 2) k
                  ++ [Request GET (Some (api_url +:+ "/v1/crawl/" +:+ id))
                              None])))
    as (message & Hraise & _).
  exists message.
  rewrite (monitor_waits net api_url id k poll_interval w (S fuel) Hwait).
  cbn [_monitor_job_status]. unfold bind at 1.
  rewrite (get_returns net _ (mkWorld _ _) r Hnet Hnot502).
  apply Z.eqb_neq in Hnot200. rewrite Hnot200.
  unfold bind at 1. cbn [clock trace]. rewrite <- app_assoc.
  replace (S (clock w + k)) with (clock w + S k) by lia.
  rewrite Hraise. reflexivity.
Qed.

(** ** What listening does to a session *)

Section Growth.

Import CrawlWatcher.

Lemma grown_refl (s : Session) : grown_from s s.
Proof.
  repeat split; try reflexivity.
  - exists []. rewrite app_nil_r. reflexivity.
  - exists []. rewrite app_nil_r. reflexivity.
Qed.

Lemma grown_trans (s1 s2 s3 : Session) :
  grown_from s1 s2 -> grown_from s2 s3 -> grown_from s1 s3.
Proof.
  intros (Hid & Hreg & [more Hdata] & [calls Hheard])
         (Hid' & Hreg' & [more' Hdata'] & [calls' Hheard']).
  repeat split.
  - congruence.
  - congruence.
  - exists (more ++ more'). rewrite Hdata', Hdata, app_assoc. reflexivity.
  - exists (calls ++ calls'). rewrite Hheard', Hheard, app_assoc. reflexivity.
Qed.

Lemma grows_ret {A : Type} (a : A) : only_grows (ret a).
Proof. intros s. apply grown_refl. Qed.

Lemma grows_raise {A : Type} (e : Exn) : only_grows (raise (A := A) e).
Proof. intros s. apply grown_refl. Qed.

Lemma grows_read : only_grows read.
Proof. intros s. apply grown_refl. Qed.

Lemma grows_bind {A B : Type} (c : Watch A) (k : A -> Watch B) :
  only_grows c -> (forall a, only_grows (k a)) -> only_grows (bind c k).
Proof.
  intros Hc Hk s. unfold bind. specialize (Hc s).
  destruct (c s) as [[a|e|] s1]; cbn [snd] in *.
  - apply (grown_trans _ s1); [exact Hc|apply Hk].
  - exact Hc.
  - exact Hc.
Qed.

Lemma grows_for_each {A : Type} (xs : list A) (body : A -> Watch unit) :
  (forall x, only_grows (body x)) -> only_grows (for_each xs body).
Proof.
  intros Hbody. induction xs as [|x xs IH]; cbn [for_each].
  - apply grows_ret.
  - apply grows_bind; [apply Hbody|intros _; exact IH].
Qed.

Lemma grows_getitem {A : Type} (key : string) (field : option A) :
  only_grows (getitem key field).
Proof. destruct field; [apply grows_ret|apply grows_raise]. Qed.

Lemma grows_set_status (status : string) : only_grows (set_status status).
Proof.
  intros s. repeat split; try reflexivity; exists []; cbn;
    rewrite app_nil_r; reflexivity.
Qed.

Lemma grows_extend_data (docs : list Json) : only_grows (extend_data docs).
Proof.
  intros s. repeat split; try reflexivity.
  - exists docs. reflexivity.
  - exists []. cbn. rewrite app_nil_r. reflexivity.
Qed.

Lemma grows_call (handler : Handler) (detail : Detail) :
  only_grows (call handler detail).
Proof.
  intros s. unfold call.
  destruct (h_raises handler detail); cbn [snd];
    (repeat split; try reflexivity;
     [exists []; cbn; rewrite app_nil_r; reflexivity
     |eexists; reflexivity]).
Qed.

Lemma grows_dispatch_event (event_type : string) (detail : Detail) :
  only_grows (dispatch_event event_type detail).
Proof.
  unfold dispatch_event. apply grows_bind; [apply grows_read|].
  intros me. destruct (event_handlers me !! event_type).
  - apply grows_for_each. intros h. apply grows_call.
  - apply grows_ret.
Qed.

Lemma grows_handle_message (msg : Message) :
  only_grows (_handle_message msg).
Proof.
  unfold _handle_message.
  apply grows_bind; [apply grows_getitem|intros type].
  repeat match goal with
         | |- only_grows (if ?b then _ else _) => destruct b
         | |- only_grows (bind _ _) => apply grows_bind
         | |- only_grows (getitem _ _) => apply grows_getitem
         | |- only_grows (dispatch_event _ _) => apply grows_dispatch_event
         | |- only_grows (for_each _ _) => apply grows_for_each
         | |- only_grows (ret _) => apply grows_ret
         | |- only_grows read => apply grows_read
         | |- only_grows (set_status _) => apply grows_set_status
         | |- only_grows (extend_data _) => apply grows_extend_data
         | |- forall _, _ => intro
         end.
Qed.

(** A listener that raises in the middle of a dispatch. *)
Lemma calls_stop (detail : Detail) (before after : list Handler)
    (h : Handler) (s : Session) :
  (forall h', In h' before -> h_raises h' detail = false) ->
  h_raises h detail = true ->
  for_each (before ++ h :: after) (fun handler => call handler detail) s
  = (Raised (ListenerError (h_name h)),
     mkSession (self s)
               (heard s ++ deliveries (before ++ [h]) detail
                                      (status (self s)))).
Proof.
  revert s. induction before as [|b before IH]; intros s Hquiet Hraises.
  - cbn [app for_each]. unfold bind at 1. unfold call at 1.
    rewrite Hraises. reflexivity.
  - cbn [app for_each]. unfold bind at 1. unfold call at 1.
    rewrite (Hquiet b) by (left; reflexivity).
    rewrite IH; [|intros h' Hh'; apply Hquiet; right; exact Hh'|exact Hraises].
    cbn [self heard]. unfold deliveries. cbn [map app].
    rewrite <- app_assoc. reflexivity.
Qed.

Lemma register_registry (n : nat) (event_type : string) (handler : Handler) :
  forall (s : Session) (handlers : list Handler),
    event_handlers (self s) !! event_type = Some handlers ->
    event_handlers (self (register n event_type handler s)) !! event_type
    = Some (handlers ++ repeat handler n)
    /\ status (self (register n event_type handler s)) = status (self s)
    /\ heard (register n event_type handler s) = heard s.
Proof.
  induction n as [|n IH]; intros s handlers Hreg.
  - cbn [register repeat]. rewrite app_nil_r. auto.
  - cbn [register repeat].
    assert (Hadd : snd (add_event_listener event_type handler s)
                   = mkSession (mk (id (self s)) (data (self s))
                                   (status (self s))
                                   (<[event_type := handlers ++ [handler]]>
                                      (event_handlers (self s))))
                               (heard s)).
    { unfold add_event_listener. rewrite Hreg. reflexivity. }
    rewrite Hadd.
    destruct (IH (mkSession (mk (id (self s)) (data (self s))
                                (status (self s))
                                (<[event_type := handlers ++ [handler]]>
                                   (event_handlers (self s))))
                            (heard s))
                 (handlers ++ [handler])) as (Hr & Hs & Hh).
    { cbn [self event_handlers]. apply lookup_insert_eq. }
    rewrite Hr, Hs, Hh. rewrite <- app_assoc. auto.
Qed.

End Growth.

(** X21.  Whatever frames arrive and however the run ends, listening
    only adds to a session: the job id and the listener registry stay as
    they were, the documents held before are still there, in place,
    before the new ones, and so are the calls made before.  This holds
    for [CrawlWatcher] and for [AsyncCrawlWatcher]. *)
Theorem listening_only_adds_to_the_session
    (frames : list Message) (s : CrawlWatcher.Session) :
  grown_from s (snd (CrawlWatcher._listen frames s))
  /\ grown_from s (snd (AsyncCrawlWatcher._listen frames s)).
Proof.
  split.
  - unfold CrawlWatcher._listen.
    apply (grows_for_each frames CrawlWatcher._handle_message).
    apply grows_handle_message.
  - unfold AsyncCrawlWatcher._listen.
    apply (grows_for_each frames AsyncCrawlWatcher._handle_message).
    intros msg. rewrite async_handle_message_same.
    apply grows_handle_message.
Qed.

(** X22.  An 'error' frame sets the status to 'failed' before anything
    else.  With its 'error' text it then calls the error listeners, in
    registration order, with the status 'failed', the documents so far,
    the text and the job id.  Without an 'error' key it raises
    [KeyError] with the status already 'failed' and no listener
    called. *)
Theorem error_frame_marks_the_session_failed
    (s : CrawlWatcher.Session) (handlers : list Handler) (text : string) :
  let me := CrawlWatcher.self s in
  let failed :=
    CrawlWatcher.mk (CrawlWatcher.id me) (CrawlWatcher.data me) "failed"
                    (CrawlWatcher.event_handlers me) in
  let detail :=
    DetailError "failed" (CrawlWatcher.data me) text (CrawlWatcher.id me) in
  (CrawlWatcher.event_handlers me !! "error" = Some handlers ->
   (forall h, In h handlers -> h_raises h detail = false) ->
   CrawlWatcher._handle_message (frame_error (Some text)) s
   = (Ok tt,
      CrawlWatcher.mkSession failed
        (CrawlWatcher.heard s ++ deliveries handlers detail "failed")))
  /\ CrawlWatcher._handle_message (frame_error None) s
     = (Raised (KeyError "error"),
        CrawlWatcher.mkSession failed (CrawlWatcher.heard s)).
Proof.
  intros me failed detail. split.
  - intros Hreg Hquiet. unfold CrawlWatcher._handle_message, frame_error.
    cbn [msg_type msg_error CrawlWatcher.getitem].
    unfold bind at 1. unfold ret at 1.
    cbv [String.eqb Ascii.eqb Bool.eqb].
    unfold bind at 1. unfold CrawlWatcher.set_status at 1.
    unfold bind at 1. unfold CrawlWatcher.read at 1.
    unfold bind at 1. unfold ret at 1.
    cbn [CrawlWatcher.self CrawlWatcher.heard CrawlWatcher.data
         CrawlWatcher.id CrawlWatcher.status CrawlWatcher.event_handlers].
    rewrite (dispatch_event_returns _ _ handlers);
      [reflexivity|exact Hreg|exact Hquiet].
  - reflexivity.
Qed.

(** X23.  Listeners are not shielded from one another: when a document
    listener raises, the document of the frame is already stored, the
    listeners registered before it have been called, the ones registered
    after it are not, and [_listen] ends with that exception without
    handling any later frame. *)
Theorem raising_listener_ends_the_watch
    (s : CrawlWatcher.Session) (doc : Json)
    (before after : list Handler) (h : Handler) (later : list Message) :
  let me := CrawlWatcher.self s in
  let detail := DetailDocument doc (CrawlWatcher.id me) in
  CrawlWatcher.event_handlers me !! "document" = Some (before ++ h :: after) ->
  (forall h', In h' before -> h_raises h' detail = false) ->
  h_raises h detail = true ->
  CrawlWatcher._listen (frame_document doc :: later) s
  = (Raised (ListenerError (h_name h)),
     CrawlWatcher.mkSession
       (CrawlWatcher.mk (CrawlWatcher.id me) (CrawlWatcher.data me ++ [doc])
                        (CrawlWatcher.status me)
                        (CrawlWatcher.event_handlers me))
       (CrawlWatcher.heard s
        ++ deliveries (before ++ [h]) detail (CrawlWatcher.status me))).
Proof.
  intros me detail Hreg Hquiet Hraises.
  unfold CrawlWatcher._listen. cbn [for_each]. unfold bind at 1.
  unfold CrawlWatcher._handle_message, frame_document.
  cbn [msg_type msg_data CrawlWatcher.getitem].
  unfold bind at 1. unfold ret at 1.
  cbv [String.eqb Ascii.eqb Bool.eqb].
  unfold bind at 1. unfold ret at 1. unfold bind at 1.
  unfold CrawlWatcher.extend_data at 1. unfold bind at 1.
  unfold CrawlWatcher.read at 1.
  cbn [CrawlWatcher.self CrawlWatcher.heard CrawlWatcher.data
       CrawlWatcher.id CrawlWatcher.status CrawlWatcher.event_handlers].
  unfold CrawlWatcher.dispatch_event, bind, CrawlWatcher.read.
  cbn [CrawlWatcher.self CrawlWatcher.event_handlers].
  fold me. rewrite Hreg.
  rewrite (calls_stop detail before after h _ Hquiet Hraises).
  reflexivity.
Qed.

(** X24.  Registration keeps no set: a listener added [n] times for a
    kind the registry knows is called [n] times at each event of that
    kind, after the listeners that were there before it, and
    registering touches neither the status nor the record of calls. *)
Theorem listener_added_n_times_is_called_n_times
    (s : CrawlWatcher.Session) (event_type : string) (detail : Detail)
    (handlers : list Handler) (h : Handler) (n : nat) :
  CrawlWatcher.event_handlers (CrawlWatcher.self s) !! event_type
  = Some handlers ->
  (forall h', In h' handlers -> h_raises h' detail = false) ->
  h_raises h detail = false ->
  let s' := register n event_type h s in
  CrawlWatcher.dispatch_event event_type detail s'
  = (Ok tt,
     CrawlWatcher.mkSession (CrawlWatcher.self s')
       (CrawlWatcher.heard s
        ++ deliveries (handlers ++ repeat h n) detail
                      (CrawlWatcher.status (CrawlWatcher.self s)))).
Proof.
  intros Hreg Hquiet Hh s'.
  destruct (register_registry n event_type h s handlers Hreg)
    as (Hr & Hs & Hheard).
  fold s' in Hr, Hs, Hheard.
  rewrite (dispatch_event_returns event_type detail (handlers ++ repeat h n)
             s' Hr).
  - rewrite Hs, Hheard. reflexivity.
  - intros h' Hin. apply in_app_or in Hin. destruct Hin as [Hin|Hin].
    + apply Hquiet. exact Hin.
    + apply repeat_spec in Hin. subst h'. exact Hh.
Qed.

(** ** The address of the watch socket *)

Section WatchSocket.

Import Stdlib.Strings.Ascii.

Lemma replace_from_skip (old new : string) (x b : string) :
  replace_from old new (String.length x) (x +:+ b) = replace_from old new 0 b.
Proof.
  induction x as [|c x IH]; [destruct b; reflexivity|].
  change (String c x +:+ b) with (String c (x +:+ b)).
  cbn [String.length replace_from]. exact IH.
Qed.

Lemma replace_http_here (b : string) :
  replace_from "http" "ws" 0 ("http" +:+ b)
  = "ws" +:+ replace_from "http" "ws" 0 b.
Proof.
  change ("http" +:+ b) with (String "h"%char ("ttp" +:+ b)).
  cbn [replace_from].
  replace (String.prefix "http" (String "h"%char ("ttp" +:+ b))) with true
    by (symmetry; apply prefix_iff; exists b; reflexivity).
  change (String.length "http" - 1) with (String.length "ttp").
  rewrite replace_from_skip. reflexivity.
Qed.

Lemma replace_from_elsewhere (old new : string) (c : Ascii.ascii)
    (rest : string) :
  String.prefix old (String c rest) = false ->
  replace_from old new 0 (String c rest)
  = String c (replace_from old new 0 rest).
Proof. intros H. cbn [replace_from]. rewrite H. reflexivity. Qed.

(** An occurrence of 'http' that starts before the end of [x] in
    [x + 'http' + b] shows in [x + 'htt'] already. *)
Lemma prefix_http_straddle (c : Ascii.ascii) (x b : string) :
  String.prefix "http" (String c x +:+ "htt") = false ->
  String.prefix "http" (String c x +:+ "http" +:+ b) = false.
Proof.
  destruct x as [|c2 [|c3 [|c4 x]]]; cbv [String.append String.prefix];
    repeat match goal with
           | |- context [Ascii.ascii_dec ?a ?b] =>
               destruct (Ascii.ascii_dec a b)
           end; try congruence.
  destruct x; discriminate.
Qed.

Lemma replace_http_first (a b : string) :
  py_in "http" (a +:+ "htt") = false ->
  replace_from "http" "ws" 0 (a +:+ "http" +:+ b)
  = a +:+ "ws" +:+ replace_from "http" "ws" 0 b.
Proof.
  induction a as [|c a IH]; intros Hfree.
  - apply replace_http_here.
  - change (String c a +:+ "htt") with (String c (a +:+ "htt")) in Hfree.
    cbn [py_in] in Hfree. apply orb_false_iff in Hfree.
    destruct Hfree as [Hhere Hlater].
    change (String c a +:+ "http" +:+ b)
      with (String c (a +:+ "http" +:+ b)).
    rewrite replace_from_elsewhere.
    + rewrite (IH Hlater). reflexivity.
    + apply (prefix_http_straddle c a b). exact Hhere.
Qed.

Lemma replace_from_absent (old new : string) (s : string) :
  py_in old s = false -> replace_from old new 0 s = s.
Proof.
  induction s as [|c s IH]; intros Hfree; [reflexivity|].
  cbn [py_in] in Hfree. apply orb_false_iff in Hfree.
  destruct Hfree as [Hhere Hlater].
  rewrite (replace_from_elsewhere _ _ _ _ Hhere), (IH Hlater). reflexivity.
Qed.

Lemma ws_tail (a b tail : string) :
  ("ws" +:+ a +:+ "ws" +:+ b) +:+ tail = "ws" +:+ a +:+ "ws" +:+ b +:+ tail.
Proof.
  rewrite (append_assoc "ws"), (append_assoc a), (append_assoc "ws").
  reflexivity.
Qed.

End WatchSocket.

(** X25.  The address of the watch socket is the API address with
    every 'http' in it replaced by 'ws', not only the scheme: where
    the address has no other 'http' the scheme alone changes ('http'
    to 'ws', 'https' to 'wss'), and a host or path that contains
    'http' is rewritten as well. *)
Theorem ws_url_replaces_every_http (rest a b id : string) :
  (py_in "http" rest = false ->
   ws_url ("http" +:+ rest) id = "ws" +:+ rest +:+ "/v1/crawl/" +:+ id)
  /\ (py_in "http" (a +:+ "htt") = false ->
      py_in "http" b = false ->
      ws_url ("http" +:+ a +:+ "http" +:+ b) id
      = "ws" +:+ a +:+ "ws" +:+ b +:+ "/v1/crawl/" +:+ id).
Proof.
  unfold ws_url, py_replace. split.
  - intros Hfree. rewrite replace_http_here.
    rewrite (replace_from_absent _ _ _ Hfree). reflexivity.
  - intros Ha Hb. rewrite replace_http_here.
    rewrite (replace_http_first a b Ha).
    rewrite (replace_from_absent _ _ _ Hb).
    apply ws_tail.
Qed.

(** ** The asynchronous transport *)

Section AsyncTransport.

Import AsyncFirecrawlApp.

Variable net : AioNet.
Variable method : Method.
Variable url : string.
Variable retries : nat.
Variable backoff_factor : Q.

(** An attempt that is not the last and meets an answer of the kinds
    that are retried ends in the sleep of the backoff. *)
Lemma attempt_retried (attempt : nat) (w : World) :
  retried (net method url (clock w)) ->
  attempt + 1 < retries ->
  except_client_error
    (attempt_once net method url backoff_factor attempt)
    (fun message =>
       if (Z.of_nat attempt =? Z.of_nat retries - 1)%Z
       then aio_raise (ClientError message)
       else aio_bind (asyncio_sleep (backoff backoff_factor attempt))
                     (fun _ => aio_ret None)) w
  = (Returned None,
     mkWorld (S (clock w))
       (trace w ++ [Request method (Some url) None;
                    Sleep (backoff backoff_factor attempt)])).
Proof.
  intros Hanswer Hnotlast.
  assert (Hne : (Z.of_nat attempt =? Z.of_nat retries - 1)%Z = false)
    by (apply Z.eqb_neq; lia).
  unfold except_client_error, attempt_once, aio_bind at 1, session_request.
  unfold retried in Hanswer.
  destruct (net method url (clock w)) as [[message|e]|r].
  - rewrite Hne. unfold aio_bind, asyncio_sleep, aio_ret. cbn [clock trace].
    rewrite <- app_assoc. reflexivity.
  - contradiction.
  - destruct (status r =? 502)%Z eqn:H502.
    + unfold aio_bind, asyncio_sleep, aio_ret. cbn [clock trace].
      rewrite <- app_assoc. reflexivity.
    + destruct (300 <=? status r)%Z eqn:H300.
      * unfold aio_bind at 1, _handle_error.
        destruct (json r); unfold aio_raise; rewrite Hne;
          unfold aio_bind, asyncio_sleep, aio_ret; cbn [clock trace];
          rewrite <- app_assoc; reflexivity.
      * destruct Hanswer as [H|[H|[message Hjson]]].
        -- apply Z.eqb_neq in H502. contradiction.
        -- apply Z.leb_gt in H300. lia.
        -- unfold aio_bind at 1, aio_ret at 1.
           unfold aio_bind at 1, response_json. rewrite Hjson.
           unfold aio_raise at 1. rewrite Hne.
           unfold aio_bind, asyncio_sleep, aio_ret. cbn [clock trace].
           rewrite <- app_assoc. reflexivity.
Qed.

(** [k] such answers in a row are [k] turns of the loop. *)
Lemma request_loop_retries (k : nat) :
  forall (remaining attempt : nat) (w : World),
    (forall i, i < k -> retried (net method url (clock w + i))) ->
    attempt + k < retries ->
    request_loop net method url retries backoff_factor (k + remaining)
                 attempt w
    = request_loop net method url retries backoff_factor remaining
                   (attempt + k)
                   (mkWorld (clock w + k)
                      (trace w ++ attempts method (Some url) None
                                           backoff_factor attempt k)).
Proof.
  induction k as [|k IH]; intros remaining attempt w Hanswers Hbound.
  - rewrite !Nat.add_0_r. unfold attempts. cbn [seq flat_map Nat.add].
    rewrite app_nil_r. destruct w; reflexivity.
  - change (S k + remaining) with (S (k + remaining)).
    cbn [request_loop]. unfold aio_bind at 1.
    rewrite attempt_retried;
      [|specialize (Hanswers 0); rewrite Nat.add_0_r in Hanswers;
        apply Hanswers; lia|lia].
    rewrite IH.
    + cbn [clock trace]. rewrite <- app_assoc.
      replace (S (clock w) + k) with (clock w + S k) by lia.
      replace (S attempt + k) with (attempt + S k) by lia.
      reflexivity.
    + intros i Hi. cbn [clock].
      replace (S (clock w) + i) with (clock w + S i) by lia.
      apply Hanswers. lia.
    + lia.
Qed.

Lemma async_request_retries (k remaining : nat) (w : World) :
  (forall i, i < k -> retried (net method url (clock w + i))) ->
  retries = k + S remaining ->
  _async_request net method url retries backoff_factor w
  = request_loop net method url retries backoff_factor (S remaining) k
      (mkWorld (clock w + k)
         (trace w ++ attempts method (Some url) None backoff_factor 0 k)).
Proof.
  intros Hanswers Hretries. unfold _async_request.
  rewrite Hretries at 2.
  rewrite (request_loop_retries k (S remaining) 0 w Hanswers) by lia.
  reflexivity.
Qed.

End AsyncTransport.

(** X26.  [_async_request] tries again after every answer it cannot
    use: after [k] answers that are a 502, an error status or a
    [ClientError], with [k] less than [retries], an answer below 300
    with a JSON body is returned, [k + 1] requests having been sent with
    the sleeps [backoff_factor * 2^i] between them. *)
Theorem async_transport_tries_again_after_client_errors
    (net : AsyncFirecrawlApp.AioNet) (method : Method) (url : string)
    (retries : nat) (backoff_factor : Q) (k : nat) (w : World)
    (r : AsyncFirecrawlApp.ClientResponse) (j : Json) :
  k < retries ->
  (forall i, i < k ->
     AsyncFirecrawlApp.retried (net method url (clock w + i))) ->
  net method url (clock w + k) = inr r ->
  (AsyncFirecrawlApp.status r < 300)%Z ->
  AsyncFirecrawlApp.json r = inr j ->
  AsyncFirecrawlApp._async_request net method url retries backoff_factor w
  = (AsyncFirecrawlApp.Returned j,
     mkWorld (clock w + S k)
       (trace w
        ++ attempts method (Some url) None backoff_factor 0 k
        ++ [Request method (Some url) None])).
Proof.
  intros Hk Hanswers Hnet Hstatus Hjson.
  rewrite (async_request_retries net method url retries backoff_factor k
             (retries - S k) w Hanswers) by lia.
  cbn [AsyncFirecrawlApp.request_loop].
  unfold AsyncFirecrawlApp.aio_bind at 1,
         AsyncFirecrawlApp.except_client_error,
         AsyncFirecrawlApp.attempt_once,
         AsyncFirecrawlApp.aio_bind at 1,
         AsyncFirecrawlApp.session_request.
  cbn [clock trace]. rewrite Hnet.
  replace (AsyncFirecrawlApp.status r =? 502)%Z with false
    by (symmetry; apply Z.eqb_neq; lia).
  replace (300 <=? AsyncFirecrawlApp.status r)%Z with false
    by (symmetry; apply Z.leb_gt; lia).
  unfold AsyncFirecrawlApp.aio_bind at 1, AsyncFirecrawlApp.aio_ret at 1.
  unfold AsyncFirecrawlApp.aio_bind at 1, AsyncFirecrawlApp.response_json.
  rewrite Hjson. unfold AsyncFirecrawlApp.aio_ret.
  rewrite <- app_assoc.
  replace (S (clock w + k)) with (clock w + S k) by lia. reflexivity.
Qed.

(** X27.  [_async_request] does not fail at once on an error status:
    the [ClientError] of [_handle_error] is raised inside the [try] that
    catches [ClientError], so the request is sent again, and the error
    reaches the caller on the last attempt only, with the message of the
    last answer, after [retries] requests. *)
Theorem async_error_status_is_raised_on_the_last_attempt
    (net : AsyncFirecrawlApp.AioNet) (method : Method) (url : string)
    (backoff_factor : Q) (n : nat) (w : World)
    (r : AsyncFirecrawlApp.ClientResponse) :
  (forall i, i < n ->
     AsyncFirecrawlApp.retried (net method url (clock w + i))) ->
  net method url (clock w + n) = inr r ->
  (300 <= AsyncFirecrawlApp.status r)%Z ->
  AsyncFirecrawlApp.status r <> 502%Z ->
  AsyncFirecrawlApp._async_request net method url (S n) backoff_factor w
  = (AsyncFirecrawlApp.Threw
       (AsyncFirecrawlApp.ClientError
          match AsyncFirecrawlApp.json r with
          | inl _ =>
              Some ("Failed to parse Firecrawl error response as JSON. "
                    +:+ "Status code: "
                    +:+ py_str_int (AsyncFirecrawlApp.status r))
          | inr error_data =>
              _get_error_message
                (AsyncFirecrawlApp.status r)
                ("make " +:+ AsyncFirecrawlApp.method_str method
                 +:+ " request")
                (default "No error message provided." (j_error error_data))
                (default "No additional error details provided."
                         (j_details error_data))
          end),
     mkWorld (clock w + S n)
       (trace w
        ++ attempts method (Some url) None backoff_factor 0 n
        ++ [Request method (Some url) None])).
Proof.
  intros Hanswers Hnet H300 H502.
  rewrite (async_request_retries net method url (S n) backoff_factor n 0 w
             Hanswers) by lia.
  cbn [AsyncFirecrawlApp.request_loop].
  unfold AsyncFirecrawlApp.aio_bind at 1,
         AsyncFirecrawlApp.except_client_error,
         AsyncFirecrawlApp.attempt_once,
         AsyncFirecrawlApp.aio_bind at 1,
         AsyncFirecrawlApp.session_request.
  cbn [clock trace]. rewrite Hnet.
  replace (AsyncFirecrawlApp.status r =? 502)%Z with false
    by (symmetry; apply Z.eqb_neq; exact H502).
  replace (300 <=? AsyncFirecrawlApp.status r)%Z with true
    by (symmetry; apply Z.leb_le; exact H300).
  replace (Z.of_nat n =? Z.of_nat (S n) - 1)%Z with true
    by (symmetry; apply Z.eqb_eq; lia).
  unfold AsyncFirecrawlApp.aio_bind at 1, AsyncFirecrawlApp._handle_error,
         AsyncFirecrawlApp._get_async_error_message.
  rewrite <- app_assoc.
  replace (S (clock w + n)) with (clock w + S n) by lia.
  destruct (AsyncFirecrawlApp.json r); reflexivity.
Qed.

(** X28.  When the last attempt of [_async_request] meets a 502 the
    call sleeps once more and raises [Exception('Max retries
    exceeded')]: it has sent [retries] requests and slept [retries]
    times, and the 502 answer itself is not handed to the caller. *)
Theorem async_transport_gives_up_after_a_last_502
    (net : AsyncFirecrawlApp.AioNet) (method : Method) (url : string)
    (backoff_factor : Q) (n : nat) (w : World)
    (r : AsyncFirecrawlApp.ClientResponse) :
  (forall i, i < n ->
     AsyncFirecrawlApp.retried (net method url (clock w + i))) ->
  net method url (clock w + n) = inr r ->
  AsyncFirecrawlApp.status r = 502%Z ->
  AsyncFirecrawlApp._async_request net method url (S n) backoff_factor w
  = (AsyncFirecrawlApp.Threw
       (AsyncFirecrawlApp.NotClientError
          (Exception "Max retries exceeded")),
     mkWorld (clock w + S n)
       (trace w ++ attempts method (Some url) None backoff_factor 0 (S n))).
Proof.
  intros Hanswers Hnet H502.
  rewrite (async_request_retries net method url (S n) backoff_factor n 0 w
             Hanswers) by lia.
  cbn [AsyncFirecrawlApp.request_loop].
  unfold AsyncFirecrawlApp.aio_bind at 1,
         AsyncFirecrawlApp.except_client_error,
         AsyncFirecrawlApp.attempt_once,
         AsyncFirecrawlApp.aio_bind at 1,
         AsyncFirecrawlApp.session_request.
  cbn [clock trace]. rewrite Hnet, H502.
  cbn [Z.eqb Pos.eqb].
  unfold AsyncFirecrawlApp.aio_bind, AsyncFirecrawlApp.asyncio_sleep,
         AsyncFirecrawlApp.aio_ret, AsyncFirecrawlApp.aio_raise.
  cbn [clock trace].
  replace (S (clock w + n)) with (clock w + S n) by lia.
  rewrite <- !app_assoc.
  replace (attempts method (Some url) None backoff_factor 0 (S n))
    with (attempts method (Some url) None backoff_factor 0 n
          ++ [Request method (Some url) None;
              Sleep (backoff backoff_factor n)]).
  - reflexivity.
  - unfold attempts. rewrite seq_S, flat_map_app. cbn [flat_map Nat.add].
    rewrite app_nil_r. reflexivity.
Qed.

(** X29.  Only [ClientError] is retried: an exception of another
    class, raised by the connection or by the decoding of a body, leaves
    [_async_request] at once, with no sleep and no further request,
    however many attempts are left. *)
Theorem other_exceptions_leave_the_async_transport_at_once
    (net : AsyncFirecrawlApp.AioNet) (method : Method) (url : string)
    (retries : nat) (backoff_factor : Q) (k : nat) (w : World) (e : Exn) :
  k < retries ->
  (forall i, i < k ->
     AsyncFirecrawlApp.retried (net method url (clock w + i))) ->
  (net method url (clock w + k) = inl (AsyncFirecrawlApp.NotClientError e)
   \/ exists r,
        net method url (clock w + k) = inr r
        /\ (AsyncFirecrawlApp.status r < 300)%Z
        /\ AsyncFirecrawlApp.json r
           = inl (AsyncFirecrawlApp.NotClientError e)) ->
  AsyncFirecrawlApp._async_request net method url retries backoff_factor w
  = (AsyncFirecrawlApp.Threw (AsyncFirecrawlApp.NotClientError e),
     mkWorld (clock w + S k)
       (trace w
        ++ attempts method (Some url) None backoff_factor 0 k
        ++ [Request method (Some url) None])).
Proof.
  intros Hk Hanswers Hlast.
  rewrite (async_request_retries net method url retries backoff_factor k
             (retries - S k) w Hanswers) by lia.
  cbn [AsyncFirecrawlApp.request_loop].
  unfold AsyncFirecrawlApp.aio_bind at 1,
         AsyncFirecrawlApp.except_client_error,
         AsyncFirecrawlApp.attempt_once,
         AsyncFirecrawlApp.aio_bind at 1,
         AsyncFirecrawlApp.session_request.
  cbn [clock trace]. rewrite <- app_assoc.
  replace (S (clock w + k)) with (clock w + S k) by lia.
  destruct Hlast as [Hnet|(r & Hnet & Hstatus & Hjson)]; rewrite Hnet.
  - reflexivity.
  - replace (AsyncFirecrawlApp.status r =? 502)%Z with false
      by (symmetry; apply Z.eqb_neq; lia).
    replace (300 <=? AsyncFirecrawlApp.status r)%Z with false
      by (symmetry; apply Z.leb_gt; lia).
    unfold AsyncFirecrawlApp.aio_bind at 1, AsyncFirecrawlApp.aio_ret at 1.
    unfold AsyncFirecrawlApp.aio_bind at 1, AsyncFirecrawlApp.response_json.
    rewrite Hjson. reflexivity.
Qed.

(** ** Instances of the further properties *)

Lemma init_on_the_cloud_needs_a_key_witness :
  falsy None = true
  /\ no_env "FIRECRAWL_API_URL" = None
  /\ FirecrawlApp.__init__ no_env None None
     = ([Warning "No API key provided for cloud service"],
        inl (ValueError "No API key provided"))
  /\ snd (FirecrawlApp.__init__ no_env (Some "fc-key") None)
     = inr (FirecrawlApp.mk (Some "fc-key") "https://api.firecrawl.dev").
Proof.
  pose proof (init_on_the_cloud_needs_a_key no_env None None
                eq_refl eq_refl) as Hnone.
  pose proof (init_on_the_cloud_needs_a_key no_env (Some "fc-key") None
                eq_refl eq_refl) as Hkey.
  split; [reflexivity|]. split; [reflexivity|]. split.
  - exact (proj1 Hnone (conj eq_refl eq_refl)).
  - exact (proj1 (proj2 Hkey) (or_introl eq_refl)).
Defined.

Lemma init_key_requirement_is_a_substring_test_witness :
  "http://localhost:3002" <> ""
  /\ (forall before after,
        "http://localhost:3002" <> before +:+ "api.firecrawl.dev" +:+ after)
  /\ snd (FirecrawlApp.__init__ no_env None (Some "http://localhost:3002"))
     = inr (FirecrawlApp.mk None "http://localhost:3002")
  /\ snd (FirecrawlApp.__init__
            no_env None
            (Some "http://localhost:3002/?via=api.firecrawl.dev"))
     = inl (ValueError "No API key provided").
Proof.
  assert (Hlocal : "http://localhost:3002" <> "") by discriminate.
  assert (Hvia : "http://localhost:3002/?via=api.firecrawl.dev" <> "")
    by discriminate.
  assert (Hnowhere : forall before after,
             "http://localhost:3002"
             <> before +:+ "api.firecrawl.dev" +:+ after)
    by (apply py_in_nowhere; reflexivity).
  split; [exact Hlocal|]. split; [exact Hnowhere|]. split.
  - exact (proj1 (init_key_requirement_is_a_substring_test
                    no_env None "http://localhost:3002" Hlocal) Hnowhere).
  - refine (proj1 (proj2 (init_key_requirement_is_a_substring_test
                            no_env None
                            "http://localhost:3002/?via=api.firecrawl.dev"
                            Hvia)) _ eq_refl eq_refl).
    exists "http://localhost:3002/?via=", "". reflexivity.
Defined.

Lemma keyless_client_sends_bearer_none_witness :
  "http://localhost:3002" <> ""
  /\ (forall before after,
        "http://localhost:3002" <> before +:+ "api.firecrawl.dev" +:+ after)
  /\ no_env "FIRECRAWL_API_KEY" = None
  /\ exists app,
       snd (FirecrawlApp.__init__ no_env None (Some "http://localhost:3002"))
       = inr app
       /\ FirecrawlApp._prepare_headers app None !! "Authorization"
          = Some "Bearer None".
Proof.
  assert (Hlocal : "http://localhost:3002" <> "") by discriminate.
  assert (Hnowhere : forall before after,
             "http://localhost:3002"
             <> before +:+ "api.firecrawl.dev" +:+ after)
    by (apply py_in_nowhere; reflexivity).
  split; [exact Hlocal|]. split; [exact Hnowhere|]. split; [reflexivity|].
  destruct (keyless_client_sends_bearer_none
              no_env "http://localhost:3002" None Hlocal Hnowhere eq_refl)
    as (app & Hbuilt & Hauth & _).
  exists app. split; [exact Hbuilt|exact Hauth].
Defined.

Lemma validate_kwargs_accepts_exactly_the_known_witness :
  FirecrawlApp._validate_kwargs in_some_order {["limit"]} "crawl_url"
                                new_world
  = (Ok tt, new_world)
  /\ fst (FirecrawlApp._validate_kwargs in_some_order {["depth"]}
                                        "crawl_url" new_world)
     = Raised (ValueError
                 ("Unsupported parameter(s) for crawl_url: depth"
                  +:+ ". Please refer to the API documentation for the "
                  +:+ "correct parameters.")).
Proof.
  pose proof (validate_kwargs_accepts_exactly_the_known
                World in_some_order {["limit"]} "crawl_url" new_world)
    as (Hsame & Hok & _).
  pose proof (validate_kwargs_accepts_exactly_the_known
                World in_some_order {["depth"]} "crawl_url" new_world)
    as (_ & _ & _ & Hnamed).
  split.
  - apply injective_projections; [|exact Hsame].
    apply (proj2 Hok). apply (bool_decide_unpack _). vm_compute. exact I.
  - apply (Hnamed "depth"); vm_compute; reflexivity.
Defined.

Lemma async_crawl_url_rejects_every_extra_keyword_witness :
  ({["depth"]} : gset string) <> ∅
  /\ exists msg,
       async_crawl_url (script []) "https://api.test" in_some_order any_model
                       {["depth"]} (inr None) new_world
       = (Raised (ValueError msg), new_world).
Proof.
  assert (Hne : ({["depth"]} : gset string) <> ∅) by discriminate.
  split; [exact Hne|].
  exact (async_crawl_url_rejects_every_extra_keyword
           (script []) "https://api.test" in_some_order any_model
           {["depth"]} (inr None) new_world Hne).
Defined.

Lemma invalid_arguments_are_refused_before_any_request_witness :
  (exists msg,
     crawl_url (script []) "https://api.test" in_some_order 1 {["depth"]}
               (inr None) 2 new_world
     = (Raised (ValueError msg), new_world))
  /\ batch_scrape_urls (script []) "https://api.test" as_is in_some_order 1
                       ∅ (inl (ValueError "formats")) 2 new_world
     = (Raised (ValueError "formats"), new_world).
Proof.
  pose proof (invalid_arguments_are_refused_before_any_request
                (script []) "https://api.test" as_is in_some_order 1
                {["depth"]} (inr None) 2 new_world) as (Hkey & _).
  pose proof (invalid_arguments_are_refused_before_any_request
                (script []) "https://api.test" as_is in_some_order 1
                ∅ (inl (ValueError "formats")) 2 new_world)
    as (_ & _ & _ & Hbody).
  split.
  - apply (Hkey "depth").
    + apply elem_of_singleton. reflexivity.
    + apply (bool_decide_unpack _). vm_compute. exact I.
  - apply (Hbody (ValueError "formats") eq_refl).
    apply (bool_decide_unpack _). vm_compute. exact I.
Defined.

Lemma crawl_url_is_submission_then_poll_witness :
  let net := script [answer 200 (Some (job_answer "job"));
                     answer 200 (Some second_page)] in
  (∅ : gset string) ⊆ default ∅ (FirecrawlApp.method_params !! "crawl_url")
  /\ net POST (Some ("https://api.test" +:+ "/v1/crawl")) (clock new_world)
     = inr (mkResponse 200 (Some (job_answer "job")))
  /\ get_field "id" (j_fields (job_answer "job")) = Some "job"
  /\ crawl_url net "https://api.test" in_some_order 2 ∅ (inr (Some 30000%Z))
               2 new_world
     = (Ok (set_data second_page [doc_c]),
        mkWorld 2
          [Request POST (Some "https://api.test/v1/crawl") (Some 35000%Z);
           Request GET (Some "https://api.test/v1/crawl/job") None]).
Proof.
  intros net.
  assert (Hsub : (∅ : gset string)
                 ⊆ default ∅ (FirecrawlApp.method_params !! "crawl_url"))
    by (apply (bool_decide_unpack _); vm_compute; exact I).
  pose proof (crawl_url_is_submission_then_poll
                net "https://api.test" in_some_order 2 ∅ (Some 30000%Z) 2
                new_world (mkResponse 200 (Some (job_answer "job")))
                (job_answer "job") Hsub eq_refl eq_refl eq_refl) as H.
  split; [exact Hsub|]. split; [reflexivity|]. split; [reflexivity|].
  rewrite (proj1 H "job" eq_refl). reflexivity.
Defined.

Lemma refused_submission_is_not_polled_witness :
  let r := mkResponse 402 (Some (error_body "Insufficient credits"
                                            "Upgrade your plan")) in
  status_code r <> 200%Z
  /\ status_code r <> 502%Z
  /\ exists message,
       crawl_url (script [inr r]) "https://api.test" in_some_order 2 ∅
                 (inr None) 2 new_world
       = (Raised (HTTPError message 402),
          mkWorld 1 [Request POST (Some "https://api.test/v1/crawl") None])
       /\ message
          = Some ("Payment Required: Failed to start crawl job. "
                  +:+ "Insufficient credits - Upgrade your plan").
Proof.
  intros r.
  assert (H200 : status_code r <> 200%Z) by discriminate.
  assert (H502 : status_code r <> 502%Z) by discriminate.
  split; [exact H200|]. split; [exact H502|].
  destruct (proj1 (refused_submission_is_not_polled
                     (script [inr r]) "https://api.test" as_is in_some_order
                     2 None 2 new_world r H200 H502) eq_refl)
    as (message & Hrun & Htext).
  exists message. split; [exact Hrun|].
  exact (Htext "Insufficient credits" "Upgrade your plan" eq_refl).
Defined.

Lemma transport_sends_at_most_retries_requests_witness :
  _get_request (script []) (Some "https://api.test/v1/crawl/job") 0 (1 # 2)
               new_world
  = (Raised (UnboundLocalError "response"), new_world).
Proof.
  exact (proj1 (proj2 (proj2 (transport_sends_at_most_retries_requests
                                (script []) "https://api.test/v1/crawl/job"
                                None 0 (1 # 2) new_world))
                      eq_refl)).
Defined.

Lemma connection_failure_is_not_retried_witness :
  let net := script [inr (flaky 0)] in
  (0 <= 1 # 2)%Q
  /\ 1 < 3
  /\ (forall i, i < 1 -> status_code (flaky i) = 502%Z)
  /\ (forall i, i < 1 ->
        net GET (Some "https://api.test/v1/crawl/job") (clock new_world + i)
        = inr (flaky i))
  /\ net GET (Some "https://api.test/v1/crawl/job") (clock new_world + 1)
     = inl (RequestException "Connection aborted.")
  /\ _get_request net (Some "https://api.test/v1/crawl/job") 3 (1 # 2)
                  new_world
     = (Raised (RequestException "Connection aborted."),
        mkWorld 2
          [Request GET (Some "https://api.test/v1/crawl/job") None;
           Sleep ((1 # 2) * inject_Z (2 ^ 0));
           Request GET (Some "https://api.test/v1/crawl/job") None]).
Proof.
  intros net.
  assert (Hb : (0 <= 1 # 2)%Q) by (vm_compute; discriminate).
  assert (Hk : 1 < 3) by lia.
  assert (H502 : forall i, i < 1 -> status_code (flaky i) = 502%Z)
    by (intros i Hi; destruct i; [reflexivity|lia]).
  assert (Hnet : forall i, i < 1 ->
            net GET (Some "https://api.test/v1/crawl/job")
                (clock new_world + i)
            = inr (flaky i))
    by (intros i Hi; destruct i; [reflexivity|lia]).
  split; [exact Hb|]. split; [exact Hk|]. split; [exact H502|].
  split; [exact Hnet|]. split; [reflexivity|].
  exact (proj1 (connection_failure_is_not_retried
                  net "https://api.test/v1/crawl/job" None 3 (1 # 2) flaky 1
                  (RequestException "Connection aborted.") new_world
                  Hb Hk H502)
               Hnet eq_refl).
Defined.

Lemma error_lists_give_up_after_three_502_witness :
  let r := mkResponse 502 (Some (error_body "Bad gateway" "upstream")) in
  (forall i, i < 3 -> status_code ((fun _ => r) i) = 502%Z)
  /\ body r = Some (error_body "Bad gateway" "upstream")
  /\ fst (check_crawl_errors (always (inr r)) "https://api.test" any_model
                             "job" new_world)
     = Raised (HTTPError
                 (Some ("Unexpected error during check crawl errors: "
                        +:+ "Status code 502. "
                        +:+ "Bad gateway" +:+ " - " +:+ "upstream"))
                 502).
Proof.
  intros r.
  assert (H502 : forall i, i < 3 -> status_code ((fun _ : nat => r) i)
                                    = 502%Z)
    by (intros i _; reflexivity).
  split; [exact H502|]. split; [reflexivity|].
  rewrite (proj1 (error_lists_give_up_after_three_502
                    (always (inr r)) "https://api.test" any_model "job"
                    "Bad gateway" "upstream" (fun _ => r) new_world
                    H502 eq_refl)
                 (fun i _ => eq_refl)).
  reflexivity.
Defined.

Lemma model_rejection_is_reported_as_a_parse_failure_witness :
  let r := mkResponse 200 (Some (job_answer "job")) in
  status_code r = 200%Z
  /\ fst (check_crawl_errors (script [inr r]) "https://api.test"
                             (fun _ => false) "job" new_world)
     = Raised (Exception "Failed to parse Firecrawl response as JSON.")
  /\ fst (async_crawl_url (script [inr r]) "https://api.test" in_some_order
                          any_model ∅ (inr None) new_world)
     = Ok (job_answer "job").
Proof.
  intros r.
  pose proof (model_rejection_is_reported_as_a_parse_failure
                (script [inr r]) "https://api.test" in_some_order
                (fun _ => false) any_model any_model "job" None r new_world
                eq_refl) as (Herrors & _ & Hcrawl & _).
  split; [reflexivity|]. split.
  - exact (Herrors eq_refl).
  - exact (Hcrawl eq_refl).
Defined.

Lemma whole_page_chain_is_aggregated_witness :
  let middle_page :=
    status_page "completed" 3 4 (Some [doc_c])
                (Some (Some "https://api.test/v1/crawl/job?skip=3")) in
  let last_page := status_page "completed" 4 4 (Some [document "d"]) None in
  let net := script [answer 200 (Some first_page);
                     answer 200 (Some middle_page);
                     answer 200 (Some last_page)] in
  net GET (Some ("https://api.test" +:+ "/v1/crawl/" +:+ "job"))
      (clock new_world)
  = inr (mkResponse 200 (Some first_page))
  /\ page_chain net (S (clock new_world)) first_page [middle_page; last_page]
  /\ check_crawl_status net "https://api.test" 3 "job" new_world
     = (Ok (mkStatusResponse
              (Some "completed") (Some 4%Z) (Some 4%Z) (Some 4%Z)
              (Some "2030-01-01T00:00:00.000Z")
              [doc_a; doc_b; doc_c; document "d"] None None),
        mkWorld 3
          [Request GET (Some "https://api.test/v1/crawl/job") None;
           Request GET (Some "https://api.test/v1/crawl/job?skip=2") None;
           Request GET (Some "https://api.test/v1/crawl/job?skip=3") None]).
Proof.
  intros middle_page last_page net.
  assert (Hchain : page_chain net (S (clock new_world)) first_page
                              [middle_page; last_page]).
  { exists "https://api.test/v1/crawl/job?skip=2", [doc_a; doc_b],
           (mkResponse 200 (Some middle_page)).
    repeat (split; [first [reflexivity|discriminate]|]).
    exists "https://api.test/v1/crawl/job?skip=3", [doc_c],
           (mkResponse 200 (Some last_page)).
    repeat (split; [first [reflexivity|discriminate]|]).
    reflexivity. }
  split; [reflexivity|]. split; [exact Hchain|].
  exact (proj1 (whole_page_chain_is_aggregated
                  net "https://api.test" 0 "job" 2 new_world
                  (mkResponse 200 (Some first_page)) first_page
                  [doc_a; doc_b] [middle_page; last_page]
                  eq_refl eq_refl eq_refl eq_refl eq_refl Hchain)).
Defined.

Lemma failed_continuation_fetch_keeps_the_documents_witness :
  let net := script [answer 200 (Some first_page)] in
  let next_url := "https://api.test/v1/crawl/job?skip=2" in
  j_status first_page = Some "completed"
  /\ j_data first_page = Some [doc_a; doc_b]
  /\ [doc_a; doc_b] <> []
  /\ j_next first_page = Some (Some next_url)
  /\ next_url <> ""
  /\ net GET (Some next_url) (S (clock new_world))
     = inl (RequestException "Connection aborted.")
  /\ check_crawl_status net "https://api.test" 1 "job" new_world
     = (Ok (mkStatusResponse
              (Some "completed") (Some 3%Z) (Some 2%Z) (Some 2%Z)
              (Some "2030-01-01T00:00:00.000Z") [doc_a; doc_b]
              (Some next_url) None),
        mkWorld 2
          [Request GET (Some "https://api.test/v1/crawl/job") None;
           Request GET (Some next_url) None;
           LogError "Error during pagination request: "
                    (Some (RequestException "Connection aborted."))]).
Proof.
  intros net next_url.
  assert (Hdocs : [doc_a; doc_b] <> []) by discriminate.
  assert (Hurl : next_url <> "") by discriminate.
  split; [reflexivity|]. split; [reflexivity|]. split; [exact Hdocs|].
  split; [reflexivity|]. split; [exact Hurl|]. split; [reflexivity|].
  exact (proj1 (failed_continuation_fetch_keeps_the_documents
                  net "https://api.test" as_is 0 "job" 2 new_world
                  (mkResponse 200 (Some first_page)) first_page
                  [doc_a; doc_b] next_url
                  (RequestException "Connection aborted.")
                  eq_refl eq_refl eq_refl eq_refl Hdocs eq_refl Hurl
                  (or_introl eq_refl))
               eq_refl).
Defined.

Lemma continuation_fetch_never_raises_witness :
  let net := script [answer 500 None] in
  let next_url := "https://api.test/v1/crawl/job?skip=2" in
  j_next first_page = Some (Some next_url)
  /\ next_url <> ""
  /\ j_data first_page = Some [doc_a; doc_b]
  /\ [doc_a; doc_b] <> []
  /\ fst (get net (Some next_url) new_world) = Ok (mkResponse 500 None)
  /\ exists text cause,
       paginate net 1 first_page [doc_a; doc_b] new_world
       = (Ok (first_page, [doc_a; doc_b]),
          mkWorld 1 [Request GET (Some next_url) None;
                     LogError text cause]).
Proof.
  intros net next_url.
  assert (Hurl : next_url <> "") by discriminate.
  assert (Hdocs : [doc_a; doc_b] <> []) by discriminate.
  split; [reflexivity|]. split; [exact Hurl|]. split; [reflexivity|].
  split; [exact Hdocs|]. split; [reflexivity|].
  destruct (continuation_fetch_never_raises
              net 0 first_page [doc_a; doc_b] [doc_a; doc_b] next_url
              new_world eq_refl Hurl eq_refl Hdocs)
    as [(r & next_data & Hr & H200 & _)|(text & cause & Hrun)].
  - exfalso. injection Hr as <-. discriminate H200.
  - exists text, cause. exact Hrun.
Defined.

Lemma empty_page_or_empty_next_ends_the_walk_witness :
  let page := status_page "completed" 1 1 (Some [doc_a]) (Some None) in
  let net := script [answer 200 (Some page)] in
  net GET (Some ("https://api.test" +:+ "/v1/crawl/" +:+ "job"))
      (clock new_world)
  = inr (mkResponse 200 (Some page))
  /\ j_status page = Some "completed"
  /\ j_data page = Some [doc_a]
  /\ j_next page = Some None
  /\ check_crawl_status net "https://api.test" 1 "job" new_world
     = (Ok (mkStatusResponse
              (Some "completed") (Some 1%Z) (Some 1%Z) (Some 1%Z)
              (Some "2030-01-01T00:00:00.000Z") [doc_a] None None),
        mkWorld 1
          [Request GET (Some "https://api.test/v1/crawl/job") None;
           LogWarning "Expected 'next' URL is missing."]).
Proof.
  intros page net.
  do 4 (split; [reflexivity|]).
  exact (proj2 (empty_page_or_empty_next_ends_the_walk
                  net "https://api.test" 0 "job" new_world
                  (mkResponse 200 (Some page)) page [doc_a] None
                  eq_refl eq_refl eq_refl eq_refl eq_refl eq_refl)
               ltac:(discriminate) eq_refl).
Defined.

Lemma monitor_polls_until_the_job_completes_witness :
  let waiting := status_page "scraping" 1 3 None None in
  let net := script [answer 200 (Some waiting); answer 200 (Some waiting);
                     answer 200 (Some second_page)] in
  (forall i, i < 2 ->
     answers_status net ("https://api.test" +:+ "/v1/crawl/" +:+ "job")
                    (clock new_world + i) in_progress)
  /\ net GET (Some ("https://api.test" +:+ "/v1/crawl/" +:+ "job"))
         (clock new_world + 2)
     = inr (mkResponse 200 (Some second_page))
  /\ _monitor_job_status net "https://api.test" 4 "job" 0 new_world
     = (Ok (set_data second_page [doc_c]),
        mkWorld 3
          [Request GET (Some "https://api.test/v1/crawl/job") None;
           Sleep (inject_Z 2);
           Request GET (Some "https://api.test/v1/crawl/job") None;
           Sleep (inject_Z 2);
           Request GET (Some "https://api.test/v1/crawl/job") None]).
Proof.
  intros waiting net.
  assert (Hwait : forall i, i < 2 ->
            answers_status net
              ("https://api.test" +:+ "/v1/crawl/" +:+ "job")
              (clock new_world + i) in_progress).
  { intros i Hi. exists (mkResponse 200 (Some waiting)), waiting, "scraping".
    destruct i as [|[|i]]; [repeat split..|lia]. }
  split; [exact Hwait|]. split; [reflexivity|].
  exact (monitor_polls_until_the_job_completes
           net "https://api.test" "job" 0 2 0 new_world
           (mkResponse 200 (Some second_page)) second_page [doc_c]
           Hwait eq_refl eq_refl eq_refl eq_refl eq_refl eq_refl).
Defined.

Lemma monitor_has_no_poll_limit_witness :
  let waiting := status_page "scraping" 1 3 None None in
  let net := always (answer 200 (Some waiting)) in
  (forall i,
     answers_status net ("https://api.test" +:+ "/v1/crawl/" +:+ "job")
                    (clock new_world + i) in_progress)
  /\ _monitor_job_status net "https://api.test" 2 "job" 5 new_world
     = (OutOfFuel,
        mkWorld 2
          [Request GET (Some "https://api.test/v1/crawl/job") None;
           Sleep (inject_Z 5);
           Request GET (Some "https://api.test/v1/crawl/job") None;
           Sleep (inject_Z 5)]).
Proof.
  intros waiting net.
  assert (Hwait : forall i,
            answers_status net
              ("https://api.test" +:+ "/v1/crawl/" +:+ "job")
              (clock new_world + i) in_progress).
  { intros i. exists (mkResponse 200 (Some waiting)), waiting, "scraping".
    repeat split. }
  split; [exact Hwait|].
  exact (monitor_has_no_poll_limit net "https://api.test" "job" 5 new_world
                                   Hwait 2).
Defined.

Lemma batch_status_check_waits_on_every_other_status_witness :
  let failed := status_page "failed" 1 3 None None in
  let net := always (answer 200 (Some failed)) in
  (0 <= 0)%Z
  /\ (forall i,
        answers_status net
          ("https://api.test" +:+ "/v1/batch/scrape/" +:+ "job")
          (clock new_world + i) unfinished)
  /\ fst (check_batch_scrape_status net "https://api.test" as_is 3 "job" 0
                                    new_world)
     = OutOfFuel
  /\ clock (snd (check_batch_scrape_status net "https://api.test" as_is 3
                                           "job" 0 new_world))
     = 4.
Proof.
  intros failed net.
  assert (Hpoll : (0 <= 0)%Z) by lia.
  assert (Hwait : forall i,
            answers_status net
              ("https://api.test" +:+ "/v1/batch/scrape/" +:+ "job")
              (clock new_world + i) unfinished).
  { intros i. exists (mkResponse 200 (Some failed)), failed, "failed".
    repeat split. }
  split; [exact Hpoll|]. split; [exact Hwait|].
  exact (batch_status_check_waits_on_every_other_status
           net "https://api.test" as_is "job" 0 new_world Hpoll Hwait 3).
Defined.

Lemma monitor_stops_on_a_refused_status_query_witness :
  let waiting := status_page "scraping" 1 3 None None in
  let gone := mkResponse 404 (Some (error_body "Job not found" "expired")) in
  let net := script [answer 200 (Some waiting); inr gone] in
  (forall i, i < 1 ->
     answers_status net ("https://api.test" +:+ "/v1/crawl/" +:+ "job")
                    (clock new_world + i) in_progress)
  /\ status_code gone <> 200%Z
  /\ status_code gone <> 502%Z
  /\ exists message,
       _monitor_job_status net "https://api.test" 5 "job" 2 new_world
       = (Raised (HTTPError message 404),
          mkWorld 2
            [Request GET (Some "https://api.test/v1/crawl/job") None;
             Sleep (inject_Z 2);
             Request GET (Some "https://api.test/v1/crawl/job") None]).
Proof.
  intros waiting gone net.
  assert (Hwait : forall i, i < 1 ->
            answers_status net
              ("https://api.test" +:+ "/v1/crawl/" +:+ "job")
              (clock new_world + i) in_progress).
  { intros i Hi. exists (mkResponse 200 (Some waiting)), waiting, "scraping".
    destruct i as [|i]; [repeat split|lia]. }
  assert (H200 : status_code gone <> 200%Z) by discriminate.
  assert (H502 : status_code gone <> 502%Z) by discriminate.
  split; [exact Hwait|]. split; [exact H200|]. split; [exact H502|].
  exact (monitor_stops_on_a_refused_status_query
           net "https://api.test" "job" 2 1 3 new_world gone
           Hwait eq_refl H200 H502).
Defined.

Lemma error_frame_marks_the_session_failed_witness :
  let s := snd (CrawlWatcher.add_event_listener "error" (quiet 3)
                  (CrawlWatcher.start "job")) in
  CrawlWatcher.event_handlers (CrawlWatcher.self s) !! "error"
  = Some [quiet 3]
  /\ CrawlWatcher._handle_message (frame_error (Some "boom")) s
     = (Ok tt,
        CrawlWatcher.mkSession
          (CrawlWatcher.mk "job" [] "failed"
             (CrawlWatcher.event_handlers (CrawlWatcher.self s)))
          [mkInvocation 3 (DetailError "failed" [] "boom" "job") "failed"]).
Proof.
  intros s. split; [reflexivity|].
  exact (proj1 (error_frame_marks_the_session_failed s [quiet 3] "boom")
               eq_refl ltac:(intros h [<-|[]]; reflexivity)).
Defined.

Lemma raising_listener_ends_the_watch_witness :
  let s :=
    snd (CrawlWatcher.add_event_listener "document" (quiet 3)
           (snd (CrawlWatcher.add_event_listener "document" (raising 2)
                   (snd (CrawlWatcher.add_event_listener
                           "document" (quiet 1)
                           (CrawlWatcher.start "job")))))) in
  CrawlWatcher.event_handlers (CrawlWatcher.self s) !! "document"
  = Some ([quiet 1] ++ raising 2 :: [quiet 3])
  /\ h_raises (raising 2) (DetailDocument doc_a "job") = true
  /\ CrawlWatcher._listen [frame_document doc_a; frame_done] s
     = (Raised (ListenerError 2),
        CrawlWatcher.mkSession
          (CrawlWatcher.mk "job" [doc_a] "scraping"
             (CrawlWatcher.event_handlers (CrawlWatcher.self s)))
          [mkInvocation 1 (DetailDocument doc_a "job") "scraping";
           mkInvocation 2 (DetailDocument doc_a "job") "scraping"]).
Proof.
  intros s. split; [reflexivity|]. split; [reflexivity|].
  exact (raising_listener_ends_the_watch
           s doc_a [quiet 1] [quiet 3] (raising 2) [frame_done]
           eq_refl ltac:(intros h' [<-|[]]; reflexivity) eq_refl).
Defined.

Lemma listener_added_n_times_is_called_n_times_witness :
  CrawlWatcher.event_handlers (CrawlWatcher.self listening) !! "document"
  = Some [quiet 1]
  /\ fst (CrawlWatcher.dispatch_event
            "document" (DetailDocument doc_a "job")
            (register 2 "document" (quiet 5) listening))
     = Ok tt
  /\ CrawlWatcher.heard
       (snd (CrawlWatcher.dispatch_event
               "document" (DetailDocument doc_a "job")
               (register 2 "document" (quiet 5) listening)))
     = [mkInvocation 1 (DetailDocument doc_a "job") "scraping";
        mkInvocation 5 (DetailDocument doc_a "job") "scraping";
        mkInvocation 5 (DetailDocument doc_a "job") "scraping"].
Proof.
  pose proof (listener_added_n_times_is_called_n_times
                listening "document" (DetailDocument doc_a "job")
                [quiet 1] (quiet 5) 2
                eq_refl ltac:(intros h' [<-|[]]; reflexivity) eq_refl) as H.
  split; [reflexivity|]. cbv zeta in H. rewrite H. split; reflexivity.
Defined.

Lemma ws_url_replaces_every_http_witness :
  py_in "http" "s://api.firecrawl.dev" = false
  /\ ws_url "https://api.firecrawl.dev" "job"
     = "wss://api.firecrawl.dev/v1/crawl/job"
  /\ ws_url "http://httpbin.test" "job" = "ws://wsbin.test/v1/crawl/job".
Proof.
  pose proof (ws_url_replaces_every_http
                "s://api.firecrawl.dev" "://" "bin.test" "job")
    as [Hscheme Hhost].
  split; [reflexivity|]. split.
  - exact (Hscheme eq_refl).
  - exact (Hhost eq_refl eq_refl).
Defined.

Lemma async_transport_tries_again_after_client_errors_witness :
  let missing :=
    AsyncFirecrawlApp.mkClientResponse
      404 (inr (error_body "Not found" "try later")) in
  let net :=
    aio_script
      [inr missing;
       inl (AsyncFirecrawlApp.ClientError (Some "Server disconnected"));
       inr (AsyncFirecrawlApp.mkClientResponse 200 (inr second_page))] in
  2 < 3
  /\ (forall i, i < 2 ->
        AsyncFirecrawlApp.retried
          (net GET "https://api.test/v1/crawl/job" (clock new_world + i)))
  /\ AsyncFirecrawlApp._async_request net GET "https://api.test/v1/crawl/job"
                                      3 (1 # 2) new_world
     = (AsyncFirecrawlApp.Returned second_page,
        mkWorld 3
          [Request GET (Some "https://api.test/v1/crawl/job") None;
           Sleep ((1 # 2) * inject_Z (2 ^ 0));
           Request GET (Some "https://api.test/v1/crawl/job") None;
           Sleep ((1 # 2) * inject_Z (2 ^ 1));
           Request GET (Some "https://api.test/v1/crawl/job") None]).
Proof.
  intros missing net.
  assert (Hk : 2 < 3) by lia.
  assert (Hanswers : forall i, i < 2 ->
            AsyncFirecrawlApp.retried
              (net GET "https://api.test/v1/crawl/job"
                   (clock new_world + i))).
  { intros i Hi. destruct i as [|[|i]]; [|exact I|lia].
    right; left. cbn. lia. }
  assert (Hstatus : (AsyncFirecrawlApp.status
                       (AsyncFirecrawlApp.mkClientResponse
                          200 (inr second_page)) < 300)%Z)
    by (cbn; lia).
  split; [exact Hk|]. split; [exact Hanswers|].
  exact (async_transport_tries_again_after_client_errors
           net GET "https://api.test/v1/crawl/job" 3 (1 # 2) 2 new_world
           (AsyncFirecrawlApp.mkClientResponse 200 (inr second_page))
           second_page Hk Hanswers eq_refl Hstatus eq_refl).
Defined.

Lemma async_error_status_is_raised_on_the_last_attempt_witness :
  let missing :=
    AsyncFirecrawlApp.mkClientResponse
      404 (inr (error_body "Not found" "try later")) in
  let net := aio_script [inr missing; inr missing; inr missing] in
  (forall i, i < 2 ->
     AsyncFirecrawlApp.retried
       (net GET "https://api.test/v1/crawl/job" (clock new_world + i)))
  /\ (300 <= AsyncFirecrawlApp.status missing)%Z
  /\ AsyncFirecrawlApp.status missing <> 502%Z
  /\ AsyncFirecrawlApp._async_request net GET "https://api.test/v1/crawl/job"
                                      3 (1 # 2) new_world
     = (AsyncFirecrawlApp.Threw
          (AsyncFirecrawlApp.ClientError
             (Some ("Unexpected error during make GET request: "
                    +:+ "Status code 404. Not found - try later"))),
        mkWorld 3
          [Request GET (Some "https://api.test/v1/crawl/job") None;
           Sleep ((1 # 2) * inject_Z (2 ^ 0));
           Request GET (Some "https://api.test/v1/crawl/job") None;
           Sleep ((1 # 2) * inject_Z (2 ^ 1));
           Request GET (Some "https://api.test/v1/crawl/job") None]).
Proof.
  intros missing net.
  assert (H300 : (300 <= AsyncFirecrawlApp.status missing)%Z) by (cbn; lia).
  assert (H502 : AsyncFirecrawlApp.status missing <> 502%Z)
    by (cbn; lia).
  assert (Hanswers : forall i, i < 2 ->
            AsyncFirecrawlApp.retried
              (net GET "https://api.test/v1/crawl/job"
                   (clock new_world + i))).
  { intros i Hi. destruct i as [|[|i]]; [| |lia]; right; left; exact H300. }
  split; [exact Hanswers|]. split; [exact H300|]. split; [exact H502|].
  exact (async_error_status_is_raised_on_the_last_attempt
           net GET "https://api.test/v1/crawl/job" (1 # 2) 2 new_world
           missing Hanswers eq_refl H300 H502).
Defined.

Lemma async_transport_gives_up_after_a_last_502_witness :
  let bad :=
    AsyncFirecrawlApp.mkClientResponse
      502 (inl (AsyncFirecrawlApp.ClientError None)) in
  let net := aio_script [inr bad; inr bad; inr bad] in
  (forall i, i < 2 ->
     AsyncFirecrawlApp.retried
       (net POST "https://api.test/v1/crawl" (clock new_world + i)))
  /\ AsyncFirecrawlApp.status bad = 502%Z
  /\ AsyncFirecrawlApp._async_request net POST "https://api.test/v1/crawl"
                                      3 (1 # 2) new_world
     = (AsyncFirecrawlApp.Threw
          (AsyncFirecrawlApp.NotClientError
             (Exception "Max retries exceeded")),
        mkWorld 3
          [Request POST (Some "https://api.test/v1/crawl") None;
           Sleep ((1 # 2) * inject_Z (2 ^ 0));
           Request POST (Some "https://api.test/v1/crawl") None;
           Sleep ((1 # 2) * inject_Z (2 ^ 1));
           Request POST (Some "https://api.test/v1/crawl") None;
           Sleep ((1 # 2) * inject_Z (2 ^ 2))]).
Proof.
  intros bad net.
  assert (Hanswers : forall i, i < 2 ->
            AsyncFirecrawlApp.retried
              (net POST "https://api.test/v1/crawl" (clock new_world + i))).
  { intros i Hi. destruct i as [|[|i]]; [| |lia]; left; reflexivity. }
  split; [exact Hanswers|]. split; [reflexivity|].
  exact (async_transport_gives_up_after_a_last_502
           net POST "https://api.test/v1/crawl" (1 # 2) 2 new_world bad
           Hanswers eq_refl eq_refl).
Defined.

Lemma other_exceptions_leave_the_async_transport_at_once_witness :
  let net :=
    aio_script
      [inl (AsyncFirecrawlApp.NotClientError (Exception "TimeoutError"))] in
  0 < 3
  /\ net GET "https://api.test/v1/crawl/job" (clock new_world + 0)
     = inl (AsyncFirecrawlApp.NotClientError (Exception "TimeoutError"))
  /\ AsyncFirecrawlApp._async_request net GET "https://api.test/v1/crawl/job"
                                      3 (1 # 2) new_world
     = (AsyncFirecrawlApp.Threw
          (AsyncFirecrawlApp.NotClientError (Exception "TimeoutError")),
        mkWorld 1
          [Request GET (Some "https://api.test/v1/crawl/job") None]).
Proof.
  intros net.
  assert (Hk : 0 < 3) by lia.
  split; [exact Hk|]. split; [reflexivity|].
  exact (other_exceptions_leave_the_async_transport_at_once
           net GET "https://api.test/v1/crawl/job" 3 (1 # 2) 0 new_world
           (Exception "TimeoutError") Hk
           (fun i (Hi : i < 0) => ltac:(lia))
           (or_introl eq_refl)).
Defined.
